(** * Fleet model-lifecycle orchestrator: a shallow embedding

    The four cooperating services of [src/cloud/services] (sample
    ingestion, labeling queue, model registry with staged rollout and the
    retraining orchestrator) are embedded as pure state-passing functions,
    one Rocq module per Python module.  Python dictionaries that are
    iterated keep their insertion order ([Py.dict]); the two SQLite tables
    are finite maps keyed by their primary key; floats are rationals;
    [datetime.now()] is an argument of the operation that reads the
    clock. *)

From Stdlib Require Import ZArith QArith String Ascii List Lia Lqa Bool Sorted.
From stdpp Require Import base decidable option list strings gmap fin_maps pretty sorting.

Import ListNotations.
#[local] Open Scope string_scope.
#[local] Open Scope list_scope.
#[local] Open Scope Z_scope.

(** ** Python values shared by the services *)

Module Py.

(** A naive [datetime]: microseconds since 1970-01-01T00:00:00. *)
Definition datetime := Z.

Definition total_seconds (later earlier : datetime) : Q :=
  (later - earlier) # 1000000.

(** [x < y] on floats, read over the rationals. *)
Definition Qltb (x y : Q) : bool := negb (Qle_bool y x).

(** Truthiness of [str] and [Optional[str]]: [None] and [''] are falsy. *)
Definition truthy_str (s : string) : bool :=
  match s with EmptyString => false | _ => true end.

Definition truthy (o : option string) : bool :=
  match o with Some s => truthy_str s | None => false end.

(** *** [strftime('%Y%m%d_%H%M%S')] *)

Definition digit (n : Z) : ascii := ascii_of_nat (48 + Z.to_nat (n mod 10)).

Fixpoint zero_padded (width : nat) (n : Z) (acc : string) : string :=
  match width with
  | O => acc
  | S w => zero_padded w (n / 10) (String (digit n) acc)
  end.

(** Proleptic Gregorian date of a day number counted from 1970-01-01. *)
Definition civil_from_days (days : Z) : Z * Z * Z :=
  let z := days + 719468 in
  let era := z / 146097 in
  let doe := z - era * 146097 in
  let yoe := (doe - doe / 1460 + doe / 36524 - doe / 146096) / 365 in
  let doy := doe - (365 * yoe + yoe / 4 - yoe / 100) in
  let mp := (5 * doy + 2) / 153 in
  let d := doy - (153 * mp + 2) / 5 + 1 in
  let m := if mp <? 10 then mp + 3 else mp - 9 in
  let y := yoe + era * 400 + (if m <=? 2 then 1 else 0) in
  (y, m, d).

Definition strftime (t : datetime) : string :=
  let secs := t / 1000000 in
  let '(y, m, d) := civil_from_days (secs / 86400) in
  let sod := secs mod 86400 in
  zero_padded 4 y
    (zero_padded 2 m
       (zero_padded 2 d
          (String "_"
             (zero_padded 2 (sod / 3600)
                (zero_padded 2 (sod / 60 mod 60)
                   (zero_padded 2 (sod mod 60) "")))))).

(** *** Insertion-ordered dictionaries

    A Python [dict] iterates in insertion order, and assigning to a key
    that is present keeps its position.  [tasks.values()],
    [registry.items()] and [device_status.keys()] are iterated by the
    services, so the order is part of the model. *)

Section Dict.
Context {K V : Type} `{EqDecision K}.

Definition dict := list (K * V).

Fixpoint get (k : K) (d : dict) : option V :=
  match d with
  | [] => None
  | (k', v) :: d' => if decide (k = k') then Some v else get k d'
  end.

Fixpoint set (k : K) (v : V) (d : dict) : dict :=
  match d with
  | [] => [(k, v)]
  | (k', v') :: d' =>
      if decide (k = k') then (k, v) :: d' else (k', v') :: set k v d'
  end.

Definition contains (k : K) (d : dict) : bool :=
  match get k d with Some _ => true | None => false end.

Definition keys (d : dict) : list K := map fst d.
Definition values (d : dict) : list V := map snd d.

End Dict.

Arguments dict K V : clear implicits.

(** *** [sorted] and [list.sort]

    Both are stable: elements with equal keys keep their order.  [le x y]
    is the comparison of the keys; with [reverse=True] it is the converse
    comparison, which keeps the sort stable as Python does. *)

Section Sort.
Context {A : Type} (le : A -> A -> bool).

Fixpoint insert_sorted (x : A) (l : list A) : list A :=
  match l with
  | [] => [x]
  | y :: l' => if le x y then x :: l else y :: insert_sorted x l'
  end.

Definition sort (l : list A) : list A := foldr insert_sorted [] l.

End Sort.

(** A callback either returns or raises; what it does besides is outside
    the services. *)
Inductive outcome := Returns | Raises.

(** Exceptions that leave a public operation. *)
Inductive exn := FileNotFoundError | SameFileError | ValueError | KeyError | CallbackError.

Inductive result (A : Type) :=
| Ok (a : A)
| Raise (e : exn).

Arguments Ok {A} a.
Arguments Raise {A} e.

(** JSON-like values of the free-form dictionaries that cross the API
    boundary. *)
#[local] Unset Elimination Schemes.
Inductive obj :=
| None_
| Bool (b : bool)
| Int (z : Z)
| Float (q : Q)
| Str (s : string)
| List (l : list obj).
#[local] Set Elimination Schemes.

(** *** Slices

    [l[:n]] and [l[n:]]; a negative bound counts from the end. *)
Definition slice_to {A} (n : Z) (l : list A) : list A :=
  if n <? 0 then take (length l - Z.to_nat (- n)) l else take (Z.to_nat n) l.

Definition slice_from {A} (n : Z) (l : list A) : list A :=
  if n <? 0 then drop (length l - Z.to_nat (- n)) l else drop (Z.to_nat n) l.

(** SQL's [LIMIT ?]: a negative bound is no bound. *)
Definition sql_limit {A} (limit : Z) (l : list A) : list A :=
  if limit <? 0 then l else take (Z.to_nat limit) l.

End Py.

(** ** [data_collector.py] *)

Module DataCollector.

(** The dataclass is not type-checked: [from_dict] stores whatever the
    envelope holds. *)
Record TrainingSample := {
  device_id : Py.obj;
  features : Py.obj;
  predicted_label : Py.obj;
  confidence : Py.obj;
  label_source : Py.obj;
  timestamp : Py.obj;
  received_at : Py.datetime;
  true_label : Py.obj;
  sample_id : Py.obj
}.

(** [data.get(key, default)] *)
Definition dict_get (data : gmap string Py.obj) (key : string) (dflt : Py.obj) : Py.obj :=
  default dflt (data !! key).

Definition from_dict (data : gmap string Py.obj) (now : Py.datetime) : TrainingSample :=
  {| device_id := dict_get data "device_id" (Py.Str "");
     features := dict_get data "features" (Py.List []);
     predicted_label := dict_get data "predicted_label" (Py.Int 0);
     confidence := dict_get data "confidence" (Py.Float 0);
     label_source := dict_get data "label_source" (Py.Int 0);
     timestamp := dict_get data "timestamp" (Py.Int 0);
     received_at := now;
     true_label := dict_get data "true_label" Py.None_;
     sample_id := dict_get data "sample_id" Py.None_ |}.

(** A row of table [samples]; the key of the table is column [id]. *)
Record sample_row := {
  s_device_id : string;
  s_features : list Q;
  s_predicted_label : Z;
  s_confidence : Q;
  s_label_source : Z;
  s_timestamp : Z;
  s_received_at : Py.datetime;
  s_true_label : option Z;
  s_used_for_training : Z
}.

(** A row of table [devices]; the key of the table is column [device_id]. *)
Record device_row := {
  d_total_samples : Z;
  d_labeled_samples : Z;
  d_last_seen : option Py.datetime;
  d_model_version : option string
}.

Record t := {
  sample_queue : list TrainingSample;
  buffer : list TrainingSample;
  samples : gmap Z sample_row;
  devices : gmap string device_row;
  on_sample_received : option (TrainingSample -> Py.outcome)
}.

Definition put (sample : TrainingSample) (dc : t) : t :=
  {| sample_queue := sample_queue dc ++ [sample];
     buffer := buffer dc;
     samples := samples dc;
     devices := devices dc;
     on_sample_received := on_sample_received dc |}.

(** [receive_sample]: the sample is queued before the callback runs; an
    exception of the callback is caught and turned into [False]. *)
Definition receive_sample (dc : t) (sample_data : gmap string Py.obj)
    (now : Py.datetime) : bool * t :=
  let sample := from_dict sample_data now in
  let dc' := put sample dc in
  match on_sample_received dc with
  | Some callback =>
      match callback sample with
      | Py.Returns => (true, dc')
      | Py.Raises => (false, dc')
      end
  | None => (true, dc')
  end.

(** [receive_batch]: every element gets the batch's device id. *)
Fixpoint receive_all (dc : t) (device : Py.obj) (batch : list (gmap string Py.obj))
    (now : Py.datetime) (count : Z) : Z * t :=
  match batch with
  | [] => (count, dc)
  | sample_data :: rest =>
      let '(ok, dc') := receive_sample dc (<["device_id" := device]> sample_data) now in
      receive_all dc' device rest now (if ok then count + 1 else count)
  end.

Definition receive_batch (dc : t) (device : option Py.obj)
    (batch : list (gmap string Py.obj)) (now : Py.datetime) : Z * t :=
  receive_all dc (default (Py.Str "") device) batch now 0.

Definition with_tables (samples' : gmap Z sample_row)
    (devices' : gmap string device_row) (dc : t) : t :=
  {| sample_queue := sample_queue dc;
     buffer := buffer dc;
     samples := samples';
     devices := devices';
     on_sample_received := on_sample_received dc |}.

Definition label_row (label : Z) (r : sample_row) : sample_row :=
  {| s_device_id := s_device_id r;
     s_features := s_features r;
     s_predicted_label := s_predicted_label r;
     s_confidence := s_confidence r;
     s_label_source := s_label_source r;
     s_timestamp := s_timestamp r;
     s_received_at := s_received_at r;
     s_true_label := Some label;
     s_used_for_training := s_used_for_training r |}.

Definition count_label (d : device_row) : device_row :=
  {| d_total_samples := d_total_samples d;
     d_labeled_samples := d_labeled_samples d + 1;
     d_last_seen := d_last_seen d;
     d_model_version := d_model_version d |}.

(** [set_label]: two UPDATE statements, the second on the device that the
    sub-select finds for the sample id (no row when the id is unknown). *)
Definition set_label (dc : t) (sample_id : Z) (label : Z) : bool * t :=
  let samples' := alter (label_row label) sample_id (samples dc) in
  let owner := s_device_id <$> samples' !! sample_id in
  let devices' :=
    match owner with
    | Some device => alter count_label device (devices dc)
    | None => devices dc
    end in
  (true, with_tables samples' devices' dc).

Definition use_row (r : sample_row) : sample_row :=
  {| s_device_id := s_device_id r;
     s_features := s_features r;
     s_predicted_label := s_predicted_label r;
     s_confidence := s_confidence r;
     s_label_source := s_label_source r;
     s_timestamp := s_timestamp r;
     s_received_at := s_received_at r;
     s_true_label := s_true_label r;
     s_used_for_training := 1 |}.

(** [mark_used_for_training]: UPDATE ... WHERE id IN (sample_ids). *)
Definition mark_used_for_training (dc : t) (sample_ids : list Z) : t :=
  with_tables (foldr (alter use_row) (samples dc) sample_ids) (devices dc) dc.

Record stats_summary := {
  total_samples : Z;
  labeled_samples : Z;
  unlabeled_samples : Z;
  total_devices : Z;
  used_for_training : Z;
  labeling_rate : Q
}.

(** SELECT COUNT( * ) FROM samples WHERE ... *)
Definition count_where (P : sample_row -> bool) (tbl : gmap Z sample_row) : Z :=
  Z.of_nat (length (filter (fun kv => P kv.2 = true) (map_to_list tbl))).

Definition get_stats_summary (dc : t) : stats_summary :=
  let total := count_where (fun _ => true) (samples dc) in
  let labeled := count_where (fun r => bool_decide (is_Some (s_true_label r))) (samples dc) in
  let used := count_where (fun r => s_used_for_training r =? 1) (samples dc) in
  {| total_samples := total;
     labeled_samples := labeled;
     unlabeled_samples := total - labeled;
     total_devices := Z.of_nat (size (devices dc));
     used_for_training := used;
     labeling_rate := if total >? 0 then labeled # Z.to_pos total else 0 |}.

End DataCollector.

(** ** [labeling_service.py] *)

Module LabelingPriority.

Inductive t := LOW | MEDIUM | HIGH | URGENT.

Definition value (p : t) : Z :=
  match p with LOW => 1 | MEDIUM => 2 | HIGH => 3 | URGENT => 4 end.

End LabelingPriority.

Module LabelingStatus.

Inductive t := PENDING | IN_PROGRESS | LABELED | SKIPPED | DISPUTED.

#[global] Instance eq_dec : EqDecision t.
Proof. solve_decision. Defined.

End LabelingStatus.

Module LabelingService.

Record LabelingTask := {
  task_id : Z;
  sample_id : Z;
  device_id : string;
  features : list Q;
  predicted_label : Z;
  confidence : Q;
  priority : LabelingPriority.t;
  status : LabelingStatus.t;
  created_at : Py.datetime;
  assigned_to : option string;
  assigned_at : option Py.datetime;
  completed_at : option Py.datetime;
  assigned_label : option Z;
  labeler_confidence : Q;
  notes : string
}.

(** An entry of [labeler_stats]; the [defaultdict] starts one at zero. *)
Record labeler_entry := {
  completed : Z;
  avg_time : Q;
  agreement_rate : Q
}.

Definition fresh_entry : labeler_entry :=
  {| completed := 0; avg_time := 0; agreement_rate := 0 |}.

(** The service; [data_collector] is the store behind the reference the
    service was built with. *)
Record t := {
  data_collector : option DataCollector.t;
  tasks : Py.dict Z LabelingTask;
  task_counter : Z;
  labeler_stats : Py.dict string labeler_entry;
  on_label_assigned : option (LabelingTask -> Py.outcome)
}.

Definition with_tasks (tasks' : Py.dict Z LabelingTask) (s : t) : t :=
  {| data_collector := data_collector s;
     tasks := tasks';
     task_counter := task_counter s;
     labeler_stats := labeler_stats s;
     on_label_assigned := on_label_assigned s |}.

(** [_sample_has_task] *)
Definition _sample_has_task (s : t) (sample : Z) : bool :=
  existsb
    (fun task =>
       (sample_id task =? sample)
       && (bool_decide (status task = LabelingStatus.PENDING)
           || bool_decide (status task = LabelingStatus.IN_PROGRESS)))
    (Py.values (tasks s)).

(** [_create_task], on the fields of the sample dictionary. *)
Definition _create_task (s : t) (sample : Z) (device : string) (feats : list Q)
    (predicted : Z) (conf : Q) (now : Py.datetime) : LabelingTask * t :=
  let counter := task_counter s + 1 in
  let prio :=
    if Py.Qltb conf (3 # 10) then LabelingPriority.HIGH
    else if Py.Qltb conf (5 # 10) then LabelingPriority.MEDIUM
    else LabelingPriority.LOW in
  let task :=
    {| task_id := counter; sample_id := sample; device_id := device;
       features := feats; predicted_label := predicted; confidence := conf;
       priority := prio; status := LabelingStatus.PENDING; created_at := now;
       assigned_to := None; assigned_at := None; completed_at := None;
       assigned_label := None; labeler_confidence := 1; notes := "" |} in
  (task,
   {| data_collector := data_collector s;
      tasks := Py.set counter task (tasks s);
      task_counter := counter;
      labeler_stats := labeler_stats s;
      on_label_assigned := on_label_assigned s |}).

(** The sort key [(-t.priority.value, t.created_at)] and the order of
    tuples. *)
Definition sort_key (task : LabelingTask) : Z * Z :=
  (- LabelingPriority.value (priority task), created_at task).

Definition key_le (a b : Z * Z) : bool :=
  (a.1 <? b.1) || ((a.1 =? b.1) && (a.2 <=? b.2)).

Definition by_key (a b : Z * LabelingTask) : bool :=
  key_le (sort_key a.2) (sort_key b.2).

Definition is_pending (task : LabelingTask) : bool :=
  bool_decide (status task = LabelingStatus.PENDING).

(** The list [pending], sorted; every task comes with the key of its slot
    in [self.tasks], which is the object the assignment then mutates. *)
Definition sorted_pending (s : t) : list (Z * LabelingTask) :=
  Py.sort by_key (filter (fun kv => is_pending kv.2 = true) (tasks s)).

Definition assign (labeler : option string) (now : Py.datetime)
    (task : LabelingTask) : LabelingTask :=
  {| task_id := task_id task; sample_id := sample_id task;
     device_id := device_id task; features := features task;
     predicted_label := predicted_label task; confidence := confidence task;
     priority := priority task; status := LabelingStatus.IN_PROGRESS;
     created_at := created_at task;
     assigned_to := labeler; assigned_at := Some now;
     completed_at := completed_at task;
     assigned_label := assigned_label task;
     labeler_confidence := labeler_confidence task; notes := notes task |}.

(** [get_next_task]; the result stands for [_task_to_dict(task)], read
    after the assignment. *)
Definition get_next_task (s : t) (labeler_id : option string)
    (now : Py.datetime) : option LabelingTask * t :=
  match sorted_pending s with
  | [] => (None, s)
  | (slot, task) :: _ =>
      if Py.truthy labeler_id then
        let task' := assign labeler_id now task in
        (Some task', with_tasks (Py.set slot task' (tasks s)) s)
      else (Some task, s)
  end.

(** [get_tasks_batch] *)
Fixpoint get_tasks_batch (s : t) (labeler_id : option string)
    (batch_size : nat) (now : Py.datetime) : list LabelingTask * t :=
  match batch_size with
  | O => ([], s)
  | S n =>
      match get_next_task s labeler_id now with
      | (Some task, s') =>
          let '(rest, s'') := get_tasks_batch s' labeler_id n now in
          (task :: rest, s'')
      | (None, s') => ([], s')
      end
  end.

(** [_update_labeler_stats], for the labeler the task is assigned to. *)
Definition _update_labeler_stats (stats : Py.dict string labeler_entry)
    (labeler : string) (task : LabelingTask) : Py.dict string labeler_entry :=
  let entry := default fresh_entry (Py.get labeler stats) in
  let n := completed entry + 1 in
  let avg :=
    match assigned_at task, completed_at task with
    | Some assigned, Some done_at =>
        let time_taken := Py.total_seconds done_at assigned in
        ((avg_time entry * inject_Z (n - 1) + time_taken) / inject_Z n)%Q
    | _, _ => avg_time entry
    end in
  let agreement : Q :=
    (if bool_decide (assigned_label task = Some (predicted_label task)) then 1 else 0)%Q in
  Py.set labeler
    {| completed := n;
       avg_time := avg;
       agreement_rate :=
         ((agreement_rate entry * inject_Z (n - 1) + agreement) / inject_Z n)%Q |}
    stats.

Definition label_task (label : Z) (labeler_id : option string) (conf : Q)
    (text : string) (now : Py.datetime) (task : LabelingTask) : LabelingTask :=
  {| task_id := task_id task; sample_id := sample_id task;
     device_id := device_id task; features := features task;
     predicted_label := predicted_label task; confidence := confidence task;
     priority := priority task; status := LabelingStatus.LABELED;
     created_at := created_at task;
     assigned_to := if Py.truthy labeler_id then labeler_id else assigned_to task;
     assigned_at := assigned_at task;
     completed_at := Some now;
     assigned_label := Some label;
     labeler_confidence := conf; notes := text |}.

(** [submit_label]; an exception of [on_label_assigned] leaves the call
    after the task, the store and the statistics were written. *)
Definition submit_label (s : t) (id : Z) (label : Z) (labeler_id : option string)
    (conf : Q) (text : string) (now : Py.datetime) : Py.result bool * t :=
  match Py.get id (tasks s) with
  | None => (Py.Ok false, s)
  | Some task =>
      let task' := label_task label labeler_id conf text now task in
      let store :=
        match data_collector s with
        | Some dc => Some (DataCollector.set_label dc (sample_id task') label).2
        | None => None
        end in
      let stats :=
        match assigned_to task' with
        | Some labeler =>
            if Py.truthy_str labeler
            then _update_labeler_stats (labeler_stats s) labeler task'
            else labeler_stats s
        | None => labeler_stats s
        end in
      let s' :=
        {| data_collector := store;
           tasks := Py.set id task' (tasks s);
           task_counter := task_counter s;
           labeler_stats := stats;
           on_label_assigned := on_label_assigned s |} in
      match on_label_assigned s with
      | Some callback =>
          match callback task' with
          | Py.Returns => (Py.Ok true, s')
          | Py.Raises => (Py.Raise Py.CallbackError, s')
          end
      | None => (Py.Ok true, s')
      end
  end.

Definition skipped (reason : string) (now : Py.datetime) (task : LabelingTask)
    : LabelingTask :=
  {| task_id := task_id task; sample_id := sample_id task;
     device_id := device_id task; features := features task;
     predicted_label := predicted_label task; confidence := confidence task;
     priority := priority task; status := LabelingStatus.SKIPPED;
     created_at := created_at task;
     assigned_to := assigned_to task; assigned_at := assigned_at task;
     completed_at := Some now;
     assigned_label := assigned_label task;
     labeler_confidence := labeler_confidence task; notes := reason |}.

(** [skip_task] *)
Definition skip_task (s : t) (id : Z) (reason : string) (now : Py.datetime)
    : bool * t :=
  match Py.get id (tasks s) with
  | None => (false, s)
  | Some task => (true, with_tasks (Py.set id (skipped reason now task) (tasks s)) s)
  end.

Definition disputed (reason : string) (task : LabelingTask) : LabelingTask :=
  {| task_id := task_id task; sample_id := sample_id task;
     device_id := device_id task; features := features task;
     predicted_label := predicted_label task; confidence := confidence task;
     priority := priority task; status := LabelingStatus.DISPUTED;
     created_at := created_at task;
     assigned_to := assigned_to task; assigned_at := assigned_at task;
     completed_at := completed_at task;
     assigned_label := assigned_label task;
     labeler_confidence := labeler_confidence task; notes := reason |}.

(** [dispute_label] *)
Definition dispute_label (s : t) (id : Z) (reason : string) : bool * t :=
  match Py.get id (tasks s) with
  | None => (false, s)
  | Some task => (true, with_tasks (Py.set id (disputed reason task) (tasks s)) s)
  end.

End LabelingService.

(** ** [deployment_manager.py] *)

Module DeploymentStatus.

Inductive t := PENDING | ROLLING_OUT | COMPLETED | FAILED | ROLLED_BACK.

#[global] Instance eq_dec : EqDecision t.
Proof. solve_decision. Defined.

End DeploymentStatus.

Module DeviceUpdateStatus.

Inductive t := PENDING | NOTIFIED | DOWNLOADING | INSTALLING | COMPLETED | FAILED.

#[global] Instance eq_dec : EqDecision t.
Proof. solve_decision. Defined.

(** [DeviceUpdateStatus(status)]: the member with that value, or
    [ValueError]. *)
Definition of_value (s : string) : option t :=
  if String.eqb s "pending" then Some PENDING
  else if String.eqb s "notified" then Some NOTIFIED
  else if String.eqb s "downloading" then Some DOWNLOADING
  else if String.eqb s "installing" then Some INSTALLING
  else if String.eqb s "completed" then Some COMPLETED
  else if String.eqb s "failed" then Some FAILED
  else None.

End DeviceUpdateStatus.

(** The hex digest of a file's content, kept symbolic: equal digests mean
    equal contents. *)
Inductive digest := sha256 (content : string).

Module DeployedModel.

Record t := {
  version : string;
  file_path : string;
  size_bytes : Z;
  hash_sha256 : digest;
  created_at : Py.datetime;
  deployed_at : option Py.datetime;
  accuracy : Q;
  is_production : bool;
  metadata : option (list (string * Py.obj))
}.

Definition demote (m : t) : t :=
  {| version := version m; file_path := file_path m;
     size_bytes := size_bytes m; hash_sha256 := hash_sha256 m;
     created_at := created_at m; deployed_at := deployed_at m;
     accuracy := accuracy m; is_production := false;
     metadata := metadata m |}.

Definition promote (now : Py.datetime) (m : t) : t :=
  {| version := version m; file_path := file_path m;
     size_bytes := size_bytes m; hash_sha256 := hash_sha256 m;
     created_at := created_at m; deployed_at := Some now;
     accuracy := accuracy m; is_production := true;
     metadata := metadata m |}.

End DeployedModel.

Module DeviceDeployment.

Record t := {
  device_id : string;
  target_version : string;
  current_version : string;
  status : DeviceUpdateStatus.t;
  notified_at : option Py.datetime;
  completed_at : option Py.datetime;
  error_message : string
}.

End DeviceDeployment.

Module DeploymentJob.

Record t := {
  deployment_id : string;
  model_version : string;
  target_devices : list string;
  status : DeploymentStatus.t;
  created_at : Py.datetime;
  completed_at : option Py.datetime;
  success_count : Z;
  failure_count : Z
}.

Definition with_status (st : DeploymentStatus.t) (j : t) : t :=
  {| deployment_id := deployment_id j; model_version := model_version j;
     target_devices := target_devices j; status := st;
     created_at := created_at j; completed_at := completed_at j;
     success_count := success_count j; failure_count := failure_count j |}.

End DeploymentJob.

(** The notification [update_info] pushed to a device. *)
Module UpdateInfo.

Record t := {
  type : string;
  version : string;
  size : Z;
  hash : digest;
  accuracy : Q;
  download_url : string
}.

End UpdateInfo.

Module DeploymentManager.

(** The manager.  [files] is the part of the file system the manager
    reads and writes: regular files by path, paths compared as they are
    written; [registry_document] is the content of [registry_file] as
    [_save_registry] last wrote it; [notify_device] tells whether the
    callback is set and [sent] lists the notifications handed to it. *)
Record t := {
  models_dir : string;
  files : gmap string string;
  registry_document : option (Py.dict string DeployedModel.t * option string);
  registry : Py.dict string DeployedModel.t;
  production_version : option string;
  deployments : Py.dict string DeploymentJob.t;
  device_status : Py.dict string DeviceDeployment.t;
  notify_device : bool;
  sent : list (string * UpdateInfo.t)
}.

(** [DeploymentManager(models_dir)] where no registry file exists yet. *)
Definition init (dir : string) (fs : gmap string string) (notify : bool) : t :=
  {| models_dir := dir; files := fs; registry_document := None;
     registry := []; production_version := None;
     deployments := []; device_status := [];
     notify_device := notify; sent := [] |}.

Definition with_registry (reg : Py.dict string DeployedModel.t)
    (pv : option string) (m : t) : t :=
  {| models_dir := models_dir m; files := files m;
     registry_document := registry_document m;
     registry := reg; production_version := pv;
     deployments := deployments m; device_status := device_status m;
     notify_device := notify_device m; sent := sent m |}.

Definition with_files (fs : gmap string string) (m : t) : t :=
  {| models_dir := models_dir m; files := fs;
     registry_document := registry_document m;
     registry := registry m; production_version := production_version m;
     deployments := deployments m; device_status := device_status m;
     notify_device := notify_device m; sent := sent m |}.

Definition with_deployments (ds : Py.dict string DeploymentJob.t) (m : t) : t :=
  {| models_dir := models_dir m; files := files m;
     registry_document := registry_document m;
     registry := registry m; production_version := production_version m;
     deployments := ds; device_status := device_status m;
     notify_device := notify_device m; sent := sent m |}.

Definition with_devices (devs : Py.dict string DeviceDeployment.t)
    (log : list (string * UpdateInfo.t)) (m : t) : t :=
  {| models_dir := models_dir m; files := files m;
     registry_document := registry_document m;
     registry := registry m; production_version := production_version m;
     deployments := deployments m; device_status := devs;
     notify_device := notify_device m; sent := log |}.

(** [_save_registry] *)
Definition _save_registry (m : t) : t :=
  {| models_dir := models_dir m; files := files m;
     registry_document := Some (registry m, production_version m);
     registry := registry m; production_version := production_version m;
     deployments := deployments m; device_status := device_status m;
     notify_device := notify_device m; sent := sent m |}.

(** [self.models_dir / f'model_{version}.tflite'] *)
Definition dest_path (m : t) (version : string) : string :=
  models_dir m +:+ "/model_" +:+ version +:+ ".tflite".

(** [register_model]; [shutil.copy2] refuses to copy a file onto itself. *)
Definition register_model (m : t) (model_path version : string) (accuracy : Q)
    (metadata : option (list (string * Py.obj))) (now : Py.datetime)
    : Py.result DeployedModel.t * t :=
  match files m !! model_path with
  | None => (Py.Raise Py.FileNotFoundError, m)
  | Some content =>
      let dest := dest_path m version in
      if decide (model_path = dest) then (Py.Raise Py.SameFileError, m)
      else
        let m1 := with_files (<[dest := content]> (files m)) m in
        let model :=
          {| DeployedModel.version := version;
             DeployedModel.file_path := dest;
             DeployedModel.size_bytes := Z.of_nat (String.length content);
             DeployedModel.hash_sha256 := sha256 content;
             DeployedModel.created_at := now;
             DeployedModel.deployed_at := None;
             DeployedModel.accuracy := accuracy;
             DeployedModel.is_production := false;
             DeployedModel.metadata := metadata |} in
        let m2 := with_registry (Py.set version model (registry m1))
                    (production_version m1) m1 in
        (Py.Ok model, _save_registry m2)
  end.

(** [_set_production] *)
Definition _set_production (m : t) (version : string) (now : Py.datetime)
    : Py.result unit * t :=
  let reg1 :=
    match production_version m with
    | Some pv =>
        if Py.truthy_str pv then
          match Py.get pv (registry m) with
          | Some old => Py.set pv (DeployedModel.demote old) (registry m)
          | None => registry m
          end
        else registry m
    | None => registry m
    end in
  match Py.get version reg1 with
  | None => (Py.Raise Py.KeyError, with_registry reg1 (production_version m) m)
  | Some model =>
      let reg2 := Py.set version (DeployedModel.promote now model) reg1 in
      (Py.Ok tt, _save_registry (with_registry reg2 (Some version) m))
  end.

(** [_get_download_url] *)
Definition _get_download_url (version : string) : string :=
  "/api/models/" +:+ version +:+ "/download".

(** [_get_all_devices] *)
Definition _get_all_devices (m : t) : list string := Py.keys (device_status m).

(** [deployment.target_devices or self._get_all_devices()] *)
Definition devices_of (m : t) (job : DeploymentJob.t) : list string :=
  match DeploymentJob.target_devices job with
  | [] => _get_all_devices m
  | targets => targets
  end.

(** One turn of the loop of [_start_rollout]: the callback is called
    (what it raises is caught by [_notify_device_update]) and the device
    gets a fresh record. *)
Definition notify_one (info : UpdateInfo.t) (now : Py.datetime) (m : t)
    (device : string) : t :=
  with_devices
    (Py.set device
       {| DeviceDeployment.device_id := device;
          DeviceDeployment.target_version := UpdateInfo.version info;
          DeviceDeployment.current_version := "";
          DeviceDeployment.status := DeviceUpdateStatus.NOTIFIED;
          DeviceDeployment.notified_at := Some now;
          DeviceDeployment.completed_at := None;
          DeviceDeployment.error_message := "" |}
       (device_status m))
    (sent m ++ [(device, info)]) m.

(** [_start_rollout], on the job stored under [id]. *)
Definition _start_rollout (m : t) (id : string) (now : Py.datetime)
    : Py.result unit * t :=
  match Py.get id (deployments m) with
  | None => (Py.Raise Py.KeyError, m)
  | Some job =>
      let job' := DeploymentJob.with_status DeploymentStatus.ROLLING_OUT job in
      let m1 := with_deployments (Py.set id job' (deployments m)) m in
      match Py.get (DeploymentJob.model_version job') (registry m1) with
      | None => (Py.Raise Py.KeyError, m1)
      | Some model =>
          let info :=
            {| UpdateInfo.type := "model_update";
               UpdateInfo.version := DeploymentJob.model_version job';
               UpdateInfo.size := DeployedModel.size_bytes model;
               UpdateInfo.hash := DeployedModel.hash_sha256 model;
               UpdateInfo.accuracy := DeployedModel.accuracy model;
               UpdateInfo.download_url :=
                 _get_download_url (DeploymentJob.model_version job') |} in
          if notify_device m1
          then (Py.Ok tt, foldl (notify_one info now) m1 (devices_of m1 job'))
          else (Py.Ok tt, m1)
      end
  end.

(** [deploy_model] *)
Definition deploy_model (m : t) (version : string)
    (target_devices : option (list string)) (now : Py.datetime)
    : Py.result string * t :=
  if Py.contains version (registry m) then
    let id := "deploy_" +:+ Py.strftime now in
    let job :=
      {| DeploymentJob.deployment_id := id;
         DeploymentJob.model_version := version;
         DeploymentJob.target_devices := default [] target_devices;
         DeploymentJob.status := DeploymentStatus.PENDING;
         DeploymentJob.created_at := now;
         DeploymentJob.completed_at := None;
         DeploymentJob.success_count := 0;
         DeploymentJob.failure_count := 0 |} in
    let m1 := with_deployments (Py.set id job (deployments m)) m in
    match _set_production m1 version now with
    | (Py.Raise e, m2) => (Py.Raise e, m2)
    | (Py.Ok _, m2) =>
        match _start_rollout m2 id now with
        | (Py.Raise e, m3) => (Py.Raise e, m3)
        | (Py.Ok _, m3) => (Py.Ok id, m3)
        end
    end
  else (Py.Raise Py.ValueError, m).

(** The counters [success], [failure], [pending] of
    [_check_deployment_completion], and the branch on the status of one
    device. *)
Definition count (counts : Z * Z * Z) (st : DeviceUpdateStatus.t) : Z * Z * Z :=
  let '(success, failure, pending) := counts in
  match st with
  | DeviceUpdateStatus.COMPLETED => (success + 1, failure, pending)
  | DeviceUpdateStatus.FAILED => (success, failure + 1, pending)
  | _ => (success, failure, pending + 1)
  end.

(** The inner loop; a device without a record counts nowhere. *)
Definition tally (m : t) (devices : list string) : Z * Z * Z :=
  foldl
    (fun counts device =>
       match Py.get device (device_status m) with
       | Some record => count counts (DeviceDeployment.status record)
       | None => counts
       end)
    (0, 0, 0) devices.

(** What the loop body does with the counters of a job that is rolling
    out. *)
Definition conclude (counts : Z * Z * Z) (now : Py.datetime)
    (job : DeploymentJob.t) : DeploymentJob.t :=
  let '(success, failure, pending) := counts in
  if pending =? 0 then
    {| DeploymentJob.deployment_id := DeploymentJob.deployment_id job;
       DeploymentJob.model_version := DeploymentJob.model_version job;
       DeploymentJob.target_devices := DeploymentJob.target_devices job;
       DeploymentJob.status :=
         if failure =? 0 then DeploymentStatus.COMPLETED
         else DeploymentStatus.COMPLETED;
       DeploymentJob.created_at := DeploymentJob.created_at job;
       DeploymentJob.completed_at := Some now;
       DeploymentJob.success_count := success;
       DeploymentJob.failure_count := failure |}
  else
    {| DeploymentJob.deployment_id := DeploymentJob.deployment_id job;
       DeploymentJob.model_version := DeploymentJob.model_version job;
       DeploymentJob.target_devices := DeploymentJob.target_devices job;
       DeploymentJob.status := DeploymentJob.status job;
       DeploymentJob.created_at := DeploymentJob.created_at job;
       DeploymentJob.completed_at := DeploymentJob.completed_at job;
       DeploymentJob.success_count := success;
       DeploymentJob.failure_count := failure |}.

(** The body of the outer loop of [_check_deployment_completion]. *)
Definition check_job (m : t) (now : Py.datetime) (job : DeploymentJob.t)
    : DeploymentJob.t :=
  if bool_decide (DeploymentJob.status job = DeploymentStatus.ROLLING_OUT)
  then conclude (tally m (devices_of m job)) now job
  else job.

(** [_check_deployment_completion] *)
Definition _check_deployment_completion (m : t) (now : Py.datetime) : t :=
  with_deployments
    (map (fun kv => (kv.1, check_job m now kv.2)) (deployments m)) m.

(** [report_device_status] *)
Definition report_device_status (m : t) (device : string) (status : string)
    (current_version error : option string) (now : Py.datetime) : t :=
  match Py.get device (device_status m) with
  | None => m
  | Some record =>
      let st := default DeviceUpdateStatus.FAILED (DeviceUpdateStatus.of_value status) in
      let record' :=
        {| DeviceDeployment.device_id := DeviceDeployment.device_id record;
           DeviceDeployment.target_version := DeviceDeployment.target_version record;
           DeviceDeployment.current_version :=
             match current_version with
             | Some v => if Py.truthy_str v then v
                         else DeviceDeployment.current_version record
             | None => DeviceDeployment.current_version record
             end;
           DeviceDeployment.status := st;
           DeviceDeployment.notified_at := DeviceDeployment.notified_at record;
           DeviceDeployment.completed_at :=
             if bool_decide (st = DeviceUpdateStatus.COMPLETED) then Some now
             else DeviceDeployment.completed_at record;
           DeviceDeployment.error_message :=
             match error with
             | Some e => if Py.truthy_str e then e
                         else DeviceDeployment.error_message record
             | None => DeviceDeployment.error_message record
             end |} in
      let m1 := with_devices (Py.set device record' (device_status m)) (sent m) m in
      if bool_decide (st = DeviceUpdateStatus.COMPLETED)
         || bool_decide (st = DeviceUpdateStatus.FAILED)
      then _check_deployment_completion m1 now
      else m1
  end.

(** The list [versions] of [rollback]: deployed versions, most recently
    deployed first. *)
Definition deployed_versions (m : t) : list (string * Py.datetime) :=
  Py.sort (fun a b => b.2 <=? a.2)
    (omap (fun kv => (fun at_ => (kv.1, at_)) <$> DeployedModel.deployed_at kv.2)
       (registry m)).

(** [rollback] *)
Definition rollback (m : t) (to_version : option string) (now : Py.datetime)
    : Py.result bool * t :=
  let target :=
    match to_version with
    | Some v => Some v
    | None =>
        match deployed_versions m with
        | _ :: (previous, _) :: _ => Some previous
        | _ => None
        end
    end in
  match target with
  | None => (Py.Ok false, m)
  | Some v =>
      if Py.contains v (registry m) then
        match deploy_model m v None now with
        | (Py.Ok _, m') => (Py.Ok true, m')
        | (Py.Raise e, m') => (Py.Raise e, m')
        end
      else (Py.Ok false, m)
  end.

(** One call of a public operation that can change the registry. *)
Inductive step (m : t) : t -> Prop :=
| step_register path version accuracy metadata now :
    step m (register_model m path version accuracy metadata now).2
| step_deploy version targets now :
    step m (deploy_model m version targets now).2
| step_rollback to_version now :
    step m (rollback m to_version now).2
| step_report device status current error now :
    step m (report_device_status m device status current error now).

(** The states the public operations reach from a fresh manager. *)
Definition reachable (m : t) : Prop :=
  exists dir fs notify, rtc step (init dir fs notify) m.

(** The same calls, with [register_model] held to version strings that
    are not empty. *)
Inductive named_step (m : t) : t -> Prop :=
| named_register path version accuracy metadata now :
    Py.truthy_str version = true ->
    named_step m (register_model m path version accuracy metadata now).2
| named_deploy version targets now :
    named_step m (deploy_model m version targets now).2
| named_rollback to_version now :
    named_step m (rollback m to_version now).2
| named_report device status current error now :
    named_step m (report_device_status m device status current error now).

(** What ties the production flags to [production_version]: the keys of
    the registry are distinct and not empty, and a model flagged as
    production is the one [production_version] names. *)
Definition registry_inv (m : t) : Prop :=
  NoDup (Py.keys (registry m))
  /\ (forall v, v ∈ Py.keys (registry m) -> Py.truthy_str v = true)
  /\ (forall v model,
        Py.get v (registry m) = Some model ->
        DeployedModel.is_production model = true ->
        production_version m = Some v).


(** The number of models flagged as production. *)
Definition production_count (m : t) : nat :=
  length (filter (fun kv => DeployedModel.is_production kv.2 = true) (registry m)).

End DeploymentManager.

(** ** [retraining_orchestrator.py] *)

Module RetrainingStatus.

Inductive t :=
  IDLE | SCHEDULED | PREPARING_DATA | TRAINING | VALIDATING | DEPLOYING
| COMPLETED | FAILED.

#[global] Instance eq_dec : EqDecision t.
Proof. solve_decision. Defined.

End RetrainingStatus.

Module RetrainingOrchestrator.

Record RetrainingJob := {
  job_id : string;
  status : RetrainingStatus.t;
  triggered_by : string;
  created_at : Py.datetime;
  started_at : option Py.datetime;
  completed_at : option Py.datetime;
  num_samples : Z;
  train_accuracy : Q;
  val_accuracy : Q;
  model_version : string;
  error_message : string
}.

Record RetrainingConfig := {
  min_samples_for_retraining : Z;
  min_new_samples : Z;
  min_labeled_ratio : Q;
  validation_split : Q;
  min_accuracy_improvement : Q;
  max_training_time_seconds : Z;
  epochs : Z;
  batch_size : Z;
  early_stopping_patience : Z
}.

(** [RetrainingConfig()] *)
Definition default_config : RetrainingConfig :=
  {| min_samples_for_retraining := 1000;
     min_new_samples := 200;
     min_labeled_ratio := 5 # 10;
     validation_split := 2 # 10;
     min_accuracy_improvement := 1 # 100;
     max_training_time_seconds := 3600;
     epochs := 100;
     batch_size := 32;
     early_stopping_patience := 10 |}.

(** The orchestrator; [runner_threads] counts the threads started on
    [_run_retraining_job]. *)
Record t := {
  config : RetrainingConfig;
  current_job : option RetrainingJob;
  job_history : list RetrainingJob;
  production_accuracy : Q;
  runner_threads : nat
}.

(** [status not in [COMPLETED, FAILED]] *)
Definition in_flight (job : RetrainingJob) : bool :=
  negb (bool_decide (status job = RetrainingStatus.COMPLETED)
        || bool_decide (status job = RetrainingStatus.FAILED)).

(** [should_retrain], on the statistics of the collector [dc]. *)
Definition should_retrain (o : t) (dc : DataCollector.t) : bool :=
  if match current_job o with Some job => in_flight job | None => false end
  then false
  else
    let stats := DataCollector.get_stats_summary dc in
    if DataCollector.total_samples stats <? min_samples_for_retraining (config o)
    then false
    else if Py.Qltb (DataCollector.labeling_rate stats) (min_labeled_ratio (config o))
    then false
    else
      let new_samples :=
        DataCollector.total_samples stats - DataCollector.used_for_training stats in
      if new_samples <? min_new_samples (config o) then false else true.

(** [trigger_retraining] *)
Definition trigger_retraining (o : t) (trigger : string) (now : Py.datetime)
    : string * t :=
  let id := "job_" +:+ Py.strftime now in
  (id,
   {| config := config o;
      current_job :=
        Some {| job_id := id; status := RetrainingStatus.SCHEDULED;
                triggered_by := trigger; created_at := now;
                started_at := None; completed_at := None;
                num_samples := 0; train_accuracy := 0; val_accuracy := 0;
                model_version := ""; error_message := "" |};
      job_history := job_history o;
      production_accuracy := production_accuracy o;
      runner_threads := S (runner_threads o) |}).

(** One turn of [_worker_loop] before it sleeps. *)
Definition worker_turn (o : t) (dc : DataCollector.t) (now : Py.datetime) : t :=
  if should_retrain o dc then (trigger_retraining o "schedule" now).2 else o.

(** [_update_job_status] *)
Definition _update_job_status (o : t) (st : RetrainingStatus.t) : t :=
  match current_job o with
  | Some job =>
      {| config := config o;
         current_job :=
           Some {| job_id := job_id job; status := st;
                   triggered_by := triggered_by job; created_at := created_at job;
                   started_at := started_at job; completed_at := completed_at job;
                   num_samples := num_samples job;
                   train_accuracy := train_accuracy job;
                   val_accuracy := val_accuracy job;
                   model_version := model_version job;
                   error_message := error_message job |};
         job_history := job_history o;
         production_accuracy := production_accuracy o;
         runner_threads := runner_threads o |}
  | None => o
  end.

(** [_validate_model] *)
Definition _validate_model (o : t) (val_acc : Q) : bool :=
  if Py.Qltb val_acc (production_accuracy o + min_accuracy_improvement (config o))%Q
  then false else true.

End RetrainingOrchestrator.

(** ** [data_collector.py]: the queries *)

Module Queries.
Import DataCollector.

(** The rows of table [samples] in the order of their ids, which is the
    order a scan of the table yields them in. *)
Definition rows (tbl : gmap Z sample_row) : list (Z * sample_row) :=
  Py.sort (fun a b => a.1 <=? b.1) (map_to_list tbl).

(** An element of the answer of [get_unlabeled_samples]. *)
Record unlabeled_sample := {
  u_sample_id : Z;
  u_device_id : string;
  u_features : list Q;
  u_predicted_label : Z;
  u_confidence : Q;
  u_label_source : Z;
  u_timestamp : Z;
  u_received_at : Py.datetime
}.

Definition unlabeled_of (kv : Z * sample_row) : unlabeled_sample :=
  {| u_sample_id := kv.1;
     u_device_id := s_device_id kv.2;
     u_features := s_features kv.2;
     u_predicted_label := s_predicted_label kv.2;
     u_confidence := s_confidence kv.2;
     u_label_source := s_label_source kv.2;
     u_timestamp := s_timestamp kv.2;
     u_received_at := s_received_at kv.2 |}.

(** WHERE true_label IS NULL [AND device_id = ?]; the second condition is
    there when [device_id] is truthy. *)
Definition unlabeled_where (device_id : option string) (r : sample_row) : bool :=
  bool_decide (s_true_label r = None)
  && (if Py.truthy device_id
      then bool_decide (Some (s_device_id r) = device_id)
      else true).

(** [get_unlabeled_samples]: ORDER BY confidence ASC LIMIT ?; rows of equal
    confidence stay in the order of their ids. *)
Definition get_unlabeled_samples (dc : t) (limit : Z) (device_id : option string)
    : list unlabeled_sample :=
  map unlabeled_of
    (Py.sql_limit limit
       (Py.sort (fun a b => Qle_bool (s_confidence a.2) (s_confidence b.2))
          (filter (fun kv => unlabeled_where device_id kv.2 = true)
             (rows (samples dc))))).

(** An element of the answer of [get_training_dataset]. *)
Record training_sample := {
  t_sample_id : Z;
  t_device_id : string;
  t_features : list Q;
  t_predicted_label : Z;
  t_confidence : Q;
  t_true_label : Z;
  t_used_for_training : bool
}.

Definition training_of (kv : Z * sample_row) : training_sample :=
  {| t_sample_id := kv.1;
     t_device_id := s_device_id kv.2;
     t_features := s_features kv.2;
     t_predicted_label := s_predicted_label kv.2;
     t_confidence := s_confidence kv.2;
     t_true_label := default (s_predicted_label kv.2) (s_true_label kv.2);
     t_used_for_training := negb (s_used_for_training kv.2 =? 0) |}.

(** WHERE confidence >= ? [AND true_label IS NOT NULL] *)
Definition training_where (min_confidence : Q) (labeled_only : bool)
    (r : sample_row) : bool :=
  Qle_bool min_confidence (s_confidence r)
  && (if labeled_only then bool_decide (is_Some (s_true_label r)) else true).

(** [get_training_dataset]; [LIMIT ?] is there when [limit] is truthy
    (neither [None] nor 0). *)
Definition get_training_dataset (dc : t) (min_confidence : Q) (labeled_only : bool)
    (limit : option Z) : list training_sample :=
  let matching :=
    filter (fun kv => training_where min_confidence labeled_only kv.2 = true)
      (rows (samples dc)) in
  map training_of
    match limit with
    | Some n => if n =? 0 then matching else Py.sql_limit n matching
    | None => matching
    end.

(** The dataclass [DeviceStats]. *)
Record DeviceStats := {
  device_id : string;
  total_samples : Z;
  labeled_samples : Z;
  last_seen : option Py.datetime;
  model_version : option string
}.

Definition stats_of (kv : string * device_row) : DeviceStats :=
  {| device_id := kv.1;
     total_samples := d_total_samples kv.2;
     labeled_samples := d_labeled_samples kv.2;
     last_seen := d_last_seen kv.2;
     model_version := d_model_version kv.2 |}.

(** [get_device_stats]: the row of one device when [device_id] is truthy,
    all rows otherwise (in no stated order). *)
Definition get_device_stats (dc : t) (device : option string) : list DeviceStats :=
  match device with
  | Some d =>
      if Py.truthy_str d then
        match devices dc !! d with
        | Some row => [stats_of (d, row)]
        | None => []
        end
      else map stats_of (map_to_list (devices dc))
  | None => map stats_of (map_to_list (devices dc))
  end.

End Queries.

(** ** [data_collector.py]: buffer and flush *)

Module Ingestion.
Import DataCollector.

(** What binding a Python value to a column gives: the value the typed
    table holds, an exception ([None] in a NOT NULL column, a list where a
    scalar is bound), or a value SQLite stores after a conversion that the
    typed tables of this model do not hold. *)
Inductive bind (A : Type) :=
| Val (a : A)
| Err
| Other.

Arguments Val {A} a.
Arguments Err {A}.
Arguments Other {A}.

(** An exception in any column wins over a conversion in another. *)
Definition ap {A B} (f : bind (A -> B)) (x : bind A) : bind B :=
  match f, x with
  | Err, _ | _, Err => Err
  | Other, _ | _, Other => Other
  | Val g, Val a => Val (g a)
  end.

Definition bind_text (o : Py.obj) : bind string :=
  match o with
  | Py.Str s => Val s
  | Py.None_ | Py.List _ => Err
  | _ => Other
  end.

Definition bind_integer (o : Py.obj) : bind Z :=
  match o with
  | Py.Int z => Val z
  | Py.None_ | Py.List _ => Err
  | _ => Other
  end.

Definition bind_real (o : Py.obj) : bind Q :=
  match o with
  | Py.Float q => Val q
  | Py.Int z => Val (inject_Z z)
  | Py.None_ | Py.List _ => Err
  | _ => Other
  end.

(** Column [true_label] may be NULL. *)
Definition bind_label (o : Py.obj) : bind (option Z) :=
  match o with
  | Py.None_ => Val None
  | Py.Int z => Val (Some z)
  | Py.List _ => Err
  | _ => Other
  end.

Definition number (o : Py.obj) : option Q :=
  match o with
  | Py.Float q => Some q
  | Py.Int z => Some (inject_Z z)
  | _ => None
  end.

(** [json.dumps(sample.features)] never raises on these values; the table
    of the model holds a list of numbers. *)
Definition bind_features (o : Py.obj) : bind (list Q) :=
  match o with
  | Py.List l =>
      match mapM number l with
      | Some qs => Val qs
      | None => Other
      end
  | _ => Other
  end.

(** The parameters of INSERT INTO samples for one sample. *)
Definition to_row (sample : TrainingSample) : bind sample_row :=
  ap (ap (ap (ap (ap (ap (ap
    (Val (fun dev feats pred conf src ts label =>
            {| s_device_id := dev; s_features := feats;
               s_predicted_label := pred; s_confidence := conf;
               s_label_source := src; s_timestamp := ts;
               s_received_at := received_at sample;
               s_true_label := label; s_used_for_training := 0 |}))
    (bind_text (device_id sample)))
    (bind_features (features sample)))
    (bind_integer (predicted_label sample)))
    (bind_real (confidence sample)))
    (bind_integer (label_source sample)))
    (bind_integer (timestamp sample)))
    (bind_label (true_label sample)).

(** The id AUTOINCREMENT gives the next row: one more than the largest id
    the table has held; no statement of the collector deletes a row. *)
Definition next_id (tbl : gmap Z sample_row) : Z :=
  1 + foldr Z.max 0 (map fst (map_to_list tbl)).

(** INSERT INTO devices ... ON CONFLICT(device_id) DO UPDATE *)
Definition upsert_device (device : string) (now : Py.datetime)
    (tbl : gmap string device_row) : gmap string device_row :=
  match tbl !! device with
  | Some row =>
      <[device := {| d_total_samples := d_total_samples row + 1;
                     d_labeled_samples := d_labeled_samples row;
                     d_last_seen := Some now;
                     d_model_version := d_model_version row |}]> tbl
  | None =>
      <[device := {| d_total_samples := 1; d_labeled_samples := 0;
                     d_last_seen := Some now; d_model_version := None |}]> tbl
  end.

(** The two statements the loop of [_flush_buffer] runs for one sample. *)
Definition insert_row (now : Py.datetime)
    (tables : gmap Z sample_row * gmap string device_row) (row : sample_row)
    : gmap Z sample_row * gmap string device_row :=
  (<[next_id tables.1 := row]> tables.1,
   upsert_device (s_device_id row) now tables.2).

Definition with_buffer (buf : list TrainingSample) (dc : t) : t :=
  {| sample_queue := sample_queue dc;
     buffer := buf;
     samples := samples dc;
     devices := devices dc;
     on_sample_received := on_sample_received dc |}.

(** [_add_to_buffer] *)
Definition _add_to_buffer (dc : t) (sample : TrainingSample) : t :=
  with_buffer (buffer dc ++ [sample]) dc.

(** [_flush_buffer].  The buffer is copied and cleared first; then one
    transaction inserts every sample, and an exception rolls it back.  The
    answer is [None] where a value would be stored converted. *)
Definition _flush_buffer (dc : t) (now : Py.datetime) : option t :=
  match buffer dc with
  | [] => Some dc
  | samples_to_store =>
      let cleared := with_buffer [] dc in
      match foldr (fun sample acc => ap (ap (Val cons) (to_row sample)) acc)
              (Val []) samples_to_store with
      | Val stored =>
          let tables := foldl (insert_row now) (samples dc, devices dc) stored in
          Some (with_tables tables.1 tables.2 cleared)
      | Err => Some cleared
      | Other => None
      end
  end.

(** One turn of [_worker_loop]: the queue is drained into the buffer, and
    the buffer is flushed once it holds [buffer_size] samples. *)
Definition worker_turn (dc : t) (buffer_size : Z) (now : Py.datetime) : option t :=
  let drained :=
    {| sample_queue := [];
       buffer := buffer dc ++ sample_queue dc;
       samples := samples dc;
       devices := devices dc;
       on_sample_received := on_sample_received dc |} in
  if Z.of_nat (length (buffer drained)) >=? buffer_size
  then _flush_buffer drained now
  else Some drained.

End Ingestion.

(** ** [labeling_service.py]: batches and statistics *)

Module LabelingBatch.

(** The body of the loop of [create_labeling_batch]: a sample with a live
    task is passed over. *)
Definition create_for (now : Py.datetime) (acc : list Z * LabelingService.t)
    (sample : Queries.unlabeled_sample) : list Z * LabelingService.t :=
  if LabelingService._sample_has_task acc.2 (Queries.u_sample_id sample)
  then acc
  else
    let '(task, s') :=
      LabelingService._create_task acc.2 (Queries.u_sample_id sample)
        (Queries.u_device_id sample) (Queries.u_features sample)
        (Queries.u_predicted_label sample) (Queries.u_confidence sample) now in
    (acc.1 ++ [LabelingService.task_id task], s').

(** [create_labeling_batch].  [batch_size] and [selection_strategy] are the
    attributes of the service ([50] and ['uncertainty'] after
    construction); [select_diverse] stands for [_select_diverse], whose
    indices are computed in floating point. *)
Definition create_labeling_batch
    (select_diverse : list Queries.unlabeled_sample -> Z -> list Queries.unlabeled_sample)
    (s : LabelingService.t) (batch_size : Z) (selection_strategy : string)
    (num_samples : option Z) (strategy : option string)
    (device_id : option string) (now : Py.datetime)
    : list Z * LabelingService.t :=
  let n := default batch_size num_samples in
  let chosen :=
    match strategy with
    | Some name => if Py.truthy_str name then name else selection_strategy
    | None => selection_strategy
    end in
  let samples :=
    match LabelingService.data_collector s with
    | Some dc => Queries.get_unlabeled_samples dc (n * 3) device_id
    | None => []
    end in
  let ordered :=
    if String.eqb chosen "uncertainty" then
      Py.sort (fun a b => Qle_bool (Queries.u_confidence a) (Queries.u_confidence b))
        samples
    else if String.eqb chosen "diversity" then select_diverse samples n
    else samples in
  foldl (create_for now) ([], s) (Py.slice_to n ordered).

(** [get_task] *)
Definition get_task (s : LabelingService.t) (id : Z)
    : option LabelingService.LabelingTask :=
  Py.get id (LabelingService.tasks s).

(** The dictionary [get_stats] answers with. *)
Record stats := {
  total_tasks : Z;
  pending : Z;
  in_progress : Z;
  completed : Z;
  skipped : Z;
  disputed : Z;
  agreement_with_model : Q;
  avg_labeling_time_seconds : Q
}.

Definition count_status (st : LabelingStatus.t) (s : LabelingService.t) : Z :=
  Z.of_nat
    (length (filter (fun task => LabelingService.status task = st)
               (Py.values (LabelingService.tasks s)))).

Definition labeled_tasks (s : LabelingService.t) : list LabelingService.LabelingTask :=
  filter (fun task => LabelingService.status task = LabelingStatus.LABELED)
    (Py.values (LabelingService.tasks s)).

(** The labeling times [get_stats] adds up: those of labeled tasks with
    both instants. *)
Definition labeling_times (s : LabelingService.t) : list Q :=
  omap
    (fun task =>
       match LabelingService.assigned_at task, LabelingService.completed_at task with
       | Some assigned, Some done_at => Some (Py.total_seconds done_at assigned)
       | _, _ => None
       end)
    (labeled_tasks s).

Definition agrees (task : LabelingService.LabelingTask) : bool :=
  bool_decide (LabelingService.assigned_label task
               = Some (LabelingService.predicted_label task)).

(** [get_stats] *)
Definition get_stats (s : LabelingService.t) : stats :=
  let labeled_count := Z.of_nat (length (labeled_tasks s)) in
  let agreement_count :=
    Z.of_nat (length (filter (fun task => agrees task = true) (labeled_tasks s))) in
  let time_count := Z.of_nat (length (labeling_times s)) in
  {| total_tasks := Z.of_nat (length (LabelingService.tasks s));
     pending := count_status LabelingStatus.PENDING s;
     in_progress := count_status LabelingStatus.IN_PROGRESS s;
     completed := count_status LabelingStatus.LABELED s;
     skipped := count_status LabelingStatus.SKIPPED s;
     disputed := count_status LabelingStatus.DISPUTED s;
     agreement_with_model :=
       if labeled_count >? 0 then agreement_count # Z.to_pos labeled_count else 0;
     avg_labeling_time_seconds :=
       if time_count >? 0
       then (foldr Qplus 0 (labeling_times s) / inject_Z time_count)%Q
       else 0 |}.

(** [FAULT_LABELS.get(label, f'Unknown ({label})')] *)
Definition label_name (label : Z) : string :=
  match label with
  | 0 => "Normal"
  | 1 => "Imbalance"
  | 2 => "Misalignment"
  | 3 => "Bearing Fault"
  | 4 => "Looseness"
  | _ => "Unknown (" +:+ pretty label +:+ ")"
  end.

(** [get_label_distribution] *)
Definition get_label_distribution (s : LabelingService.t) : Py.dict string Z :=
  foldl
    (fun distribution task =>
       match LabelingService.assigned_label task with
       | Some label =>
           if bool_decide (LabelingService.status task = LabelingStatus.LABELED)
           then
             Py.set (label_name label)
               (default 0 (Py.get (label_name label) distribution) + 1)
               distribution
           else distribution
       | None => distribution
       end)
    [] (Py.values (LabelingService.tasks s)).

(** A sample has at most one live task: of two live tasks for one sample
    the dictionary holds neither. *)
Definition live (task : LabelingService.LabelingTask) : bool :=
  bool_decide (LabelingService.status task = LabelingStatus.PENDING)
  || bool_decide (LabelingService.status task = LabelingStatus.IN_PROGRESS).

Definition live_tasks_of (sample : Z) (s : LabelingService.t)
    : list (Z * LabelingService.LabelingTask) :=
  filter (fun kv => LabelingService.sample_id kv.2 = sample /\ live kv.2 = true)
    (LabelingService.tasks s).

Definition one_live_task_per_sample (s : LabelingService.t) : Prop :=
  forall sample, (length (live_tasks_of sample s) <= 1)%nat.

(** The labeled tasks [get_label_distribution] counts under a name. *)
Definition labeled_as (name : string) (task : LabelingService.LabelingTask) : Prop :=
  LabelingService.status task = LabelingStatus.LABELED
  /\ label_name <$> LabelingService.assigned_label task = Some name.

(** The statistics of a labeler are in range: the count is not negative
    and the agreement rate is a rate. *)
Definition entry_in_range (entry : LabelingService.labeler_entry) : Prop :=
  0 <= LabelingService.completed entry
  /\ (0 <= LabelingService.agreement_rate entry)%Q
  /\ (LabelingService.agreement_rate entry <= 1)%Q.

(** [self.labeler_stats[labeler]], read without creating the entry. *)
Definition entry_of (s : LabelingService.t) (labeler : string)
    : LabelingService.labeler_entry :=
  default LabelingService.fresh_entry (Py.get labeler (LabelingService.labeler_stats s)).

(** No task has an id above the counter: what the constructor sets up and
    [_create_task] relies on when it takes [task_counter + 1] as a new id. *)
Definition ids_below_counter (s : LabelingService.t) : Prop :=
  forall id task,
    Py.get id (LabelingService.tasks s) = Some task ->
    id <= LabelingService.task_counter s.

End LabelingBatch.

(** ** [deployment_manager.py]: reading the registry, restart *)

Module RegistryReads.
Import DeploymentManager.

(** [get_model_info]; the dictionary it answers with holds the fields of
    the model, the hash under key ['hash']. *)
Definition get_model_info (m : t) (version : string) : option DeployedModel.t :=
  Py.get version (registry m).

(** [get_production_model] *)
Definition get_production_model (m : t) : option DeployedModel.t :=
  match production_version m with
  | Some pv => if Py.truthy_str pv then get_model_info m pv else None
  | None => None
  end.

(** [list_versions]: [sorted(self.registry.keys(), reverse=True)] *)
Definition list_versions (m : t) : list (option DeployedModel.t) :=
  map (get_model_info m)
    (Py.sort (fun a b => String.leb b a) (Py.keys (registry m))).

(** [get_deployment_status] *)
Definition get_deployment_status (m : t) (id : string) : option DeploymentJob.t :=
  Py.get id (deployments m).

(** [get_device_deployment_status] *)
Definition get_device_deployment_status (m : t) (device : string)
    : option DeviceDeployment.t :=
  Py.get device (device_status m).

(** What [_save_registry] followed by the loop of [_load_registry] makes of
    one entry: the version is the key of the entry, and [metadata or {}]
    has turned a missing dictionary into an empty one. *)
Definition reloaded (kv : string * DeployedModel.t) : string * DeployedModel.t :=
  (kv.1,
   {| DeployedModel.version := kv.1;
      DeployedModel.file_path := DeployedModel.file_path kv.2;
      DeployedModel.size_bytes := DeployedModel.size_bytes kv.2;
      DeployedModel.hash_sha256 := DeployedModel.hash_sha256 kv.2;
      DeployedModel.created_at := DeployedModel.created_at kv.2;
      DeployedModel.deployed_at := DeployedModel.deployed_at kv.2;
      DeployedModel.accuracy := DeployedModel.accuracy kv.2;
      DeployedModel.is_production := DeployedModel.is_production kv.2;
      DeployedModel.metadata := Some (default [] (DeployedModel.metadata kv.2)) |}).

(** The production version [_load_registry] ends with: every entry flagged
    as production overwrites it, so the last one stays. *)
Definition flagged_version (models : Py.dict string DeployedModel.t) : option string :=
  foldl
    (fun pv kv => if DeployedModel.is_production kv.2 then Some kv.1 else pv)
    None models.

(** A new [DeploymentManager] on the directory and registry file of [m]:
    the registry is read from the document, and the production version
    from the flags of its entries, not from the document's own
    [production_version]; jobs, device records and the callback start
    empty. *)
Definition restart (m : t) : t :=
  let models :=
    match registry_document m with
    | Some doc => map reloaded doc.1
    | None => []
    end in
  {| models_dir := models_dir m; files := files m;
     registry_document := registry_document m;
     registry := models; production_version := flagged_version models;
     deployments := []; device_status := [];
     notify_device := false; sent := [] |}.

(** Two registry entries describe the same artifact: they differ at most
    in the production flag and the deployment time. *)
Definition same_artifact (a b : DeployedModel.t) : Prop :=
  DeployedModel.version b = DeployedModel.version a
  /\ DeployedModel.file_path b = DeployedModel.file_path a
  /\ DeployedModel.size_bytes b = DeployedModel.size_bytes a
  /\ DeployedModel.hash_sha256 b = DeployedModel.hash_sha256 a
  /\ DeployedModel.created_at b = DeployedModel.created_at a
  /\ DeployedModel.accuracy b = DeployedModel.accuracy a
  /\ DeployedModel.metadata b = DeployedModel.metadata a.

(** A rollout nobody has reported on: the job is ROLLING_OUT with no
    completion time and no device counted. *)
Definition open_rollout (job : DeploymentJob.t) : Prop :=
  DeploymentJob.status job = DeploymentStatus.ROLLING_OUT
  /\ DeploymentJob.completed_at job = None
  /\ DeploymentJob.success_count job = 0
  /\ DeploymentJob.failure_count job = 0.

End RegistryReads.

(** ** [retraining_orchestrator.py]: running a job *)

Module RetrainingJobs.
Import RetrainingOrchestrator.

(** What an external call gives: its value, or the text of the exception
    it raised. *)
Inductive outcome (A : Type) :=
| Returned (a : A)
| Raised (message : string).

Arguments Returned {A} a.
Arguments Raised {A} message.

(** What the job runner takes from outside: the random shuffle, the index
    [int(len(samples) * (1 - validation_split))] (computed in floating
    point), the trainer ([_train_model] answers with the training and the
    validation accuracy), [model.save] with the metadata file, the
    formatting [{:.4f}] of an accuracy, and the callbacks. *)
Record environment := {
  shuffle : list Queries.training_sample -> list Queries.training_sample;
  split_idx : nat -> Z;
  _train_model :
    list Queries.training_sample -> list Queries.training_sample -> outcome (Q * Q);
  save : outcome unit;
  format_accuracy : Q -> string;
  on_job_started : option (RetrainingJob -> outcome unit);
  on_job_completed : option (RetrainingJob -> outcome unit)
}.

(** The three objects a job works on: the orchestrator, the collector
    and, if there is one, the deployment manager. *)
Record world := {
  orchestrator : t;
  collector : DataCollector.t;
  manager : option DeploymentManager.t
}.

Definition with_job (f : RetrainingJob -> RetrainingJob) (o : t) : t :=
  match current_job o with
  | Some job =>
      {| config := config o; current_job := Some (f job);
         job_history := job_history o;
         production_accuracy := production_accuracy o;
         runner_threads := runner_threads o |}
  | None => o
  end.

Definition on_orchestrator (f : t -> t) (w : world) : world :=
  {| orchestrator := f (orchestrator w); collector := collector w;
     manager := manager w |}.

Definition set_started (now : Py.datetime) (job : RetrainingJob) : RetrainingJob :=
  {| job_id := job_id job; status := status job; triggered_by := triggered_by job;
     created_at := created_at job; started_at := Some now;
     completed_at := completed_at job; num_samples := num_samples job;
     train_accuracy := train_accuracy job; val_accuracy := val_accuracy job;
     model_version := model_version job; error_message := error_message job |}.

Definition set_completed (now : Py.datetime) (job : RetrainingJob) : RetrainingJob :=
  {| job_id := job_id job; status := status job; triggered_by := triggered_by job;
     created_at := created_at job; started_at := started_at job;
     completed_at := Some now; num_samples := num_samples job;
     train_accuracy := train_accuracy job; val_accuracy := val_accuracy job;
     model_version := model_version job; error_message := error_message job |}.

Definition set_num_samples (n : Z) (job : RetrainingJob) : RetrainingJob :=
  {| job_id := job_id job; status := status job; triggered_by := triggered_by job;
     created_at := created_at job; started_at := started_at job;
     completed_at := completed_at job; num_samples := n;
     train_accuracy := train_accuracy job; val_accuracy := val_accuracy job;
     model_version := model_version job; error_message := error_message job |}.

Definition set_accuracy (train_acc val_acc : Q) (job : RetrainingJob) : RetrainingJob :=
  {| job_id := job_id job; status := status job; triggered_by := triggered_by job;
     created_at := created_at job; started_at := started_at job;
     completed_at := completed_at job; num_samples := num_samples job;
     train_accuracy := train_acc; val_accuracy := val_acc;
     model_version := model_version job; error_message := error_message job |}.

Definition set_model_version (version : string) (job : RetrainingJob) : RetrainingJob :=
  {| job_id := job_id job; status := status job; triggered_by := triggered_by job;
     created_at := created_at job; started_at := started_at job;
     completed_at := completed_at job; num_samples := num_samples job;
     train_accuracy := train_accuracy job; val_accuracy := val_accuracy job;
     model_version := version; error_message := error_message job |}.

Definition set_error (message : string) (job : RetrainingJob) : RetrainingJob :=
  {| job_id := job_id job; status := status job; triggered_by := triggered_by job;
     created_at := created_at job; started_at := started_at job;
     completed_at := completed_at job; num_samples := num_samples job;
     train_accuracy := train_accuracy job; val_accuracy := val_accuracy job;
     model_version := model_version job; error_message := message |}.

Definition set_production_accuracy (acc : Q) (o : t) : t :=
  {| config := config o; current_job := current_job o;
     job_history := job_history o; production_accuracy := acc;
     runner_threads := runner_threads o |}.

(** [_prepare_data] *)
Definition _prepare_data (env : environment) (dc : DataCollector.t)
    : list Queries.training_sample * list Queries.training_sample :=
  let samples := shuffle env (Queries.get_training_dataset dc (5 # 10) true None) in
  let idx := split_idx env (length samples) in
  (Py.slice_to idx samples, Py.slice_from idx samples).

Definition call (callback : option (RetrainingJob -> outcome unit)) (o : t)
    : outcome unit :=
  match callback, current_job o with
  | Some f, Some job => f job
  | _, _ => Returned tt
  end.

(** The [try] block of [_run_retraining_job]: the world it leaves, and the
    text of the exception if one ended it. *)
Definition attempt (env : environment) (w : world) (now : Py.datetime)
    : world * option string :=
  let w1 :=
    on_orchestrator
      (fun o => with_job (set_started now)
                  (_update_job_status o RetrainingStatus.PREPARING_DATA)) w in
  match call (on_job_started env) (orchestrator w1) with
  | Raised message => (w1, Some message)
  | Returned _ =>
  let '(train_data, val_data) := _prepare_data env (collector w1) in
  match train_data with
  | [] => (w1, Some "No training data available")
  | _ =>
  let w2 :=
    on_orchestrator
      (fun o => _update_job_status
                  (with_job (set_num_samples (Z.of_nat (length train_data))) o)
                  RetrainingStatus.TRAINING) w1 in
  match _train_model env train_data val_data with
  | Raised message => (w2, Some message)
  | Returned (train_acc, val_acc) =>
  let w3 :=
    on_orchestrator
      (fun o => _update_job_status (with_job (set_accuracy train_acc val_acc) o)
                  RetrainingStatus.VALIDATING) w2 in
  if negb (_validate_model (orchestrator w3) val_acc) then
    (w3,
     Some ("Model validation failed: accuracy " +:+ format_accuracy env val_acc
           +:+ " not better than production "
           +:+ format_accuracy env (production_accuracy (orchestrator w3))))
  else
  let w4 := on_orchestrator (fun o => _update_job_status o RetrainingStatus.DEPLOYING) w3 in
  match save env with
  | Raised message => (w4, Some message)
  | Returned _ =>
  let version := "v" +:+ Py.strftime now in
  let w5 := on_orchestrator (with_job (set_model_version version)) w4 in
  let deployed :=
    match manager w5 with
    | Some m =>
        match DeploymentManager.deploy_model m version None now with
        | (Py.Ok _, m') => inl (Some m')
        | (Py.Raise Py.ValueError, m') =>
            inr (Some m', "Unknown model version: " +:+ version)
        | (Py.Raise _, m') => inr (Some m', "'" +:+ version +:+ "'")
        end
    | None => inl None
    end in
  match deployed with
  | inr (m', message) =>
      ({| orchestrator := orchestrator w5; collector := collector w5;
          manager := m' |}, Some message)
  | inl m' =>
  let sample_ids := map Queries.t_sample_id (train_data ++ val_data) in
  let w6 :=
    {| orchestrator :=
         set_production_accuracy val_acc
           (with_job (set_completed now)
              (_update_job_status (orchestrator w5) RetrainingStatus.COMPLETED));
       collector := DataCollector.mark_used_for_training (collector w5) sample_ids;
       manager := m' |} in
  match call (on_job_completed env) (orchestrator w6) with
  | Raised message => (w6, Some message)
  | Returned _ => (w6, None)
  end
  end end end end end.

(** [_run_retraining_job]: the [try] block, the [except] branch and the
    [finally] clause ([on_job_failed] changes nothing here, whatever it
    does). *)
Definition _run_retraining_job (env : environment) (w : world) (now : Py.datetime)
    : world :=
  match current_job (orchestrator w) with
  | None => w
  | Some _ =>
      let '(w', raised) := attempt env w now in
      let settled :=
        match raised with
        | Some message =>
            on_orchestrator
              (fun o => with_job (set_completed now)
                          (_update_job_status (with_job (set_error message) o)
                             RetrainingStatus.FAILED)) w'
        | None => w'
        end in
      on_orchestrator
        (fun o =>
           {| config := config o; current_job := current_job o;
              job_history :=
                job_history o
                ++ match current_job o with Some job => [job] | None => [] end;
              production_accuracy := production_accuracy o;
              runner_threads := runner_threads o |}) settled
  end.

(** [get_job_status] *)
Definition get_job_status (o : t) (id : option string) : option RetrainingJob :=
  if Py.truthy id then
    head
      (filter (fun job => Some (job_id job) = id)
         (match current_job o with Some job => [job] | None => [] end
          ++ job_history o))
  else current_job o.

(** [get_job_history]: [reversed(self.job_history[-limit:])] *)
Definition get_job_history (o : t) (limit : Z) : list RetrainingJob :=
  reverse (Py.slice_from (- limit) (job_history o)).

(** [self.current_job.status = status], on the job. *)
Definition set_status (st : RetrainingStatus.t) (job : RetrainingJob) : RetrainingJob :=
  {| job_id := job_id job; status := st; triggered_by := triggered_by job;
     created_at := created_at job; started_at := started_at job;
     completed_at := completed_at job; num_samples := num_samples job;
     train_accuracy := train_accuracy job; val_accuracy := val_accuracy job;
     model_version := model_version job; error_message := error_message job |}.

(** The version [_save_model] gives a model saved at instant [now]. *)
Definition saved_version (now : Py.datetime) : string := "v" +:+ Py.strftime now.

(** What the [try] block keeps of the orchestrator [o] and of its job
    [job], whatever happens: [o'] and [job'] are what it leaves. *)
Definition kept (now : Py.datetime) (o o' : t) (job job' : RetrainingJob) : Prop :=
  current_job o' = Some job'
  /\ config o' = config o
  /\ job_history o' = job_history o
  /\ runner_threads o' = runner_threads o
  /\ job_id job' = job_id job
  /\ triggered_by job' = triggered_by job
  /\ created_at job' = created_at job
  /\ started_at job' = Some now.

(** The [try] block was left by an exception before the statement after
    [deploy_model]: the collector and the production accuracy are as they
    were, and the manager is as it was or as a failed [deploy_model] left
    it. *)
Definition stopped_before_deployment (w : world) (now : Py.datetime)
    (r : world * option string) : Prop :=
  is_Some r.2
  /\ collector r.1 = collector w
  /\ production_accuracy (orchestrator r.1) = production_accuracy (orchestrator w)
  /\ (manager r.1 = manager w
      \/ exists m e m',
           manager w = Some m
           /\ DeploymentManager.deploy_model m (saved_version now) None now
              = (Py.Raise e, m')
           /\ manager r.1 = Some m').

(** The [try] block got past [deploy_model]; it can still be left by an
    exception of [on_job_completed]. *)
Definition went_past_deployment (env : environment) (w : world)
    (now : Py.datetime) (job job' : RetrainingJob) (r : world * option string)
    : Prop :=
  let o := orchestrator w in
  let data := _prepare_data env (collector w) in
  status job' = RetrainingStatus.COMPLETED
  /\ completed_at job' = Some now
  /\ error_message job' = error_message job
  /\ model_version job' = saved_version now
  /\ (production_accuracy o + min_accuracy_improvement (config o)
      <= val_accuracy job')%Q
  /\ production_accuracy (orchestrator r.1) = val_accuracy job'
  /\ num_samples job' = Z.of_nat (length data.1)
  /\ data.1 <> []
  /\ collector r.1
     = DataCollector.mark_used_for_training (collector w)
         (map Queries.t_sample_id (data.1 ++ data.2))
  /\ (manager w = None /\ manager r.1 = None
      \/ exists m id m',
           manager w = Some m
           /\ DeploymentManager.deploy_model m (saved_version now) None now
              = (Py.Ok id, m')
           /\ manager r.1 = Some m').

End RetrainingJobs.

(** ** The words of the specification and the states of the examples *)

Module Spec.

(** "The current retraining job exists and its status is not COMPLETED and
    not FAILED." *)
Definition job_in_flight (o : RetrainingOrchestrator.t) : Prop :=
  exists job,
    RetrainingOrchestrator.current_job o = Some job
    /\ RetrainingOrchestrator.status job <> RetrainingStatus.COMPLETED
    /\ RetrainingOrchestrator.status job <> RetrainingStatus.FAILED.

(** An orchestrator whose job of 2024-01-01 12:00:00 is training. *)
Definition training_orchestrator : RetrainingOrchestrator.t :=
  {| RetrainingOrchestrator.config := RetrainingOrchestrator.default_config;
     RetrainingOrchestrator.current_job :=
       Some {| RetrainingOrchestrator.job_id := "job_20240101_120000";
               RetrainingOrchestrator.status := RetrainingStatus.TRAINING;
               RetrainingOrchestrator.triggered_by := "schedule";
               RetrainingOrchestrator.created_at := 1704110400000000;
               RetrainingOrchestrator.started_at := Some 1704110400000500;
               RetrainingOrchestrator.completed_at := None;
               RetrainingOrchestrator.num_samples := 800;
               RetrainingOrchestrator.train_accuracy := 0;
               RetrainingOrchestrator.val_accuracy := 0;
               RetrainingOrchestrator.model_version := "";
               RetrainingOrchestrator.error_message := "" |};
     RetrainingOrchestrator.job_history := [];
     RetrainingOrchestrator.production_accuracy := 0;
     RetrainingOrchestrator.runner_threads := 1 |}.

(** "A sample envelope whose device id is empty or whose feature vector
    is empty"; a missing field reads as its empty default. *)
Definition invalid_envelope (data : gmap string Py.obj) : Prop :=
  DataCollector.dict_get data "device_id" (Py.Str "") = Py.Str ""
  \/ DataCollector.dict_get data "features" (Py.List []) = Py.List [].

(** A collector with empty queue, buffer and tables and no callback. *)
Definition idle_collector : DataCollector.t :=
  {| DataCollector.sample_queue := [];
     DataCollector.buffer := [];
     DataCollector.samples := ∅;
     DataCollector.devices := ∅;
     DataCollector.on_sample_received := None |}.

(** An envelope with features and an empty device id, and one with a
    device id and no features. *)
Definition anonymous_envelope : gmap string Py.obj :=
  {[ "device_id" := Py.Str ""; "features" := Py.List [Py.Float (1 # 2)];
     "confidence" := Py.Float (9 # 10) ]}.

Definition featureless_envelope : gmap string Py.obj :=
  {[ "device_id" := Py.Str "pump-1"; "features" := Py.List [] ]}.

(** A store with one unlabeled sample of device pump-1. *)
Definition one_sample_store : DataCollector.t :=
  {| DataCollector.sample_queue := [];
     DataCollector.buffer := [];
     DataCollector.samples :=
       {[ 1 := {| DataCollector.s_device_id := "pump-1";
                  DataCollector.s_features := [1 # 2];
                  DataCollector.s_predicted_label := 3;
                  DataCollector.s_confidence := 4 # 10;
                  DataCollector.s_label_source := 0;
                  DataCollector.s_timestamp := 17;
                  DataCollector.s_received_at := 1704110400000000;
                  DataCollector.s_true_label := None;
                  DataCollector.s_used_for_training := 0 |} ]};
     DataCollector.devices :=
       {[ "pump-1" := {| DataCollector.d_total_samples := 1;
                         DataCollector.d_labeled_samples := 0;
                         DataCollector.d_last_seen := Some 1704110400000000;
                         DataCollector.d_model_version := None |} ]};
     DataCollector.on_sample_received := None |}.

(** A task of sample [id] as [_create_task] builds it, with the given
    priority, status and creation time. *)
Definition task_of (id : Z) (prio : LabelingPriority.t) (st : LabelingStatus.t)
    (created : Py.datetime) : LabelingService.LabelingTask :=
  {| LabelingService.task_id := id; LabelingService.sample_id := id;
     LabelingService.device_id := "pump-1"; LabelingService.features := [];
     LabelingService.predicted_label := 0; LabelingService.confidence := 1 # 2;
     LabelingService.priority := prio; LabelingService.status := st;
     LabelingService.created_at := created;
     LabelingService.assigned_to := None; LabelingService.assigned_at := None;
     LabelingService.completed_at := None; LabelingService.assigned_label := None;
     LabelingService.labeler_confidence := 1; LabelingService.notes := "" |}.

Definition service_of (tasks : Py.dict Z LabelingService.LabelingTask)
    : LabelingService.t :=
  {| LabelingService.data_collector := None;
     LabelingService.tasks := tasks;
     LabelingService.task_counter := Z.of_nat (length tasks);
     LabelingService.labeler_stats := [];
     LabelingService.on_label_assigned := None |}.

(** Three pending tasks created at the same instant, LOW, URGENT, MEDIUM. *)
Definition review_queue : LabelingService.t :=
  service_of
    [ (1, task_of 1 LabelingPriority.LOW LabelingStatus.PENDING 100);
      (2, task_of 2 LabelingPriority.URGENT LabelingStatus.PENDING 100);
      (3, task_of 3 LabelingPriority.MEDIUM LabelingStatus.PENDING 100) ].

(** Two pending HIGH tasks, the second created first. *)
Definition high_queue : LabelingService.t :=
  service_of
    [ (1, task_of 1 LabelingPriority.HIGH LabelingStatus.PENDING 200);
      (2, task_of 2 LabelingPriority.HIGH LabelingStatus.PENDING 100) ].

(** A disputed task, a skipped task and a pending one. *)
Definition settled_tasks : LabelingService.t :=
  service_of
    [ (1, task_of 1 LabelingPriority.HIGH LabelingStatus.DISPUTED 100);
      (2, task_of 2 LabelingPriority.LOW LabelingStatus.SKIPPED 100);
      (3, task_of 3 LabelingPriority.LOW LabelingStatus.PENDING 100) ].

(** A manager over an empty registry, with two candidate artifacts on
    disk. *)
Definition fresh_manager : DeploymentManager.t :=
  DeploymentManager.init "models"
    {[ "/tmp/candidate_a.tflite" := "weights-a";
       "/tmp/candidate_b.tflite" := "weights-b" ]} true.




(** The fresh manager after version v2 was registered. *)
Definition registered_v2 : DeploymentManager.t :=
  (DeploymentManager.register_model fresh_manager "/tmp/candidate_a.tflite" "v2"
     (9 # 10) None 1704110400000000).2.

(** The fresh manager after four calls: the empty version string and v2
    are registered, then the empty version is deployed, then v2. *)
Definition after_empty_version : DeploymentManager.t :=
  let m1 :=
    (DeploymentManager.register_model fresh_manager "/tmp/candidate_a.tflite" ""
       (8 # 10) None 1704110400000000).2 in
  let m2 :=
    (DeploymentManager.register_model m1 "/tmp/candidate_b.tflite" "v2"
       (9 # 10) None 1704110401000000).2 in
  let m3 := (DeploymentManager.deploy_model m2 "" None 1704110402000000).2 in
  (DeploymentManager.deploy_model m3 "v2" None 1704110403000000).2.

End Spec.

(** ** Further states and words for the properties of the other operations *)

Module Scenario.

(** The envelope of a batch element once [receive_batch] has written the
    device id of the batch into it. *)
Definition stamped (device : option Py.obj) (now : Py.datetime)
    (data : gmap string Py.obj) : DataCollector.TrainingSample :=
  DataCollector.from_dict (<["device_id" := default (Py.Str "") device]> data) now.

(** Whether the callback of the collector, if there is one, returns on a
    sample. *)
Definition callback_returns (dc : DataCollector.t)
    (sample : DataCollector.TrainingSample) : bool :=
  match DataCollector.on_sample_received dc with
  | Some callback =>
      match callback sample with Py.Returns => true | Py.Raises => false end
  | None => true
  end.

(** An orchestrator with the default configuration and no job yet. *)
Definition idle_orchestrator : RetrainingOrchestrator.t :=
  {| RetrainingOrchestrator.config := RetrainingOrchestrator.default_config;
     RetrainingOrchestrator.current_job := None;
     RetrainingOrchestrator.job_history := [];
     RetrainingOrchestrator.production_accuracy := 0;
     RetrainingOrchestrator.runner_threads := 0 |}.



(** A collector that holds two samples in its buffer: one of pump-1, and
    one whose envelope carried [null] as its device id. *)
Definition poisoned_buffer : DataCollector.t :=
  {| DataCollector.sample_queue := [];
     DataCollector.buffer :=
       [ DataCollector.from_dict
           {[ "device_id" := Py.Str "pump-1"; "features" := Py.List [Py.Float (1 # 2)];
              "predicted_label" := Py.Int 1; "confidence" := Py.Float (4 # 10);
              "label_source" := Py.Int 0; "timestamp" := Py.Int 17 ]} 100;
         DataCollector.from_dict
           {[ "device_id" := Py.None_; "features" := Py.List [Py.Float (1 # 2)];
              "predicted_label" := Py.Int 1; "confidence" := Py.Float (4 # 10);
              "label_source" := Py.Int 0; "timestamp" := Py.Int 18 ]} 100 ];
     DataCollector.samples := DataCollector.samples Spec.one_sample_store;
     DataCollector.devices := DataCollector.devices Spec.one_sample_store;
     DataCollector.on_sample_received := None |}.




(** A labeling service as constructed, on the store of one unlabeled
    sample. *)
Definition labeling_desk : LabelingService.t :=
  {| LabelingService.data_collector := Some Spec.one_sample_store;
     LabelingService.tasks := [];
     LabelingService.task_counter := 0;
     LabelingService.labeler_stats := [];
     LabelingService.on_label_assigned := None |}.

(** A store of two labeled samples of pump-1, both predicted with
    confidence above one half. *)
Definition labeled_store : DataCollector.t :=
  {| DataCollector.sample_queue := [];
     DataCollector.buffer := [];
     DataCollector.samples :=
       {[ 1 := {| DataCollector.s_device_id := "pump-1";
                  DataCollector.s_features := [1 # 2];
                  DataCollector.s_predicted_label := 3;
                  DataCollector.s_confidence := 9 # 10;
                  DataCollector.s_label_source := 0;
                  DataCollector.s_timestamp := 17;
                  DataCollector.s_received_at := 100;
                  DataCollector.s_true_label := Some 3;
                  DataCollector.s_used_for_training := 0 |};
          2 := {| DataCollector.s_device_id := "pump-1";
                  DataCollector.s_features := [1 # 4];
                  DataCollector.s_predicted_label := 1;
                  DataCollector.s_confidence := 6 # 10;
                  DataCollector.s_label_source := 0;
                  DataCollector.s_timestamp := 18;
                  DataCollector.s_received_at := 101;
                  DataCollector.s_true_label := Some 2;
                  DataCollector.s_used_for_training := 0 |} ]};
     DataCollector.devices :=
       {[ "pump-1" := {| DataCollector.d_total_samples := 2;
                         DataCollector.d_labeled_samples := 2;
                         DataCollector.d_last_seen := Some 101;
                         DataCollector.d_model_version := None |} ]};
     DataCollector.on_sample_received := None |}.

(** A trainer that answers at once with accuracies 0.9 and 0.85, a
    shuffle that leaves the order alone, the split index in exact
    arithmetic for a validation split of 0.2, and no callbacks. *)
Definition quiet_trainer : RetrainingJobs.environment :=
  {| RetrainingJobs.shuffle := fun samples => samples;
     RetrainingJobs.split_idx := fun n => Z.of_nat n * 8 / 10;
     RetrainingJobs._train_model :=
       fun _ _ => RetrainingJobs.Returned (9 # 10, 85 # 100);
     RetrainingJobs.save := RetrainingJobs.Returned tt;
     RetrainingJobs.format_accuracy := fun _ => "0.8500";
     RetrainingJobs.on_job_started := None;
     RetrainingJobs.on_job_completed := None |}.

(** The world right after [trigger_retraining('manual')] on an idle
    orchestrator, with the store of two labeled samples and the given
    deployment manager. *)
Definition scheduled_run (m : option DeploymentManager.t) : RetrainingJobs.world :=
  {| RetrainingJobs.orchestrator :=
       (RetrainingOrchestrator.trigger_retraining idle_orchestrator "manual" 100).2;
     RetrainingJobs.collector := labeled_store;
     RetrainingJobs.manager := m |}.

End Scenario.

(** * Properties *)

(** ** Dictionaries and sorting *)

Section DictFacts.
Context {K V : Type} `{EqDecision K}.
Implicit Types (d : Py.dict K V) (k : K) (v : V).

Lemma get_set_eq d k v : Py.get k (Py.set k v d) = Some v.
Proof.
  induction d as [|[k' v'] d IH]; simpl.
  - by rewrite decide_True.
  - destruct (decide (k = k')) as [->|Hne]; simpl.
    + by rewrite decide_True.
    + by rewrite decide_False.
Qed.

Lemma get_set_ne d k k' v : k <> k' -> Py.get k' (Py.set k v d) = Py.get k' d.
Proof.
  intros Hne. induction d as [|[k0 v0] d IH]; simpl.
  - by rewrite decide_False.
  - destruct (decide (k = k0)) as [->|Hk]; simpl.
    + by rewrite !decide_False.
    + destruct (decide (k' = k0)); [done | exact IH].
Qed.

Lemma get_set d k k' v :
  Py.get k' (Py.set k v d) = if decide (k = k') then Some v else Py.get k' d.
Proof.
  destruct (decide (k = k')) as [->|Hne];
    [apply get_set_eq | by apply get_set_ne].
Qed.

Lemma get_elem_of d k v : Py.get k d = Some v -> (k, v) ∈ d.
Proof.
  induction d as [|[k' v'] d IH]; simpl; [done|].
  destruct (decide (k = k')) as [->|Hne].
  - intros [= ->]. by left.
  - intros Hget. right. by apply IH.
Qed.

Lemma get_None_keys d k : Py.get k d = None <-> k ∉ Py.keys d.
Proof.
  induction d as [|[k' v'] d IH]; simpl.
  - split; [intros _; apply not_elem_of_nil | done].
  - rewrite not_elem_of_cons. destruct (decide (k = k')) as [->|Hne].
    + split; [done | by intros [? _]].
    + rewrite IH. tauto.
Qed.

(** In a dictionary (a list without repeated keys) an entry is what [get]
    finds under its key. *)
Lemma elem_of_get d k v : NoDup (Py.keys d) -> (k, v) ∈ d -> Py.get k d = Some v.
Proof.
  induction d as [|[k' v'] d IH]; simpl.
  - intros _ Hin. by apply elem_of_nil in Hin.
  - rewrite NoDup_cons. intros [Hk' Hnd] Hin.
    apply elem_of_cons in Hin as [[= -> ->]|Hin].
    + by rewrite decide_True.
    + destruct (decide (k = k')) as [->|Hne]; [|by apply IH].
      destruct Hk'. unfold Py.keys.
      apply (list_elem_of_fmap_2 fst d (k', v) Hin).
Qed.

Lemma keys_set_absent d k v :
  Py.get k d = None -> Py.keys (Py.set k v d) = Py.keys d ++ [k].
Proof.
  induction d as [|[k' v'] d IH]; simpl; [done|].
  destruct (decide (k = k')) as [->|Hne]; simpl; [done|].
  intros Hnone. f_equal. by apply IH.
Qed.

Lemma keys_set_present d k v :
  is_Some (Py.get k d) -> Py.keys (Py.set k v d) = Py.keys d.
Proof.
  induction d as [|[k' v'] d IH]; simpl.
  - by intros [? ?].
  - destruct (decide (k = k')) as [->|Hne]; simpl; [done|].
    intros Hsome. f_equal. by apply IH.
Qed.

(** Assignment keeps the keys of a dictionary distinct. *)
Lemma NoDup_keys_set d k v : NoDup (Py.keys d) -> NoDup (Py.keys (Py.set k v d)).
Proof.
  intros Hnd. destruct (Py.get k d) as [v0|] eqn:Hget.
  - rewrite keys_set_present; [done | by exists v0].
  - rewrite keys_set_absent by done.
    apply NoDup_app. split; [done|]. split; [|apply NoDup_singleton].
    intros k' Hin Hk. apply list_elem_of_singleton in Hk as ->.
    by apply get_None_keys in Hget.
Qed.


End DictFacts.

Section SortFacts.
Context {A : Type} (le : A -> A -> bool).
Hypothesis le_total : forall x y, le x y = true \/ le y x = true.
Hypothesis le_trans : forall x y z, le x y = true -> le y z = true -> le x z = true.

Lemma insert_sorted_In x y l : In y (Py.insert_sorted le x l) <-> y = x \/ In y l.
Proof.
  induction l as [|z l IH]; simpl; [intuition|].
  destruct (le x z); simpl; rewrite ?IH; intuition.
Qed.

Lemma sort_In y l : In y (Py.sort le l) <-> In y l.
Proof.
  induction l as [|z l IH]; simpl; [done|].
  rewrite insert_sorted_In, IH. intuition.
Qed.

(** The head of [insert_sorted x l] is below [x] and below the head of
    [l]. *)
Lemma insert_sorted_head x l h rest :
  Py.insert_sorted le x l = h :: rest ->
  (forall y, In y l -> exists h0 rest0, l = h0 :: rest0 /\ le h0 y = true) ->
  forall y, y = x \/ In y l -> le h y = true.
Proof.
  destruct l as [|z l]; simpl.
  - intros [= <- <-] _ y [->|[]]. by destruct (le_total x x).
  - intros Hins Hmin y Hy.
    assert (Hz : forall y, In y (z :: l) -> le z y = true).
    { intros y' Hy'. destruct (Hmin y' Hy') as (h0 & rest0 & [= <- <-] & Hle). done. }
    destruct (le x z) eqn:Hxz; injection Hins as <- <-.
    + destruct Hy as [->|Hy]; [by destruct (le_total x x)|].
      eapply le_trans; [exact Hxz | by apply Hz].
    + destruct Hy as [->|Hy]; [|by apply Hz].
      by destruct (le_total x z) as [Hle|Hle]; [congruence|].
Qed.

(** The first element of a sorted list is a least element of the list. *)
Lemma sort_head_least l h rest :
  Py.sort le l = h :: rest -> forall y, In y l -> le h y = true.
Proof.
  revert h rest. induction l as [|x l IH]; intros h rest; simpl; [done|].
  intros Hins y Hy.
  eapply insert_sorted_head; [exact Hins | | ].
  - intros y' Hy'. destruct (Py.sort le l) as [|h0 rest0] eqn:Hs; [done|].
    exists h0, rest0. split; [done|].
    apply (IH h0 rest0 eq_refl). by apply (sort_In y' l); rewrite Hs.
  - destruct Hy as [->|Hy]; [by left|right]. by apply sort_In.
Qed.

Lemma sort_nil l : Py.sort le l = [] -> l = [].
Proof.
  destruct l as [|x l]; [done|]. simpl.
  destruct (Py.sort le l); simpl; [done|]. by destruct (le x a).
Qed.

End SortFacts.

(** ** Retraining orchestrator *)

Section Orchestrator.
Import RetrainingOrchestrator.

Lemma in_flight_true job :
  in_flight job = true <->
  status job <> RetrainingStatus.COMPLETED /\ status job <> RetrainingStatus.FAILED.
Proof.
  unfold in_flight. rewrite negb_true_iff, orb_false_iff.
  rewrite !bool_decide_eq_false. done.
Qed.

Lemma job_in_flight_iff o :
  Spec.job_in_flight o <->
  match current_job o with Some job => in_flight job | None => false end = true.
Proof.
  unfold Spec.job_in_flight. destruct (current_job o) as [job|].
  - rewrite in_flight_true. split.
    + by intros (j & [= <-] & H).
    + intros H. by exists job.
  - split; [by intros (j & [=] & _) | done].
Qed.

Lemma Qltb_false x y : Py.Qltb x y = false <-> (y <= x)%Q.
Proof.
  unfold Py.Qltb. rewrite negb_false_iff. apply Qle_bool_iff.
Qed.

(** C4. [should_retrain] answers true exactly when no job is in flight and
    the three thresholds on the statistics of the sample store are met:
    enough samples, a high enough labeling rate, enough samples not yet
    used for training; so it answers false whenever a job is in flight. *)
Theorem should_retrain_decision_rule o dc :
  let stats := DataCollector.get_stats_summary dc in
  should_retrain o dc = true <->
  ~ Spec.job_in_flight o
  /\ min_samples_for_retraining (config o) <= DataCollector.total_samples stats
  /\ (min_labeled_ratio (config o) <= DataCollector.labeling_rate stats)%Q
  /\ min_new_samples (config o)
     <= DataCollector.total_samples stats - DataCollector.used_for_training stats.
Proof.
  intros stats. rewrite job_in_flight_iff. unfold should_retrain. fold stats.
  destruct (match current_job o with Some job => in_flight job | None => false end).
  - split; [done | intros [Hn _]; by destruct Hn].
  - destruct (Z.ltb_spec (DataCollector.total_samples stats)
                (min_samples_for_retraining (config o))) as [Hlt|Hge].
    { split; [done | lia]. }
    destruct (Py.Qltb (DataCollector.labeling_rate stats)
                (min_labeled_ratio (config o))) eqn:Hrate.
    { split; [done|]. intros (_ & _ & Hq & _).
      apply Qltb_false in Hq. congruence. }
    apply Qltb_false in Hrate.
    destruct (Z.ltb_spec
                (DataCollector.total_samples stats - DataCollector.used_for_training stats)
                (min_new_samples (config o))) as [Hlt|Hnew].
    { split; [done | lia]. }
    split; [|done]. intros _. repeat split; done.
Qed.

(** X2. The scheduling loop keeps a job in flight in place: it asks
    [should_retrain] before it triggers. *)
Lemma worker_turn_keeps_job_in_flight o dc now :
  Spec.job_in_flight o -> worker_turn o dc now = o.
Proof.
  intros Hjob. apply job_in_flight_iff in Hjob.
  unfold worker_turn, should_retrain. by rewrite Hjob.
Qed.

Lemma worker_turn_keeps_job_in_flight_example :
  worker_turn Spec.training_orchestrator Spec.idle_collector 1704110700000000
  = Spec.training_orchestrator.
Proof.
  apply (worker_turn_keeps_job_in_flight Spec.training_orchestrator).
  eexists. split; [reflexivity|]. split; discriminate.
Defined.

(** What [trigger_retraining] does in every state: a new SCHEDULED job
    becomes the current one and one more runner thread is started. *)
Lemma trigger_retraining_always_starts o trigger now :
  let o' := (trigger_retraining o trigger now).2 in
  (status <$> current_job o') = Some RetrainingStatus.SCHEDULED
  /\ (job_id <$> current_job o') = Some ((trigger_retraining o trigger now).1)
  /\ runner_threads o' = S (runner_threads o).
Proof. done. Qed.

(** C1, at the failing input: while the job of 12:00:00 is TRAINING, a
    manual trigger at 12:05:00 puts a new SCHEDULED job in its place and
    starts a second runner thread. *)
Theorem trigger_retraining_replaces_job_in_flight :
  let o := Spec.training_orchestrator in
  let o' := (trigger_retraining o "manual" 1704110700000000).2 in
  Spec.job_in_flight o
  /\ (job_id <$> current_job o) = Some "job_20240101_120000"
  /\ (job_id <$> current_job o') = Some "job_20240101_120500"
  /\ (status <$> current_job o') = Some RetrainingStatus.SCHEDULED
  /\ runner_threads o = 1%nat
  /\ runner_threads o' = 2%nat.
Proof.
  repeat split; try reflexivity.
  eexists. split; [reflexivity|]. split; discriminate.
Qed.

End Orchestrator.

(** ** Sample store *)

Section Collector.
Import DataCollector.

(** C5, as stated, fails: an envelope with an empty device id, and one
    with an empty feature vector, are both answered with [True] and
    queued. *)
Lemma receive_sample_accepts_invalid_envelopes :
  let r1 := receive_sample Spec.idle_collector Spec.anonymous_envelope 0 in
  let r2 := receive_sample Spec.idle_collector Spec.featureless_envelope 0 in
  Spec.invalid_envelope Spec.anonymous_envelope
  /\ r1.1 = true
  /\ sample_queue r1.2 = [from_dict Spec.anonymous_envelope 0]
  /\ device_id (from_dict Spec.anonymous_envelope 0) = Py.Str ""
  /\ Spec.invalid_envelope Spec.featureless_envelope
  /\ r2.1 = true
  /\ sample_queue r2.2 = [from_dict Spec.featureless_envelope 0]
  /\ features (from_dict Spec.featureless_envelope 0) = Py.List [].
Proof.
  repeat split; try reflexivity.
  - left. reflexivity.
  - right. reflexivity.
Qed.

(** C5, amended.  [receive_sample] validates nothing: every envelope, with
    its missing fields defaulted, is put on the queue, whatever its device
    id and features; the answer is [False] only when the
    [on_sample_received] callback raises, and then the sample is queued
    all the same. *)
Theorem receive_sample_queues_every_envelope dc data now :
  let r := receive_sample dc data now in
  sample_queue r.2 = sample_queue dc ++ [from_dict data now]
  /\ buffer r.2 = buffer dc /\ samples r.2 = samples dc /\ devices r.2 = devices dc
  /\ (r.1 = false <->
      exists callback,
        on_sample_received dc = Some callback
        /\ callback (from_dict data now) = Py.Raises).
Proof.
  unfold receive_sample.
  destruct (on_sample_received dc) as [callback|] eqn:Hcb.
  - destruct (callback (from_dict data now)) eqn:Hout; simpl;
      repeat split; try done.
    + by intros (cb & [= <-] & Hr); congruence.
    + intros _. by exists callback.
  - simpl. repeat split; try done. by intros (cb & [=] & _).
Qed.



(** [set_label] on an id that table [samples] does not hold changes
    nothing. *)
Lemma set_label_unknown_sample dc id label :
  samples dc !! id = None ->
  samples (set_label dc id label).2 = samples dc
  /\ devices (set_label dc id label).2 = devices dc.
Proof.
  intros Hnone. unfold set_label. simpl.
  rewrite lookup_alter_eq, Hnone. simpl. split; [|done].
  apply map_eq. intros i. rewrite lookup_alter.
  case_decide; [subst; by rewrite Hnone | done].
Qed.




End Collector.

(** ** Labeling queue *)

Section Labeling.
Import LabelingService.

Lemma key_le_spec a b :
  key_le a b = true <-> a.1 < b.1 \/ (a.1 = b.1 /\ a.2 <= b.2).
Proof.
  unfold key_le. rewrite orb_true_iff, andb_true_iff.
  rewrite Z.ltb_lt, Z.eqb_eq, Z.leb_le. done.
Qed.

Lemma by_key_total a b : by_key a b = true \/ by_key b a = true.
Proof. unfold by_key. rewrite !key_le_spec. lia. Qed.

Lemma by_key_trans a b c :
  by_key a b = true -> by_key b c = true -> by_key a c = true.
Proof. unfold by_key. rewrite !key_le_spec. lia. Qed.

Lemma sorted_pending_elem_of s kv :
  kv ∈ sorted_pending s <-> kv ∈ tasks s /\ status kv.2 = LabelingStatus.PENDING.
Proof.
  unfold sorted_pending. rewrite list_elem_of_In, sort_In, <- list_elem_of_In.
  rewrite list_elem_of_filter. unfold is_pending.
  rewrite bool_decide_eq_true. tauto.
Qed.

(** The task [get_next_task] selects: pending, and first in the order of
    the sort key among the pending tasks. *)
Lemma sorted_pending_head s slot task rest :
  sorted_pending s = (slot, task) :: rest ->
  (slot, task) ∈ tasks s
  /\ status task = LabelingStatus.PENDING
  /\ forall k t, (k, t) ∈ tasks s -> status t = LabelingStatus.PENDING ->
       key_le (sort_key task) (sort_key t) = true.
Proof.
  intros Hs.
  assert (Hin : (slot, task) ∈ sorted_pending s) by (rewrite Hs; by left).
  apply sorted_pending_elem_of in Hin as [Hin Hst]. do 2 (split; [done|]).
  intros k t Hkt Hpending.
  apply (sort_head_least by_key by_key_total by_key_trans _ _ _ Hs (k, t)).
  apply list_elem_of_In, list_elem_of_filter. split; [|done].
  unfold is_pending. by rewrite bool_decide_eq_true.
Qed.




(** The order of the specification's example: URGENT, then MEDIUM, then
    LOW; and of two HIGH tasks the one created first. *)
Lemma get_tasks_batch_review_queue :
  map (fun task => (task_id task, priority task))
    (get_tasks_batch Spec.review_queue (Some "ana") 3 500).1
  = [ (2, LabelingPriority.URGENT); (3, LabelingPriority.MEDIUM);
      (1, LabelingPriority.LOW) ]
  /\ (task_id <$> (get_next_task Spec.high_queue None 500).1) = Some 2.
Proof. split; reflexivity. Qed.

(** C10. Without a labeler id [get_next_task] changes nothing: the service
    after the call is the service before it, and the answer is a task of
    the service as it stands, PENDING and unassigned by the call. *)
Theorem get_next_task_without_labeler_is_a_read s now :
  (get_next_task s None now).2 = s
  /\ forall task,
       (get_next_task s None now).1 = Some task ->
       exists slot, (slot, task) ∈ tasks s /\ status task = LabelingStatus.PENDING.
Proof.
  unfold get_next_task.
  destruct (sorted_pending s) as [|[slot task] rest] eqn:Hs; simpl.
  - split; [done | by intros task [=]].
  - split; [done|]. intros t [= <-]. exists slot.
    by destruct (sorted_pending_head s slot task rest Hs) as (Hin & Hst & _).
Qed.

(** The empty string is no labeler id either. *)
Lemma get_next_task_falsy_labeler s labeler now :
  Py.truthy labeler = false -> (get_next_task s labeler now).2 = s.
Proof.
  intros Hf. unfold get_next_task.
  destruct (sorted_pending s) as [|[slot task] rest]; [done|]. by rewrite Hf.
Qed.

(** C8, as stated, fails: a DISPUTED task is LABELED by [submit_label], a
    SKIPPED task is DISPUTED by [dispute_label], and a PENDING task is
    SKIPPED by [skip_task] without having been IN_PROGRESS. *)
Lemma status_leaves_disputed_and_skipped :
  let s := Spec.settled_tasks in
  (status <$> Py.get 1 (tasks s)) = Some LabelingStatus.DISPUTED
  /\ (status <$> Py.get 1 (tasks (submit_label s 1 4 (Some "ana") 1 "" 500).2))
     = Some LabelingStatus.LABELED
  /\ (status <$> Py.get 2 (tasks s)) = Some LabelingStatus.SKIPPED
  /\ (status <$> Py.get 2 (tasks (dispute_label s 2 "mislabeled").2))
     = Some LabelingStatus.DISPUTED
  /\ (status <$> Py.get 3 (tasks s)) = Some LabelingStatus.PENDING
  /\ (status <$> Py.get 3 (tasks (skip_task s 3 "" 500).2))
     = Some LabelingStatus.SKIPPED.
Proof. repeat split; reflexivity. Qed.

Lemma submit_label_tasks s id task label labeler conf text now :
  Py.get id (tasks s) = Some task ->
  tasks (submit_label s id label labeler conf text now).2
  = Py.set id (label_task label labeler conf text now task) (tasks s).
Proof.
  intros Hget. unfold submit_label. rewrite Hget.
  destruct (on_label_assigned s) as [callback|]; [|done].
  by destruct (callback _).
Qed.

(** What [get_next_task] does to the task stored under [id]: nothing, or,
    if that task is the PENDING one it selects and a labeler id is given,
    the assignment. *)
Lemma get_next_task_slot s id task labeler now :
  NoDup (Py.keys (tasks s)) ->
  Py.get id (tasks s) = Some task ->
  Py.get id (tasks (get_next_task s labeler now).2) = Some task
  \/ (status task = LabelingStatus.PENDING
      /\ Py.truthy labeler = true
      /\ Py.get id (tasks (get_next_task s labeler now).2)
         = Some (assign labeler now task)).
Proof.
  intros Hnd Hget. unfold get_next_task.
  destruct (sorted_pending s) as [|[slot chosen] rest] eqn:Hs; [by left|].
  destruct (Py.truthy labeler) eqn:Hl; [|by left]. simpl.
  destruct (sorted_pending_head s slot chosen rest Hs) as (Hin & Hst & _).
  destruct (decide (slot = id)) as [->|Hne].
  - apply (elem_of_get _ _ _ Hnd) in Hin.
    assert (chosen = task) as -> by congruence.
    right. by rewrite get_set_eq.
  - left. by rewrite get_set_ne.
Qed.

(** C8, amended.  The three write operations do not look at the status
    they replace: on every task the service holds, [submit_label] sets
    LABELED, [skip_task] sets SKIPPED and [dispute_label] sets DISPUTED,
    whatever the status was.  [get_next_task] alone respects the status:
    it changes a task only from PENDING to IN_PROGRESS, so it leaves a
    DISPUTED or SKIPPED task as it is. *)
Theorem write_operations_overwrite_status s id task :
  NoDup (Py.keys (tasks s)) ->
  Py.get id (tasks s) = Some task ->
  (forall label labeler conf text now,
     (status <$> Py.get id (tasks (submit_label s id label labeler conf text now).2))
     = Some LabelingStatus.LABELED)
  /\ (forall reason now,
        (status <$> Py.get id (tasks (skip_task s id reason now).2))
        = Some LabelingStatus.SKIPPED)
  /\ (forall reason,
        (status <$> Py.get id (tasks (dispute_label s id reason).2))
        = Some LabelingStatus.DISPUTED)
  /\ (forall labeler now,
        let after := Py.get id (tasks (get_next_task s labeler now).2) in
        (status task <> LabelingStatus.PENDING -> after = Some task)
        /\ (status task = LabelingStatus.PENDING ->
            (status <$> after) = Some LabelingStatus.PENDING
            \/ (status <$> after) = Some LabelingStatus.IN_PROGRESS)).
Proof.
  intros Hnd Hget. repeat split.
  - intros. rewrite (submit_label_tasks _ _ _ _ _ _ _ _ Hget), get_set_eq. done.
  - intros. unfold skip_task. rewrite Hget. simpl. by rewrite get_set_eq.
  - intros. unfold dispute_label. rewrite Hget. simpl. by rewrite get_set_eq.
  - intros Hst.
    destruct (get_next_task_slot s id task labeler now Hnd Hget)
      as [H|(H & _)]; done.
  - intros Hst.
    destruct (get_next_task_slot s id task labeler now Hnd Hget)
      as [->|(_ & _ & ->)]; simpl; [left; by rewrite Hst | by right].
Qed.

Lemma write_operations_overwrite_status_example :
  (forall label labeler conf text now,
     (status <$> Py.get 1 (tasks (submit_label Spec.settled_tasks 1 label labeler
                                    conf text now).2))
     = Some LabelingStatus.LABELED)
  /\ (forall reason now,
        (status <$> Py.get 1 (tasks (skip_task Spec.settled_tasks 1 reason now).2))
        = Some LabelingStatus.SKIPPED)
  /\ (forall reason,
        (status <$> Py.get 1 (tasks (dispute_label Spec.settled_tasks 1 reason).2))
        = Some LabelingStatus.DISPUTED)
  /\ (forall labeler now,
        let after :=
          Py.get 1 (tasks (get_next_task Spec.settled_tasks labeler now).2) in
        (LabelingStatus.DISPUTED <> LabelingStatus.PENDING ->
         after = Some (Spec.task_of 1 LabelingPriority.HIGH LabelingStatus.DISPUTED 100))
        /\ (LabelingStatus.DISPUTED = LabelingStatus.PENDING ->
            (status <$> after) = Some LabelingStatus.PENDING
            \/ (status <$> after) = Some LabelingStatus.IN_PROGRESS)).
Proof.
  apply (write_operations_overwrite_status Spec.settled_tasks 1
           (Spec.task_of 1 LabelingPriority.HIGH LabelingStatus.DISPUTED 100)).
  - apply (bool_decide_unpack _). vm_compute. exact I.
  - reflexivity.
Defined.

(** The keys of [tasks] stay distinct under every operation of the
    service. *)
Lemma tasks_keys_stay_distinct s :
  NoDup (Py.keys (tasks s)) ->
  (forall sample device feats predicted conf now,
     NoDup (Py.keys (tasks (_create_task s sample device feats predicted conf now).2)))
  /\ (forall labeler now, NoDup (Py.keys (tasks (get_next_task s labeler now).2)))
  /\ (forall id label labeler conf text now,
        NoDup (Py.keys (tasks (submit_label s id label labeler conf text now).2)))
  /\ (forall id reason now, NoDup (Py.keys (tasks (skip_task s id reason now).2)))
  /\ (forall id reason, NoDup (Py.keys (tasks (dispute_label s id reason).2))).
Proof.
  intros Hnd. repeat split.
  - intros. by apply NoDup_keys_set.
  - intros. unfold get_next_task.
    destruct (sorted_pending s) as [|[slot task] rest]; [done|].
    destruct (Py.truthy labeler); [by apply NoDup_keys_set | done].
  - intros. destruct (Py.get id (tasks s)) as [task|] eqn:Hget.
    + rewrite (submit_label_tasks _ _ _ _ _ _ _ _ Hget). by apply NoDup_keys_set.
    + unfold submit_label. by rewrite Hget.
  - intros. unfold skip_task. destruct (Py.get id (tasks s)); [|done].
    by apply NoDup_keys_set.
  - intros. unfold dispute_label. destruct (Py.get id (tasks s)); [|done].
    by apply NoDup_keys_set.
Qed.

End Labeling.

(** ** Model registry and rollout *)

Section Registry.
Import DeploymentManager.

Lemma contains_true {V} (d : Py.dict string V) k :
  Py.contains k d = true <-> is_Some (Py.get k d).
Proof.
  unfold Py.contains. destruct (Py.get k d); split; done.
Qed.



(** *** Rollout accounting *)









(** The same rollout, run: the job the manager answers for. *)
Lemma rollout_accounting_run :
  let r :=
    deploy_model Spec.registered_v2 "v2" (Some ["pump-1"; "pump-2"; "pump-3"])
      1704110460000000 in
  let m1 := report_device_status r.2 "pump-3" "failed" None (Some "flash error")
              1704110470000000 in
  let m2 := report_device_status m1 "pump-1" "completed" (Some "v2") None
              1704110480000000 in
  let m3 := report_device_status m2 "pump-2" "completed" (Some "v2") None
              1704110490000000 in
  r.1 = Py.Ok "deploy_20240101_120100"
  /\ ((fun job => (DeploymentJob.status job, DeploymentJob.success_count job,
                   DeploymentJob.failure_count job))
        <$> Py.get "deploy_20240101_120100" (deployments m2))
     = Some (DeploymentStatus.ROLLING_OUT, 1, 1)
  /\ ((fun job => (DeploymentJob.status job, DeploymentJob.success_count job,
                   DeploymentJob.failure_count job, DeploymentJob.completed_at job))
        <$> Py.get "deploy_20240101_120100" (deployments m3))
     = Some (DeploymentStatus.COMPLETED, 2, 1, Some 1704110490000000).
Proof. repeat split; vm_compute; reflexivity. Qed.

(** *** The production flag *)

(** C2, at the failing input.  The empty string is registered as a
    version and deployed; [_set_production] then reads the production
    version [''] as "no production version" and, when v2 is deployed, does
    not demote it: two models are flagged as production. *)
Theorem empty_version_keeps_production_flag :
  reachable Spec.after_empty_version
  /\ production_count Spec.after_empty_version = 2%nat
  /\ (DeployedModel.is_production <$> Py.get "" (registry Spec.after_empty_version))
     = Some true
  /\ (DeployedModel.is_production <$> Py.get "v2" (registry Spec.after_empty_version))
     = Some true
  /\ production_version Spec.after_empty_version = Some "v2".
Proof.
  split; [|repeat split; vm_compute; reflexivity].
  exists "models", (files Spec.fresh_manager), true.
  unfold Spec.after_empty_version.
  eapply rtc_l; [apply (step_register _ "/tmp/candidate_a.tflite" "" (8 # 10) None
                          1704110400000000)|].
  eapply rtc_l; [apply (step_register _ "/tmp/candidate_b.tflite" "v2" (9 # 10) None
                          1704110401000000)|].
  eapply rtc_l; [apply (step_deploy _ "" None 1704110402000000)|].
  eapply rtc_l; [apply (step_deploy _ "v2" None 1704110403000000)|].
  apply rtc_refl.
Qed.

(** Where the empty version string is kept out of [register_model], the
    flags and [production_version] stay tied together. *)

Lemma get_Some_keys {V} (d : Py.dict string V) k v :
  Py.get k d = Some v -> k ∈ Py.keys d.
Proof.
  intros Hget. destruct (decide (k ∈ Py.keys d)) as [|Hnin]; [done|].
  apply get_None_keys in Hnin. congruence.
Qed.

Lemma keys_set_subset {V} (d : Py.dict string V) k v k' :
  k' ∈ Py.keys (Py.set k v d) -> k' = k \/ k' ∈ Py.keys d.
Proof.
  destruct (Py.get k d) as [v0|] eqn:Hget.
  - rewrite keys_set_present by done. by right.
  - rewrite keys_set_absent by done. rewrite elem_of_app, list_elem_of_singleton. tauto.
Qed.

Lemma registry_inv_init dir fs notify : registry_inv (init dir fs notify).
Proof.
  repeat split; simpl.
  - apply NoDup_nil_2.
  - intros v Hv. by apply elem_of_nil in Hv.
  - done.
Qed.

Lemma register_model_inv m path version accuracy metadata now :
  Py.truthy_str version = true ->
  registry_inv m ->
  registry_inv (register_model m path version accuracy metadata now).2.
Proof.
  intros Hv (Hnd & Hkeys & Hprod). unfold register_model.
  destruct (files m !! path) as [content|]; [|done].
  case_decide; [done|]. repeat split; simpl.
  - by apply NoDup_keys_set.
  - intros v Hin. apply keys_set_subset in Hin as [->|Hin]; [done | by apply Hkeys].
  - intros v model. rewrite get_set. case_decide.
    + by intros [= <-].
    + apply Hprod.
Qed.

Lemma _set_production_inv m version now :
  registry_inv m -> registry_inv (_set_production m version now).2.
Proof.
  intros (Hnd & Hkeys & Hprod). unfold _set_production.
  match goal with |- context [Py.get version ?r] => set (reg1 := r) end.
  assert (Hreg1 : NoDup (Py.keys reg1)
                  /\ (forall v, v ∈ Py.keys reg1 -> Py.truthy_str v = true)
                  /\ forall v model, Py.get v reg1 = Some model ->
                       DeployedModel.is_production model = false).
  { subst reg1. destruct (production_version m) as [pv|] eqn:Hpv.
    - destruct (Py.truthy_str pv) eqn:Htruthy.
      + destruct (Py.get pv (registry m)) as [old|] eqn:Hold.
        * split; [by apply NoDup_keys_set|]. split.
          { intros v Hin. apply keys_set_subset in Hin as [->|Hin]; [done|].
            by apply Hkeys. }
          intros v model. rewrite get_set. case_decide.
          { by intros [= <-]. }
          intros Hget. destruct (DeployedModel.is_production model) eqn:Hp; [|done].
          specialize (Hprod v model Hget Hp). congruence.
        * do 2 (split; [done|]). intros v model Hget.
          destruct (DeployedModel.is_production model) eqn:Hp; [|done].
          specialize (Hprod v model Hget Hp). congruence.
      + do 2 (split; [done|]). intros v model Hget.
        destruct (DeployedModel.is_production model) eqn:Hp; [|done].
        specialize (Hprod v model Hget Hp). injection Hprod as ->.
        apply get_Some_keys, Hkeys in Hget. congruence.
    - do 2 (split; [done|]). intros v model Hget.
      destruct (DeployedModel.is_production model) eqn:Hp; [|done].
      specialize (Hprod v model Hget Hp). congruence. }
  destruct Hreg1 as (Hnd1 & Hkeys1 & Hflags1).
  destruct (Py.get version reg1) as [model|] eqn:Hmodel; simpl.
  - split; [by apply NoDup_keys_set|]. split.
    + intros v Hin. apply keys_set_subset in Hin as [->|Hin]; [|by apply Hkeys1].
      by apply get_Some_keys, Hkeys1 in Hmodel.
    + intros v model'. simpl. rewrite get_set. case_decide; [by subst|].
      intros Hget Hp. rewrite (Hflags1 v model' Hget) in Hp. done.
  - do 2 (split; [done|]). intros v model Hget Hp.
    rewrite (Hflags1 v model Hget) in Hp. done.
Qed.

Lemma notify_all_registry info now ds m :
  registry (foldl (notify_one info now) m ds) = registry m
  /\ production_version (foldl (notify_one info now) m ds) = production_version m.
Proof.
  revert m. induction ds as [|d ds IH]; intros m; simpl; [done|].
  destruct (IH (notify_one info now m d)) as [-> ->]. done.
Qed.

Lemma _start_rollout_registry m id now :
  registry (_start_rollout m id now).2 = registry m
  /\ production_version (_start_rollout m id now).2 = production_version m.
Proof.
  unfold _start_rollout. destruct (Py.get id (deployments m)); [|done]. simpl.
  match goal with |- context [Py.get ?v (registry m)] =>
    destruct (Py.get v (registry m)) end; [|done].
  destruct (notify_device m); [|done]. simpl.
  match goal with |- context [foldl (notify_one ?i now) ?m0 ?ds] =>
    destruct (notify_all_registry i now ds m0) as [-> ->] end.
  done.
Qed.

Lemma registry_inv_ext m m' :
  registry m' = registry m -> production_version m' = production_version m ->
  registry_inv m -> registry_inv m'.
Proof. unfold registry_inv. by intros -> ->. Qed.

Lemma deploy_model_inv m version targets now :
  registry_inv m -> registry_inv (deploy_model m version targets now).2.
Proof.
  intros Hinv. unfold deploy_model.
  destruct (Py.contains version (registry m)); [|done].
  match goal with |- context [_set_production ?x _ _] => set (m1 := x) end.
  assert (Hinv1 : registry_inv m1) by (by apply (registry_inv_ext m)).
  pose proof (_set_production_inv m1 version now Hinv1) as Hinv2.
  destruct (_set_production m1 version now) as [[[]|e] m2]; [|done].
  pose proof (_start_rollout_registry m2 ("deploy_" +:+ Py.strftime now) now)
    as [Hreg Hpv].
  destruct (_start_rollout m2 ("deploy_" +:+ Py.strftime now) now) as [[[]|e] m3];
    by apply (registry_inv_ext m2).
Qed.

Lemma rollback_inv m to_version now :
  registry_inv m -> registry_inv (rollback m to_version now).2.
Proof.
  intros Hinv. unfold rollback.
  match goal with |- context [match ?t with Some _ => _ | None => (Py.Ok false, m) end] =>
    destruct t as [v|] end; [|done].
  destruct (Py.contains v (registry m)); [|done].
  pose proof (deploy_model_inv m v None now Hinv) as Hd.
  by destruct (deploy_model m v None now) as [[?|?] ?].
Qed.

Lemma report_device_status_inv m device status current error now :
  registry_inv m ->
  registry_inv (report_device_status m device status current error now).
Proof.
  intros Hinv. unfold report_device_status.
  destruct (Py.get device (device_status m)); [|done].
  match goal with |- context [if ?b then _ else _] => destruct b end;
    by apply (registry_inv_ext m).
Qed.

Lemma filter_none {A} (P : A -> Prop) `{forall x, Decision (P x)} (l : list A) :
  (forall x, x ∈ l -> ~ P x) -> filter P l = [].
Proof.
  induction l as [|x l IH]; intros Hall; [done|].
  rewrite filter_cons. rewrite decide_False by (apply Hall; left).
  apply IH. intros y Hy. apply Hall. by right.
Qed.

(** At most one flag under the invariant. *)
Lemma at_most_one_flag (reg : list (string * DeployedModel.t)) (pv : option string) :
  NoDup (Py.keys reg) ->
  (forall v model, (v, model) ∈ reg ->
     DeployedModel.is_production model = true -> pv = Some v) ->
  (length (filter (fun kv => DeployedModel.is_production kv.2 = true) reg) <= 1)%nat.
Proof.
  induction reg as [|[k model] reg IH]; intros Hnd Hin; [simpl; lia|].
  change (Py.keys ((k, model) :: reg)) with (k :: Py.keys reg) in Hnd.
  apply NoDup_cons in Hnd as [Hk Hnd].
  assert (Hrest : forall v md, (v, md) ∈ reg ->
                    DeployedModel.is_production md = true -> pv = Some v).
  { intros v md Hel. apply Hin. by right. }
  rewrite filter_cons. case_decide as Hflag; [|by apply IH].
  pose proof (Hin k model (list_elem_of_here _ _) Hflag) as Hpv.
  rewrite filter_none; [simpl; lia|].
  intros [k' model'] Hel Hflag'.
  pose proof (Hrest k' model' Hel Hflag') as Hpv'.
  assert (k' = k) as -> by congruence.
  apply Hk. apply (list_elem_of_fmap_2 fst reg (k, model') Hel).
Qed.

Lemma production_count_le_1 m : registry_inv m -> (production_count m <= 1)%nat.
Proof.
  intros (Hnd & _ & Hprod). apply (at_most_one_flag _ (production_version m) Hnd).
  intros v model Hel. apply Hprod. by apply elem_of_get.
Qed.

(** X1. The invariant holds in every state the calls reach when no version
    is the empty string, and so at most one model is flagged there; a
    flagged model is the one [production_version] names, so that a
    deployment leaves no other model flagged. *)
Lemma named_reachable_one_production dir fs notify m :
  rtc named_step (init dir fs notify) m ->
  registry_inv m /\ (production_count m <= 1)%nat.
Proof.
  intros Hsteps.
  assert (Hinv : registry_inv m).
  { pose proof (registry_inv_init dir fs notify) as Hinit.
    induction Hsteps as [|m1 m2 m3 Hstep _ IH]; [done|].
    apply IH. destruct Hstep.
    - by apply register_model_inv.
    - by apply deploy_model_inv.
    - by apply rollback_inv.
    - by apply report_device_status_inv. }
  split; [done | by apply production_count_le_1].
Qed.

Lemma named_reachable_one_production_example :
  let m := (deploy_model Spec.registered_v2 "v2" None 1704110460000000).2 in
  registry_inv m /\ (production_count m <= 1)%nat.
Proof.
  apply (named_reachable_one_production "models" (files Spec.fresh_manager) true).
  eapply rtc_l;
    [apply (named_register _ "/tmp/candidate_a.tflite" "v2" (9 # 10) None
              1704110400000000); reflexivity|].
  eapply rtc_l; [apply (named_deploy _ "v2" None 1704110460000000)|].
  apply rtc_refl.
Defined.

End Registry.

(** ** Sample store: statistics, marking, batches *)

Section CollectorReads.
Import DataCollector.

Lemma filter_all {A} (P : A -> Prop) `{forall x, Decision (P x)} (l : list A) :
  (forall x, x ∈ l -> P x) -> filter P l = l.
Proof.
  induction l as [|x l IH]; intros Hall; [done|].
  rewrite filter_cons, decide_True by (apply Hall; left).
  f_equal. apply IH. intros y Hy. apply Hall. by right.
Qed.

Lemma count_where_total (tbl : gmap Z sample_row) :
  count_where (fun _ => true) tbl = Z.of_nat (size tbl).
Proof.
  unfold count_where. rewrite filter_all by done.
  by rewrite length_map_to_list.
Qed.

Lemma count_where_bounds P (tbl : gmap Z sample_row) :
  0 <= count_where P tbl <= count_where (fun _ => true) tbl.
Proof.
  rewrite count_where_total. unfold count_where.
  pose proof (length_filter (fun kv : Z * sample_row => P kv.2 = true)
                (map_to_list tbl)) as Hle.
  rewrite length_map_to_list in Hle. lia.
Qed.

Lemma count_where_all P (tbl : gmap Z sample_row) :
  (forall i r, tbl !! i = Some r -> P r = true) ->
  count_where P tbl = count_where (fun _ => true) tbl.
Proof.
  intros Hall. unfold count_where. f_equal. f_equal.
  rewrite (filter_all (fun kv : Z * sample_row => true = true)) by done.
  apply filter_all. intros [i r] Hin. apply (Hall i). by apply elem_of_map_to_list.
Qed.


(** X3. The statistics of the store are consistent: labeled and unlabeled
    samples add up to the total, the samples used for training are among
    the total, and the labeling rate lies between 0 and 1. *)
Theorem stats_summary_is_consistent dc :
  let stats := get_stats_summary dc in
  labeled_samples stats + unlabeled_samples stats = total_samples stats
  /\ 0 <= labeled_samples stats <= total_samples stats
  /\ 0 <= used_for_training stats <= total_samples stats
  /\ (0 <= labeling_rate stats)%Q
  /\ (labeling_rate stats <= 1)%Q.
Proof.
  simpl.
  pose proof (count_where_bounds
                (fun r => bool_decide (is_Some (s_true_label r))) (samples dc)) as Hl.
  pose proof (count_where_bounds (fun r => s_used_for_training r =? 1) (samples dc))
    as Hu.
  split; [lia|]. do 2 (split; [done|]).
  destruct (Z.gtb_spec (count_where (fun _ => true) (samples dc)) 0) as [Hpos|Hz].
  - unfold Qle. simpl. rewrite Z2Pos.id by lia. lia.
  - split; apply Qle_refl || (unfold Qle; simpl; lia).
Qed.



Lemma lookup_mark_used (tbl : gmap Z sample_row) ids i :
  foldr (alter use_row) tbl ids !! i
  = if decide (i ∈ ids) then use_row <$> tbl !! i else tbl !! i.
Proof.
  induction ids as [|id ids IH]; [done|]. cbn [foldr].
  rewrite lookup_alter. destruct (decide (id = i)) as [->|Hne]; rewrite IH.
  - rewrite (decide_True (P := i ∈ i :: ids)) by left.
    destruct (decide (i ∈ ids)); [|done]. by destruct (tbl !! i).
  - destruct (decide (i ∈ ids)) as [Hin|Hnin].
    + rewrite decide_True; [done | by right].
    + rewrite decide_False; [done|]. rewrite elem_of_cons. by intros [->|?].
Qed.



(** X5. Once every sample of the store is marked as used, no sample is new:
    with a positive [min_new_samples] the policy does not ask for a
    retraining, whatever else holds. *)
Theorem should_retrain_false_when_all_used o dc ids :
  0 < RetrainingOrchestrator.min_new_samples (RetrainingOrchestrator.config o) ->
  (forall i, is_Some (samples dc !! i) -> i ∈ ids) ->
  RetrainingOrchestrator.should_retrain o (mark_used_for_training dc ids) = false.
Proof.
  intros Hmin Hall. unfold RetrainingOrchestrator.should_retrain.
  destruct (match RetrainingOrchestrator.current_job o with
            | Some job => RetrainingOrchestrator.in_flight job
            | None => false
            end); [done|].
  destruct (_ <? _); [done|]. destruct (Py.Qltb _ _); [done|].
  assert (Hused : used_for_training (get_stats_summary (mark_used_for_training dc ids))
                  = total_samples (get_stats_summary (mark_used_for_training dc ids))).
  { simpl. apply count_where_all. intros i r. rewrite lookup_mark_used.
    destruct (decide (i ∈ ids)) as [Hin|Hnin].
    - destruct (samples dc !! i); [|done]. by intros [= <-].
    - intros Hr. destruct Hnin. apply Hall. by rewrite Hr. }
  rewrite Hused, Z.sub_diag.
  destruct (Z.ltb_spec 0 (RetrainingOrchestrator.min_new_samples
                            (RetrainingOrchestrator.config o))); [done | lia].
Qed.

Lemma should_retrain_false_when_all_used_example :
  RetrainingOrchestrator.should_retrain Scenario.idle_orchestrator
    (mark_used_for_training Spec.one_sample_store [1]) = false.
Proof.
  apply should_retrain_false_when_all_used.
  - reflexivity.
  - intros i [r Hr]. unfold Spec.one_sample_store in Hr. simpl in Hr.
    apply lookup_singleton_Some in Hr as [<- _]. left.
Defined.

Lemma receive_all_accounting dc device batch now count :
  let r := receive_all dc (default (Py.Str "") device) batch now count in
  r.1 = count
        + Z.of_nat (length (filter (fun data =>
                                      Scenario.callback_returns dc
                                        (Scenario.stamped device now data) = true)
                              batch))
  /\ sample_queue r.2 = sample_queue dc ++ map (Scenario.stamped device now) batch
  /\ buffer r.2 = buffer dc /\ samples r.2 = samples dc
  /\ devices r.2 = devices dc
  /\ on_sample_received r.2 = on_sample_received dc.
Proof.
  revert dc count. induction batch as [|data batch IH]; intros dc count.
  { simpl. rewrite app_nil_r. repeat split; lia. }
  cbn [receive_all]. fold (Scenario.stamped device now data).
  set (sample := Scenario.stamped device now data).
  assert (Hstep : receive_sample dc (<["device_id" := default (Py.Str "") device]> data) now
                  = (Scenario.callback_returns dc sample, put sample dc)).
  { unfold receive_sample, Scenario.callback_returns, sample, Scenario.stamped.
    destruct (on_sample_received dc) as [callback|]; [|done].
    by destruct (callback _). }
  rewrite Hstep.
  destruct (IH (put sample dc)
              (if Scenario.callback_returns dc sample then count + 1 else count))
    as (Hcount & Hqueue & Hbuf & Hsam & Hdev & Hcb).
  assert (Hsame : forall x, Scenario.callback_returns (put sample dc) x
                            = Scenario.callback_returns dc x) by done.
  cbv zeta. rewrite Hcount, Hqueue, Hbuf, Hsam, Hdev, Hcb.
  split; [|split; [simpl; by rewrite <- app_assoc | done]].
  rewrite filter_cons. fold sample.
  rewrite (list_filter_iff
             (fun data0 => Scenario.callback_returns (put sample dc)
                             (Scenario.stamped device now data0) = true)
             (fun data0 => Scenario.callback_returns dc
                             (Scenario.stamped device now data0) = true))
    by (intros x; by rewrite Hsame).
  destruct (Scenario.callback_returns dc sample) eqn:Hret.
  - rewrite decide_True by done. simpl length. lia.
  - rewrite decide_False by done. lia.
Qed.

(** X6. [receive_batch] puts every element of the batch on the queue, in
    order and with the device id of the batch written into it, whether it
    is counted or not; the count it answers with is the number of elements
    on which the callback did not raise, so it is the size of the batch
    when there is no callback. *)
Theorem receive_batch_queues_every_element dc device batch now :
  let r := receive_batch dc device batch now in
  sample_queue r.2 = sample_queue dc ++ map (Scenario.stamped device now) batch
  /\ Forall (fun sample => DataCollector.device_id sample = default (Py.Str "") device)
       (map (Scenario.stamped device now) batch)
  /\ r.1 = Z.of_nat (length (filter (fun data =>
                                       Scenario.callback_returns dc
                                         (Scenario.stamped device now data) = true)
                               batch))
  /\ 0 <= r.1 <= Z.of_nat (length batch)
  /\ samples r.2 = samples dc /\ devices r.2 = devices dc.
Proof.
  cbv zeta. unfold receive_batch.
  destruct (receive_all_accounting dc device batch now 0)
    as (Hcount & Hqueue & _ & Hsam & Hdev & _).
  cbv zeta in Hcount, Hqueue, Hsam, Hdev.
  rewrite Hqueue, Hsam, Hdev, Hcount. repeat split; try lia.
  - apply Forall_forall. intros sample Hin.
    apply list_elem_of_fmap in Hin as (data & -> & _).
    unfold Scenario.stamped, from_dict, dict_get. simpl.
    by rewrite lookup_insert_eq.
  - pose proof (length_filter (fun data =>
                   Scenario.callback_returns dc (Scenario.stamped device now data) = true)
                  batch). lia.
Qed.

End CollectorReads.

(** ** Sorting, again: the whole list *)

Section SortedFacts.
Context {A : Type} (le : A -> A -> bool).
Hypothesis le_total : forall x y, le x y = true \/ le y x = true.
Hypothesis le_trans : forall x y z, le x y = true -> le y z = true -> le x z = true.

Lemma insert_sorted_Permutation x l : Py.insert_sorted le x l ≡ₚ x :: l.
Proof.
  induction l as [|y l IH]; simpl; [done|].
  destruct (le x y); [done|]. rewrite IH. apply Permutation_swap.
Qed.

Lemma sort_Permutation l : Py.sort le l ≡ₚ l.
Proof.
  induction l as [|x l IH]; simpl; [done|].
  by rewrite insert_sorted_Permutation, IH.
Qed.

Lemma insert_sorted_StronglySorted x l :
  StronglySorted (fun a b => le a b = true) l ->
  StronglySorted (fun a b => le a b = true) (Py.insert_sorted le x l).
Proof.
  induction 1 as [|y l Hsorted IH Hall]; simpl.
  - repeat constructor.
  - destruct (le x y) eqn:Hxy.
    + constructor; [by constructor|]. constructor; [done|].
      eapply Forall_impl; [exact Hall|]. intros z Hz. by eapply le_trans.
    + constructor; [done|].
      rewrite insert_sorted_Permutation. constructor; [|done].
      by destruct (le_total x y); [congruence|].
Qed.

Lemma sort_StronglySorted l :
  StronglySorted (fun a b => le a b = true) (Py.sort le l).
Proof.
  induction l as [|x l IH]; simpl; [constructor|].
  by apply insert_sorted_StronglySorted.
Qed.

(** In a sorted list the elements before a cut are below those after
    it. *)
Lemma StronglySorted_take_drop (R : A -> A -> Prop) n l x y :
  StronglySorted R l -> x ∈ take n l -> y ∈ drop n l -> R x y.
Proof.
  intros Hsorted. revert n. induction Hsorted as [|z l Hs IH Hall]; intros n.
  - rewrite take_nil. intros Hx. by apply elem_of_nil in Hx.
  - destruct n as [|n]; simpl.
    + intros Hx. by apply elem_of_nil in Hx.
    + intros Hx Hy. apply elem_of_cons in Hx as [->|Hx]; [|by eapply IH].
      rewrite Forall_forall in Hall. apply Hall.
      by apply (subseteq_drop n l).
Qed.

End SortedFacts.

Lemma Qle_bool_total x y : Qle_bool x y = true \/ Qle_bool y x = true.
Proof.
  rewrite !Qle_bool_iff. destruct (Qlt_le_dec x y) as [Hlt|Hle]; [left|by right].
  by apply Qlt_le_weak.
Qed.

Lemma Qle_bool_trans x y z :
  Qle_bool x y = true -> Qle_bool y z = true -> Qle_bool x z = true.
Proof. rewrite !Qle_bool_iff. apply Qle_trans. Qed.

(** ** Sample store: the queries *)

Section QueryFacts.
Import DataCollector Queries.

Lemma rows_Permutation (tbl : gmap Z sample_row) : rows tbl ≡ₚ map_to_list tbl.
Proof. apply sort_Permutation. Qed.

Lemma elem_of_rows (tbl : gmap Z sample_row) kv :
  kv ∈ rows tbl <-> tbl !! kv.1 = Some kv.2.
Proof. rewrite rows_Permutation. destruct kv. apply elem_of_map_to_list. Qed.

Lemma NoDup_rows_ids (tbl : gmap Z sample_row) : NoDup (rows tbl).*1.
Proof. rewrite rows_Permutation. apply NoDup_fst_map_to_list. Qed.

Lemma sql_limit_sublist {A} limit (l : list A) : Py.sql_limit limit l `sublist_of` l.
Proof. unfold Py.sql_limit. destruct (limit <? 0); [done | apply sublist_take]. Qed.

(** The rows a query keeps, [LIMIT] applied, carry distinct ids. *)
Lemma NoDup_selected_ids (P : Z * sample_row -> Prop) `{forall kv, Decision (P kv)}
    (le : Z * sample_row -> Z * sample_row -> bool) limit (tbl : gmap Z sample_row) :
  NoDup (Py.sql_limit limit (Py.sort le (filter P (rows tbl)))).*1.
Proof.
  apply (sublist_NoDup _ (Py.sort le (filter P (rows tbl))).*1);
    [|apply fmap_sublist, sql_limit_sublist].
  rewrite sort_Permutation.
  apply (sublist_NoDup _ (rows tbl).*1); [apply NoDup_rows_ids|].
  apply fmap_sublist, sublist_filter.
Qed.

Definition by_confidence (a b : Z * sample_row) : bool :=
  Qle_bool (s_confidence a.2) (s_confidence b.2).

Lemma by_confidence_total a b : by_confidence a b = true \/ by_confidence b a = true.
Proof. apply Qle_bool_total. Qed.

Lemma by_confidence_trans a b c :
  by_confidence a b = true -> by_confidence b c = true -> by_confidence a c = true.
Proof. apply Qle_bool_trans. Qed.

(** Every element of the answer is an unlabeled row of the store. *)
Lemma unlabeled_answer_sound dc limit device u :
  u ∈ get_unlabeled_samples dc limit device ->
  exists r, samples dc !! u_sample_id u = Some r
            /\ u = unlabeled_of (u_sample_id u, r)
            /\ s_true_label r = None
            /\ (Py.truthy device = true -> device = Some (s_device_id r)).
Proof.
  unfold get_unlabeled_samples. intros Hu.
  apply list_elem_of_fmap in Hu as ([i r] & -> & Hkv).
  apply (sublist_subseteq _ _ (sql_limit_sublist _ _)) in Hkv.
  rewrite sort_Permutation, list_elem_of_filter, elem_of_rows in Hkv.
  destruct Hkv as [Hwhere Hrow].
  exists r. simpl in *. split; [done|]. split; [done|].
  unfold unlabeled_where in Hwhere. apply andb_true_iff in Hwhere as [Hnull Hdev].
  apply bool_decide_eq_true in Hnull. split; [done|].
  intros Htruthy. rewrite Htruthy in Hdev. by apply bool_decide_eq_true in Hdev.
Qed.

(** X7. The answer of [get_unlabeled_samples]: each element is an unlabeled
    row of the store (of the device asked for, if one is), no row comes
    twice, the elements come in ascending confidence and are at most
    [limit] when [limit] is not negative; and a matching row that is left
    out is left out because the answer is full, with elements no more
    confident than that row. *)
Theorem get_unlabeled_samples_least_confident_first dc limit device :
  let answer := get_unlabeled_samples dc limit device in
  (forall u, u ∈ answer ->
     exists r, samples dc !! u_sample_id u = Some r
               /\ u = unlabeled_of (u_sample_id u, r)
               /\ s_true_label r = None
               /\ (Py.truthy device = true -> device = Some (s_device_id r)))
  /\ StronglySorted (fun a b => (u_confidence a <= u_confidence b)%Q) answer
  /\ NoDup (map u_sample_id answer)
  /\ (0 <= limit -> Z.of_nat (length answer) <= limit)
  /\ (forall i r,
        samples dc !! i = Some r -> unlabeled_where device r = true ->
        i ∈ map u_sample_id answer
        \/ (0 <= limit /\ length answer = Z.to_nat limit
            /\ forall u, u ∈ answer -> (u_confidence u <= s_confidence r)%Q)).
Proof.
  cbv zeta. unfold get_unlabeled_samples.
  fold by_confidence.
  set (matching := filter (fun kv : Z * sample_row => unlabeled_where device kv.2 = true)
                     (rows (samples dc))).
  set (ordered := Py.sort by_confidence matching).
  assert (Hordered : forall kv, kv ∈ ordered <->
                       unlabeled_where device kv.2 = true /\ samples dc !! kv.1 = Some kv.2).
  { intros kv. unfold ordered. rewrite sort_Permutation. unfold matching.
    by rewrite list_elem_of_filter, elem_of_rows. }
  assert (Hsorted : StronglySorted (fun a b => by_confidence a b = true) ordered).
  { apply sort_StronglySorted; [apply by_confidence_total | apply by_confidence_trans]. }
  assert (Hsub : Py.sql_limit limit ordered `sublist_of` ordered)
    by apply sql_limit_sublist.
  split; [|split; [|split; [|split]]].
  - intros u Hu. by apply (unlabeled_answer_sound dc limit device).
  - apply (StronglySorted_fmap _ (fun a b => by_confidence a b = true)).
    + intros a b Hab. by apply Qle_bool_iff.
    + unfold Py.sql_limit. destruct (limit <? 0); [done|].
      rewrite <- (take_drop (Z.to_nat limit) ordered) in Hsorted.
      by apply StronglySorted_app_1_l in Hsorted.
  - rewrite map_map. apply (NoDup_selected_ids _ by_confidence limit (samples dc)).
  - intros Hlimit. rewrite length_map.
    unfold Py.sql_limit. rewrite (proj2 (Z.ltb_ge limit 0)) by done.
    rewrite length_take. lia.
  - intros i r Hrow Hwhere.
    assert (Hin : (i, r) ∈ ordered) by (by apply Hordered).
    rewrite map_map. unfold Py.sql_limit.
    destruct (Z.ltb_spec limit 0) as [Hneg|Hpos].
    { left. apply (list_elem_of_fmap_2 fst ordered (i, r) Hin). }
    rewrite <- (take_drop (Z.to_nat limit) ordered) in Hin.
    apply elem_of_app in Hin as [Hin|Hin].
    { left. apply (list_elem_of_fmap_2 fst _ (i, r) Hin). }
    right. split; [done|]. split.
    + rewrite length_map, length_take.
      assert (Z.to_nat limit < length ordered)%nat; [|lia].
      destruct (decide (Z.to_nat limit < length ordered)%nat); [done|].
      rewrite drop_ge in Hin by lia. by apply elem_of_nil in Hin.
    + intros u Hu. apply list_elem_of_fmap in Hu as (kv & -> & Hkv).
      apply Qle_bool_iff.
      apply (StronglySorted_take_drop (fun a b => by_confidence a b = true)
               (Z.to_nat limit) ordered kv (i, r) Hsorted Hkv Hin).
Qed.


(** X8. The answer of [get_training_dataset]: each element is a row of the
    store with at least the confidence asked for, no row comes twice, and
    its [true_label] is the label of the row or, for a row without a
    label, its predicted label; with [labeled_only] such rows are not in
    the answer.  Without a limit ([None] or 0) every matching row is in
    the answer. *)
Theorem get_training_dataset_answer dc min_confidence labeled_only limit :
  let answer := get_training_dataset dc min_confidence labeled_only limit in
  (forall t, t ∈ answer ->
     exists r, samples dc !! t_sample_id t = Some r
               /\ t = training_of (t_sample_id t, r)
               /\ (min_confidence <= t_confidence t)%Q
               /\ t_true_label t = default (s_predicted_label r) (s_true_label r)
               /\ (labeled_only = true -> s_true_label r = Some (t_true_label t)))
  /\ NoDup (map t_sample_id answer)
  /\ (limit = None \/ limit = Some 0 ->
      forall i r, samples dc !! i = Some r ->
        training_where min_confidence labeled_only r = true ->
        training_of (i, r) ∈ answer).
Proof.
  cbv zeta. unfold get_training_dataset.
  set (matching := filter (fun kv : Z * sample_row =>
                             training_where min_confidence labeled_only kv.2 = true)
                     (rows (samples dc))).
  set (limited := match limit with
                  | Some n => if n =? 0 then matching else Py.sql_limit n matching
                  | None => matching
                  end).
  assert (Hsub : limited `sublist_of` matching).
  { unfold limited. destruct limit as [n|]; [|done].
    destruct (n =? 0); [done | apply sql_limit_sublist]. }
  assert (Hmatching : forall kv, kv ∈ matching <->
            training_where min_confidence labeled_only kv.2 = true
            /\ samples dc !! kv.1 = Some kv.2).
  { intros kv. unfold matching. by rewrite list_elem_of_filter, elem_of_rows. }
  split; [|split].
  - intros t Ht. apply list_elem_of_fmap in Ht as ([i r] & -> & Hkv).
    apply (sublist_subseteq _ _ Hsub), Hmatching in Hkv as [Hwhere Hrow].
    simpl in *. exists r. do 2 (split; [done|]).
    unfold training_where in Hwhere. apply andb_true_iff in Hwhere as [Hconf Hlab].
    apply Qle_bool_iff in Hconf. do 2 (split; [done|]).
    intros ->. apply bool_decide_eq_true in Hlab as [label Hlabel].
    by rewrite Hlabel.
  - rewrite map_map.
    apply (sublist_NoDup _ (rows (samples dc)).*1); [apply NoDup_rows_ids|].
    apply fmap_sublist. etrans; [exact Hsub | apply sublist_filter].
  - intros Hlimit i r Hrow Hwhere.
    assert (limited = matching) as ->.
    { unfold limited. by destruct Hlimit as [->| ->]. }
    apply (list_elem_of_fmap_2 training_of matching (i, r)). by apply Hmatching.
Qed.

End QueryFacts.

(** ** Sample store: buffer and flush *)

Section IngestionFacts.
Import DataCollector Ingestion.






Lemma bind_all_error (batch : list TrainingSample) :
  Exists (fun sample => to_row sample = Err) batch ->
  foldr (fun sample acc => ap (ap (Val cons) (to_row sample)) acc) (Val []) batch
  = Err.
Proof.
  induction 1 as [sample batch Herr|sample batch _ IH]; cbn [foldr].
  - by rewrite Herr.
  - rewrite IH. by destruct (to_row sample).
Qed.



(** X10. When binding one buffered sample raises (a sample without device
    id, say), [_flush_buffer] stores nothing of the batch and the buffer
    is empty all the same: the batch is neither in the tables nor in
    memory any more. *)
Theorem flush_buffer_loses_batch_on_error dc now :
  Exists (fun sample => to_row sample = Err) (buffer dc) ->
  exists dc',
    _flush_buffer dc now = Some dc'
    /\ buffer dc' = []
    /\ samples dc' = samples dc /\ devices dc' = devices dc
    /\ sample_queue dc' = sample_queue dc.
Proof.
  intros Herr. unfold _flush_buffer.
  destruct (buffer dc) as [|sample batch] eqn:Hbuf.
  { by apply Exists_nil in Herr. }
  rewrite (bind_all_error _ Herr). by eexists.
Qed.

Lemma flush_buffer_loses_batch_on_error_example :
  exists dc',
    _flush_buffer Scenario.poisoned_buffer 200 = Some dc'
    /\ buffer dc' = []
    /\ samples dc' = samples Scenario.poisoned_buffer
    /\ devices dc' = devices Scenario.poisoned_buffer
    /\ sample_queue dc' = sample_queue Scenario.poisoned_buffer.
Proof.
  apply flush_buffer_loses_batch_on_error.
  apply Exists_cons_tl, Exists_cons_hd. vm_compute. reflexivity.
Defined.





End IngestionFacts.

(** ** Labeling queue: statistics and batches of tasks *)

Section LabelingReads.
Import LabelingService LabelingBatch.

Lemma count_by_status (l : list LabelingTask) :
  length l
  = (length (filter (fun task => status task = LabelingStatus.PENDING) l)
     + length (filter (fun task => status task = LabelingStatus.IN_PROGRESS) l)
     + length (filter (fun task => status task = LabelingStatus.LABELED) l)
     + length (filter (fun task => status task = LabelingStatus.SKIPPED) l)
     + length (filter (fun task => status task = LabelingStatus.DISPUTED) l))%nat.
Proof.
  induction l as [|task l IH]; [done|].
  rewrite !filter_cons. cbn [length]. rewrite IH.
  destruct (status task); repeat case_decide; try done; cbn [length]; lia.
Qed.

(** X16. The counts of [get_stats] add up: every task is counted under
    exactly one of pending, in progress, completed, skipped and disputed;
    and the agreement with the model lies between 0 and 1. *)
Theorem get_stats_counts_every_task s :
  let st := get_stats s in
  total_tasks st = pending st + in_progress st + completed st + skipped st + disputed st
  /\ 0 <= pending st /\ 0 <= in_progress st /\ 0 <= completed st
  /\ 0 <= skipped st /\ 0 <= disputed st
  /\ (0 <= agreement_with_model st)%Q /\ (agreement_with_model st <= 1)%Q.
Proof.
  cbv zeta. unfold get_stats, count_status. simpl.
  split.
  { rewrite <- (length_map snd (tasks s)). fold (Py.values (tasks s)).
    rewrite (count_by_status (Py.values (tasks s))). lia. }
  do 5 (split; [lia|]).
  pose proof (length_filter (fun task => agrees task = true) (labeled_tasks s)) as Hle.
  destruct (Z.gtb_spec (Z.of_nat (length (labeled_tasks s))) 0) as [Hpos|Hz].
  - unfold Qle. simpl. rewrite Z2Pos.id by lia. lia.
  - split; apply Qle_refl || (unfold Qle; simpl; lia).
Qed.

(** X17. Without a labeler id [get_tasks_batch] claims nothing, so every
    turn of its loop selects the same task: the answer is that one task
    [batch_size] times (or empty when nothing is pending), and the
    service is unchanged. *)
Theorem get_tasks_batch_without_labeler_repeats s batch_size now :
  get_tasks_batch s None batch_size now
  = (match (get_next_task s None now).1 with
     | Some task => replicate batch_size task
     | None => []
     end, s).
Proof.
  induction batch_size as [|n IH]; simpl.
  { by destruct (get_next_task s None now).1. }
  unfold get_next_task in *. simpl in *.
  destruct (sorted_pending s) as [|[slot task] rest]; [done|].
  simpl in *. by rewrite IH.
Qed.

(** *** One live task per sample *)

Lemma set_present {V} (d : Py.dict Z V) id v :
  Py.get id d = Some v ->
  exists l1 l2, d = l1 ++ (id, v) :: l2
                /\ forall v', Py.set id v' d = l1 ++ (id, v') :: l2.
Proof.
  induction d as [|[k w] d IH]; simpl; [done|].
  destruct (decide (id = k)) as [->|Hne].
  - intros [= ->]. exists [], d. split; [done|]. intros v'. simpl. done.
  - intros Hget. destruct (IH Hget) as (l1 & l2 & -> & Hset).
    exists ((k, w) :: l1), l2. split; [done|]. intros v'. simpl. by rewrite Hset.
Qed.

Lemma set_absent {V} (d : Py.dict Z V) id v' :
  Py.get id d = None -> Py.set id v' d = d ++ [(id, v')].
Proof.
  induction d as [|[k w] d IH]; simpl; [done|].
  destruct (decide (id = k)); [done|]. intros Hget. by rewrite IH.
Qed.

(** Assigning to a key moves the number of entries with a property by
    what the old and the new entry contribute. *)
Lemma length_filter_set {V} (P : Z * V -> Prop) `{forall kv, Decision (P kv)}
    (d : list (Z * V)) id v' :
  (length (filter P (Py.set id v' d))
   + match Py.get id d with
     | Some v => if decide (P (id, v)) then 1 else 0
     | None => 0
     end
   = length (filter P d) + (if decide (P (id, v')) then 1 else 0))%nat.
Proof.
  unfold Py.dict. destruct (Py.get id d) as [v|] eqn:Hget.
  - destruct (set_present d id v Hget) as (l1 & l2 & -> & Hset).
    rewrite Hset. repeat rewrite filter_app. repeat rewrite filter_cons.
    repeat rewrite length_app.
    destruct (decide (P (id, v))), (decide (P (id, v'))); cbn [length].
    all: lia.
  - rewrite (set_absent d id v' Hget), filter_app, length_app.
    rewrite filter_cons, filter_nil.
    destruct (decide (P (id, v'))); cbn [length]; lia.
Qed.

Lemma length_filter_set_le {V} (P : Z * V -> Prop) `{forall kv, Decision (P kv)}
    (d : list (Z * V)) id v' :
  (length (filter P (Py.set id v' d)) <= length (filter P d) + 1)%nat.
Proof.
  pose proof (length_filter_set P d id v') as Hlen.
  destruct (Py.get id d); repeat case_decide; lia.
Qed.

Lemma length_filter_set_drop {V} (P : Z * V -> Prop) `{forall kv, Decision (P kv)}
    (d : list (Z * V)) id v' :
  ~ P (id, v') -> (length (filter P (Py.set id v' d)) <= length (filter P d))%nat.
Proof.
  intros Hnot. pose proof (length_filter_set P d id v') as Hlen.
  rewrite (decide_False (P := P (id, v'))) in Hlen by done.
  destruct (Py.get id d); repeat case_decide; lia.
Qed.

Lemma length_filter_set_same {V} (P : Z * V -> Prop) `{forall kv, Decision (P kv)}
    (d : list (Z * V)) id v v' :
  Py.get id d = Some v -> (P (id, v) <-> P (id, v')) ->
  length (filter P (Py.set id v' d)) = length (filter P d).
Proof.
  intros Hget Hsame. pose proof (length_filter_set P d id v') as Hlen.
  rewrite Hget in Hlen.
  destruct (decide (P (id, v))), (decide (P (id, v'))); try tauto; lia.
Qed.

Lemma sample_has_task_iff s sample :
  _sample_has_task s sample = true <-> live_tasks_of sample s <> [].
Proof.
  unfold _sample_has_task, live_tasks_of, Py.values, Py.dict.
  induction (tasks s) as [|[k task] d IH]; simpl; [done|].
  rewrite orb_true_iff, IH, filter_cons. unfold live. simpl.
  rewrite andb_true_iff, Z.eqb_eq.
  case_decide as Hlive; simpl in Hlive; [split; [done | tauto]|].
  split; [intros [Hl|Hd]; [tauto | done] | by right].
Qed.

Lemma not_live_after status' task :
  status' <> LabelingStatus.PENDING -> status' <> LabelingStatus.IN_PROGRESS ->
  status task = status' -> live task = false.
Proof.
  intros H1 H2 <-. unfold live. by rewrite !bool_decide_eq_false_2.
Qed.

(** Replacing a task by one that is not live leaves no sample with more
    live tasks than before. *)
Lemma one_live_after_settling s s' id task' :
  one_live_task_per_sample s ->
  live task' = false ->
  tasks s' = Py.set id task' (tasks s) ->
  one_live_task_per_sample s'.
Proof.
  intros Hone Hdead Htasks sample. unfold live_tasks_of. rewrite Htasks.
  eapply Nat.le_trans; [|apply (Hone sample)].
  apply length_filter_set_drop. simpl. rewrite Hdead. by intros [_ ?].
Qed.

Lemma create_for_keeps_one_live now acc sample :
  one_live_task_per_sample acc.2 ->
  one_live_task_per_sample (create_for now acc sample).2.
Proof.
  intros Hone. unfold create_for.
  destruct (_sample_has_task acc.2 (Queries.u_sample_id sample)) eqn:Hhas; [done|].
  intros x. unfold live_tasks_of. simpl.
  destruct (decide (x = Queries.u_sample_id sample)) as [->|Hne].
  - assert (live_tasks_of (Queries.u_sample_id sample) acc.2 = []) as Hnone.
    { destruct (live_tasks_of (Queries.u_sample_id sample) acc.2) eqn:Hl; [done|].
      assert (_sample_has_task acc.2 (Queries.u_sample_id sample) = true).
      { apply sample_has_task_iff. by rewrite Hl. }
      congruence. }
    eapply Nat.le_trans; [apply length_filter_set_le|].
    change (length (live_tasks_of (Queries.u_sample_id sample) acc.2) + 1 <= 1)%nat.
    by rewrite Hnone.
  - eapply Nat.le_trans; [|apply (Hone x)].
    apply length_filter_set_drop. simpl. by intros [? _].
Qed.

Lemma create_for_keys_distinct now acc sample :
  NoDup (Py.keys (tasks acc.2)) -> NoDup (Py.keys (tasks (create_for now acc sample).2)).
Proof.
  intros Hnd. unfold create_for.
  destruct (_sample_has_task acc.2 (Queries.u_sample_id sample)); [done|].
  simpl. by apply NoDup_keys_set.
Qed.

(** X13. At most one live task per sample.  In a service whose task
    dictionary has a sample with at most one PENDING or IN_PROGRESS task,
    every operation leaves it so: [create_labeling_batch] (whatever the
    strategy selects), [get_next_task], [submit_label], [skip_task] and
    [dispute_label]. *)
Theorem one_live_task_per_sample_is_kept s :
  NoDup (Py.keys (tasks s)) ->
  one_live_task_per_sample s ->
  (forall select_diverse batch_size selection_strategy num_samples strategy device now,
     let s' := (create_labeling_batch select_diverse s batch_size selection_strategy
                  num_samples strategy device now).2 in
     NoDup (Py.keys (tasks s')) /\ one_live_task_per_sample s')
  /\ (forall labeler now, one_live_task_per_sample (get_next_task s labeler now).2)
  /\ (forall id label labeler conf text now,
        one_live_task_per_sample (submit_label s id label labeler conf text now).2)
  /\ (forall id reason now, one_live_task_per_sample (skip_task s id reason now).2)
  /\ (forall id reason, one_live_task_per_sample (dispute_label s id reason).2).
Proof.
  intros Hnd Hone. split; [|split; [|split; [|split]]].
  - intros. unfold s', create_labeling_batch.
    match goal with |- context [foldl (create_for now) ([], s) ?l] =>
      generalize l end.
    intros l. change s with (([] : list Z, s).2) in Hnd, Hone.
    revert Hnd Hone. generalize ([] : list Z, s).
    induction l as [|sample l IH]; intros acc Hnd Hone; [done|].
    cbn [foldl]. apply IH; [by apply create_for_keys_distinct|].
    by apply create_for_keeps_one_live.
  - intros labeler now. unfold get_next_task.
    destruct (sorted_pending s) as [|[slot task] rest] eqn:Hs; [done|].
    destruct (Py.truthy labeler); [|done]. simpl.
    destruct (sorted_pending_head s slot task rest Hs) as (Hin & Hst & _).
    apply (elem_of_get _ _ _ Hnd) in Hin.
    intros sample. unfold live_tasks_of. simpl.
    erewrite length_filter_set_same; [apply (Hone sample) | exact Hin |].
    unfold live. simpl. by rewrite Hst.
  - intros id label labeler conf text now.
    destruct (Py.get id (tasks s)) as [task|] eqn:Hget.
    + apply (one_live_after_settling s _ id
               (label_task label labeler conf text now task));
        [done | by apply (not_live_after LabelingStatus.LABELED) |].
      by apply submit_label_tasks.
    + unfold submit_label. by rewrite Hget.
  - intros id reason now. unfold skip_task.
    destruct (Py.get id (tasks s)) as [task|] eqn:Hget; [|done].
    by apply (one_live_after_settling s _ id (LabelingService.skipped reason now task));
      [| apply (not_live_after LabelingStatus.SKIPPED) |].
  - intros id reason. unfold dispute_label.
    destruct (Py.get id (tasks s)) as [task|] eqn:Hget; [|done].
    by apply (one_live_after_settling s _ id (LabelingService.disputed reason task));
      [| apply (not_live_after LabelingStatus.DISPUTED) |].
Qed.

Lemma one_live_task_per_sample_is_kept_example :
  (length (live_tasks_of 2%Z (get_next_task Spec.review_queue (Some "ann") 5%Z).2)
   <= 1)%nat.
Proof.
  refine (proj1 (proj2 (one_live_task_per_sample_is_kept Spec.review_queue _ _))
            (Some "ann") 5 2).
  - apply (bool_decide_unpack _); vm_compute; exact I.
  - intros sample. unfold live_tasks_of, Spec.review_queue, Spec.service_of.
    cbn [tasks]. unfold Py.dict. rewrite !filter_cons, filter_nil.
    repeat case_decide; simpl in *; try lia; exfalso; lia.
Defined.

(** *** Batches of tasks *)

Lemma has_task_after_create s sample device feats predicted conf now x :
  ids_below_counter s ->
  let s' := (_create_task s sample device feats predicted conf now).2 in
  _sample_has_task s' x
  = _sample_has_task s x || (sample =? x).
Proof.
  intros Hb s'. unfold s', _create_task, _sample_has_task. cbn [snd tasks].
  rewrite set_absent.
  - unfold Py.values. rewrite map_app, existsb_app. simpl.
    by rewrite orb_false_r, andb_true_r.
  - destruct (Py.get (task_counter s + 1) (tasks s)) as [task|] eqn:Hget; [|done].
    apply Hb in Hget. lia.
Qed.

(** What one turn of the loop of [create_labeling_batch] does. *)
Lemma create_for_step now acc sample :
  ids_below_counter acc.2 ->
  let r := create_for now acc sample in
  ids_below_counter r.2
  /\ data_collector r.2 = data_collector acc.2
  /\ (forall id task, Py.get id (tasks acc.2) = Some task ->
        Py.get id (tasks r.2) = Some task)
  /\ (forall x, _sample_has_task acc.2 x = true -> _sample_has_task r.2 x = true)
  /\ _sample_has_task r.2 (Queries.u_sample_id sample) = true
  /\ (r = acc
      \/ r.1 = acc.1 ++ [task_counter acc.2 + 1]
         /\ task_counter r.2 = task_counter acc.2 + 1
         /\ exists task,
              Py.get (task_counter acc.2 + 1) (tasks r.2) = Some task
              /\ task_id task = task_counter acc.2 + 1
              /\ status task = LabelingStatus.PENDING
              /\ priority task <> LabelingPriority.URGENT
              /\ created_at task = now).
Proof.
  intros Hb r. unfold r, create_for.
  destruct (_sample_has_task acc.2 (Queries.u_sample_id sample)) eqn:Hhas.
  { repeat split; try done. by left. }
  pose proof (has_task_after_create acc.2 (Queries.u_sample_id sample)
                (Queries.u_device_id sample) (Queries.u_features sample)
                (Queries.u_predicted_label sample) (Queries.u_confidence sample)
                now) as Hafter.
  specialize (fun x => Hafter x Hb). cbv zeta in Hafter.
  destruct (_create_task acc.2 _ _ _ _ _ now) as [task s'] eqn:Hcreate.
  cbn [snd] in Hafter. unfold _create_task in Hcreate.
  injection Hcreate as <- <-. cbn [fst snd tasks task_counter data_collector].
  split; [|split; [done|split; [|split; [|split]]]].
  - intros id task. cbn [tasks task_counter]. rewrite get_set.
    case_decide as Hid; [lia|]. intros Hget. apply Hb in Hget. lia.
  - intros id task Hget. cbn [tasks]. rewrite get_set_ne; [done|].
    apply Hb in Hget. lia.
  - intros x Hx. by rewrite Hafter, Hx.
  - by rewrite Hafter, Z.eqb_refl, orb_true_r.
  - right. split; [done|]. split; [done|].
    eexists. split; [cbn [tasks]; apply get_set_eq|]. simpl. repeat split; try done.
    by repeat case_match.
Qed.

Lemma create_fold now samples :
  forall acc,
  ids_below_counter acc.2 ->
  let r := foldl (create_for now) acc samples in
  ids_below_counter r.2
  /\ data_collector r.2 = data_collector acc.2
  /\ (forall id task, Py.get id (tasks acc.2) = Some task ->
        Py.get id (tasks r.2) = Some task)
  /\ (forall x, _sample_has_task acc.2 x = true -> _sample_has_task r.2 x = true)
  /\ (forall sample, sample ∈ samples ->
        _sample_has_task r.2 (Queries.u_sample_id sample) = true)
  /\ exists new,
       r.1 = acc.1 ++ new
       /\ new = seqZ (task_counter acc.2 + 1) (Z.of_nat (length new))
       /\ task_counter r.2 = task_counter acc.2 + Z.of_nat (length new)
       /\ (length new <= length samples)%nat
       /\ forall id, id ∈ new ->
            exists task,
              Py.get id (tasks r.2) = Some task
              /\ task_id task = id
              /\ status task = LabelingStatus.PENDING
              /\ priority task <> LabelingPriority.URGENT
              /\ created_at task = now.
Proof.
  induction samples as [|sample samples IH]; intros acc Hb r.
  { unfold r. cbn [foldl]. do 4 (split; [done|]). split.
    - intros sample Hin. by apply elem_of_nil in Hin.
    - exists []. rewrite app_nil_r. cbn [length]. do 2 (split; [done|]).
      split; [lia|]. split; [done|].
      intros id Hin. by apply elem_of_nil in Hin. }
  unfold r. cbn [foldl].
  destruct (create_for_step now acc sample Hb)
    as (Hb1 & Hdc1 & Hframe1 & Hmono1 & Hhas1 & Hcase).
  destruct (IH (create_for now acc sample) Hb1)
    as (Hb2 & Hdc2 & Hframe2 & Hmono2 & Hhas2 & new & Hids & Hseq & Hcount & Hlen & Hnew).
  split; [done|]. split; [congruence|]. split; [by auto|]. split; [by auto|].
  split.
  { intros x Hin. apply elem_of_cons in Hin as [->|Hin]; [by apply Hmono2 | by apply Hhas2]. }
  destruct Hcase as [Hsame|(Hids1 & Hcount1 & task & Hget & Hid & Hst & Hprio & Hnow)].
  - rewrite Hsame in *. exists new. repeat split; try done. cbn [length]. lia.
  - exists ((task_counter acc.2 + 1) :: new).
    rewrite Hids, Hids1, <- app_assoc. split; [done|].
    split.
    { cbn [length]. rewrite seqZ_cons by lia. f_equal.
      rewrite Hseq at 1. rewrite Hcount1. f_equal; lia. }
    split; [cbn [length]; lia|]. split; [cbn [length]; lia|].
    intros id Hin. apply elem_of_cons in Hin as [->|Hin]; [|by apply Hnew].
    exists task. by split; [apply Hframe2|].
Qed.

Lemma create_fold_nothing_to_do now samples acc :
  (forall sample, sample ∈ samples ->
     _sample_has_task acc.2 (Queries.u_sample_id sample) = true) ->
  foldl (create_for now) acc samples = acc.
Proof.
  induction samples as [|sample samples IH]; intros Hall; [done|].
  cbn [foldl]. unfold create_for at 2. rewrite Hall by left.
  apply IH. intros x Hin. apply Hall. by right.
Qed.

(** X14. A batch creates fresh pending tasks.  In a service no task of
    which has an id above the counter, [create_labeling_batch] returns
    the ids [task_counter + 1], [task_counter + 2], ... in this order and
    advances the counter by their number; none of these ids was in use,
    each now holds a PENDING task of that id, created at the instant of
    the call, whose priority is never URGENT; the tasks that existed are
    untouched; and a non-negative [num_samples] bounds the number of tasks
    created. *)
Theorem create_labeling_batch_creates_fresh_pending_tasks
    select_diverse s batch_size selection_strategy num_samples strategy device now :
  ids_below_counter s ->
  let r := create_labeling_batch select_diverse s batch_size selection_strategy
             num_samples strategy device now in
  r.1 = seqZ (task_counter s + 1) (Z.of_nat (length r.1))
  /\ task_counter r.2 = task_counter s + Z.of_nat (length r.1)
  /\ ids_below_counter r.2
  /\ (forall id task, Py.get id (tasks s) = Some task ->
        Py.get id (tasks r.2) = Some task)
  /\ (forall id, id ∈ r.1 ->
        Py.get id (tasks s) = None
        /\ exists task,
             Py.get id (tasks r.2) = Some task
             /\ task_id task = id
             /\ status task = LabelingStatus.PENDING
             /\ priority task <> LabelingPriority.URGENT
             /\ created_at task = now)
  /\ (0 <= default batch_size num_samples ->
      Z.of_nat (length r.1) <= default batch_size num_samples).
Proof.
  intros Hb r. unfold r, create_labeling_batch. cbv zeta.
  match goal with |- context [foldl (create_for now) ([], s) ?l] =>
    set (samples := l) end.
  destruct (create_fold now samples ([], s) Hb)
    as (Hb2 & _ & Hframe & _ & _ & new & Hids & Hseq & Hcount & Hlen & Hnew).
  cbn [fst snd app] in *. rewrite Hids.
  split; [done|]. split; [done|]. split; [done|]. split; [done|]. split.
  - intros id Hin. split; [|by apply Hnew].
    rewrite Hseq in Hin. apply elem_of_seqZ in Hin.
    destruct (Py.get id (tasks s)) as [task|] eqn:Hget; [|done].
    apply Hb in Hget. lia.
  - intros Hn. assert (length samples <= Z.to_nat (default batch_size num_samples))%nat.
    { unfold samples, Py.slice_to.
      destruct (default batch_size num_samples <? 0) eqn:Hneg; [lia|].
      rewrite length_take. lia. }
    lia.
Qed.

Lemma create_labeling_batch_creates_fresh_pending_tasks_example :
  (create_labeling_batch (fun samples _ => samples) Scenario.labeling_desk 50
     "uncertainty" None None None 7).1 = [1].
Proof.
  pose proof (create_labeling_batch_creates_fresh_pending_tasks
                (fun samples _ => samples) Scenario.labeling_desk 50
                "uncertainty" None None None 7) as Hcreated.
  cbv zeta in Hcreated. destruct Hcreated as (Hids & _).
  - intros id task Hget. discriminate Hget.
  - rewrite Hids. reflexivity.
Defined.

(** X15. Asking twice creates once.  In a service no task of which has an
    id above the counter, a second [create_labeling_batch] with the
    arguments of the first, at any later instant and with the store
    unchanged in between, returns no id and leaves the service as the
    first call left it: every selected sample already has a live task. *)
Theorem create_labeling_batch_again_creates_nothing
    select_diverse s batch_size selection_strategy num_samples strategy device
    now later :
  ids_below_counter s ->
  let first := create_labeling_batch select_diverse s batch_size selection_strategy
                 num_samples strategy device now in
  create_labeling_batch select_diverse first.2 batch_size selection_strategy
    num_samples strategy device later
  = ([], first.2).
Proof.
  intros Hb first. unfold first, create_labeling_batch. cbv zeta.
  match goal with |- context [foldl (create_for now) ([], s) ?l] =>
    set (samples := l) end.
  destruct (create_fold now samples ([], s) Hb)
    as (_ & Hdc & _ & _ & Hhas & _).
  cbn [snd] in Hdc. rewrite Hdc. fold samples.
  by apply create_fold_nothing_to_do.
Qed.

Lemma create_labeling_batch_again_creates_nothing_example :
  (create_labeling_batch (fun samples _ => samples) Scenario.labeling_desk 50
     "uncertainty" None None None 7).1 = [1]
  /\ (create_labeling_batch (fun samples _ => samples)
        (create_labeling_batch (fun samples _ => samples) Scenario.labeling_desk 50
           "uncertainty" None None None 7).2
        50 "uncertainty" None None None 9).1 = [].
Proof.
  split; [reflexivity|].
  rewrite (create_labeling_batch_again_creates_nothing
             (fun samples _ => samples) Scenario.labeling_desk 50
             "uncertainty" None None None 7 9); [done|].
  intros id task Hget. discriminate Hget.
Defined.

End LabelingReads.

(** ** The job runner *)

Section JobRuns.
Import RetrainingOrchestrator RetrainingJobs.

Lemma update_as_with_job o st : _update_job_status o st = with_job (set_status st) o.
Proof. unfold _update_job_status, with_job. by destruct (current_job o). Qed.

Lemma with_job_with_job f g o :
  with_job f (with_job g o) = with_job (fun job => f (g job)) o.
Proof.
  unfold with_job. destruct (current_job o) eqn:Hjob; simpl; [done|].
  by rewrite Hjob.
Qed.

Lemma with_job_Some f o job :
  current_job o = Some job ->
  current_job (with_job f o) = Some (f job)
  /\ config (with_job f o) = config o
  /\ job_history (with_job f o) = job_history o
  /\ runner_threads (with_job f o) = runner_threads o
  /\ production_accuracy (with_job f o) = production_accuracy o.
Proof. intros Hjob. unfold with_job. by rewrite Hjob. Qed.

(** A [try] block left by an exception while the orchestrator is [o]
    with its job rewritten by [f]. *)
Lemma stopped_early w w' now f job :
  current_job (orchestrator w) = Some job ->
  orchestrator w' = with_job f (orchestrator w) ->
  collector w' = collector w ->
  (manager w' = manager w
   \/ exists m e m',
        manager w = Some m
        /\ DeploymentManager.deploy_model m (saved_version now) None now
           = (Py.Raise e, m')
        /\ manager w' = Some m') ->
  job_id (f job) = job_id job ->
  triggered_by (f job) = triggered_by job ->
  created_at (f job) = created_at job ->
  started_at (f job) = Some now ->
  forall message,
  kept now (orchestrator w) (orchestrator w') job (f job)
  /\ stopped_before_deployment w now (w', Some message).
Proof.
  intros Hjob Ho Hc Hm ? ? ? ? message.
  destruct (with_job_Some f _ _ Hjob) as (? & ? & ? & ? & ?).
  unfold kept, stopped_before_deployment. cbn [fst snd]. rewrite Ho.
  repeat split; done.
Qed.

(** A [try] block that got past [deploy_model]. *)
Lemma got_past env w w' now f job val_acc raised :
  current_job (orchestrator w) = Some job ->
  orchestrator w' = set_production_accuracy val_acc (with_job f (orchestrator w)) ->
  (production_accuracy (orchestrator w)
   + min_accuracy_improvement (config (orchestrator w)) <= val_acc)%Q ->
  (_prepare_data env (collector w)).1 <> [] ->
  collector w'
  = DataCollector.mark_used_for_training (collector w)
      (map Queries.t_sample_id
         ((_prepare_data env (collector w)).1 ++ (_prepare_data env (collector w)).2)) ->
  (manager w = None /\ manager w' = None
   \/ exists m id m',
        manager w = Some m
        /\ DeploymentManager.deploy_model m (saved_version now) None now
           = (Py.Ok id, m')
        /\ manager w' = Some m') ->
  job_id (f job) = job_id job ->
  triggered_by (f job) = triggered_by job ->
  created_at (f job) = created_at job ->
  started_at (f job) = Some now ->
  status (f job) = RetrainingStatus.COMPLETED ->
  completed_at (f job) = Some now ->
  error_message (f job) = error_message job ->
  model_version (f job) = saved_version now ->
  val_accuracy (f job) = val_acc ->
  num_samples (f job) = Z.of_nat (length (_prepare_data env (collector w)).1) ->
  kept now (orchestrator w) (orchestrator w') job (f job)
  /\ went_past_deployment env w now job (f job) (w', raised).
Proof.
  intros Hjob Ho Hgate Hdata Hc Hm ? ? ? ? ? ? ? ? Hval ?.
  destruct (with_job_Some f _ _ Hjob) as (? & ? & ? & ? & ?).
  unfold kept, went_past_deployment. cbn [fst snd]. rewrite Ho, Hval.
  unfold set_production_accuracy. cbn [current_job config job_history
    runner_threads production_accuracy].
  repeat split; done.
Qed.

Ltac stops_early now Hjob Ho Hc Hm :=
  let Hk := fresh "Hk" in
  let Hs := fresh "Hs" in
  eexists;
  match goal with |- _ /\ (stopped_before_deployment _ _ (_, Some ?message) \/ _) =>
    destruct (stopped_early _ _ now _ _ Hjob Ho Hc (or_introl Hm)
                eq_refl eq_refl eq_refl eq_refl message) as [Hk Hs]
  end;
  split; [exact Hk | left; exact Hs].

Ltac gets_past env now Hjob Ho Hgate Hsome Hmark Hnum Hm :=
  let Hk := fresh "Hk" in
  let Hp := fresh "Hp" in
  eexists;
  match goal with |- _ /\ (_ \/ went_past_deployment _ ?w _ ?job _ (?w', ?raised)) =>
    destruct (got_past env w w' now _ job _ raised Hjob Ho Hgate Hsome Hmark Hm
                eq_refl eq_refl eq_refl eq_refl eq_refl eq_refl eq_refl eq_refl
                eq_refl Hnum) as [Hk Hp]
  end;
  split; [exact Hk | right; exact Hp].

Lemma attempt_cases env w now job :
  current_job (orchestrator w) = Some job ->
  let r := attempt env w now in
  exists job',
    kept now (orchestrator w) (orchestrator r.1) job job'
    /\ (stopped_before_deployment w now r
        \/ went_past_deployment env w now job job' r).
Proof.
  intros Hjob r. subst r. unfold attempt.
  set (w1 := on_orchestrator _ w).
  assert (Ho1 : orchestrator w1
                = with_job (fun j => set_started now
                                       (set_status RetrainingStatus.PREPARING_DATA j))
                    (orchestrator w)).
  { subst w1. cbn [on_orchestrator orchestrator].
    by rewrite update_as_with_job, with_job_with_job. }
  assert (Hc1 : collector w1 = collector w) by done.
  assert (Hm1 : manager w1 = manager w) by done.
  clearbody w1.
  destruct (call (on_job_started env) (orchestrator w1)) as [?|message].
  2: { stops_early now Hjob Ho1 Hc1 Hm1. }
  rewrite Hc1.
  destruct (_prepare_data env (collector w)) as [train val] eqn:Hdata.
  destruct train as [|t0 train].
  { stops_early now Hjob Ho1 Hc1 Hm1. }
  set (w2 := on_orchestrator _ w1).
  assert (Ho2 : orchestrator w2
                = with_job
                    (fun j => set_status RetrainingStatus.TRAINING
                                (set_num_samples (Z.of_nat (length (t0 :: train)))
                                   (set_started now
                                      (set_status RetrainingStatus.PREPARING_DATA j))))
                    (orchestrator w)).
  { subst w2. cbn [on_orchestrator orchestrator].
    by rewrite Ho1, update_as_with_job, !with_job_with_job. }
  assert (Hc2 : collector w2 = collector w) by done.
  assert (Hm2 : manager w2 = manager w) by done.
  clearbody w2.
  destruct (_train_model env (t0 :: train) val) as [[train_acc val_acc]|message].
  2: { stops_early now Hjob Ho2 Hc2 Hm2. }
  set (w3 := on_orchestrator _ w2).
  assert (Ho3 : orchestrator w3
                = with_job
                    (fun j => set_status RetrainingStatus.VALIDATING
                                (set_accuracy train_acc val_acc
                                   (set_status RetrainingStatus.TRAINING
                                      (set_num_samples (Z.of_nat (length (t0 :: train)))
                                         (set_started now
                                            (set_status RetrainingStatus.PREPARING_DATA
                                               j))))))
                    (orchestrator w)).
  { subst w3. cbn [on_orchestrator orchestrator].
    by rewrite Ho2, update_as_with_job, !with_job_with_job. }
  assert (Hc3 : collector w3 = collector w) by done.
  assert (Hm3 : manager w3 = manager w) by done.
  clearbody w3.
  destruct (_validate_model (orchestrator w3) val_acc) eqn:Hvalid; cbn [negb].
  2: { stops_early now Hjob Ho3 Hc3 Hm3. }
  set (w4 := on_orchestrator _ w3).
  destruct (save env) as [?|message].
  2: { assert (Ho4 : orchestrator w4
                     = with_job
                         (fun j => set_status RetrainingStatus.DEPLOYING
                            (set_status RetrainingStatus.VALIDATING
                               (set_accuracy train_acc val_acc
                                  (set_status RetrainingStatus.TRAINING
                                     (set_num_samples (Z.of_nat (length (t0 :: train)))
                                        (set_started now
                                           (set_status RetrainingStatus.PREPARING_DATA
                                              j)))))))
                         (orchestrator w)).
       { subst w4. cbn [on_orchestrator orchestrator].
         by rewrite Ho3, update_as_with_job, !with_job_with_job. }
       assert (Hc4 : collector w4 = collector w) by done.
       assert (Hm4 : manager w4 = manager w) by done.
       clearbody w4. stops_early now Hjob Ho4 Hc4 Hm4. }
  fold (saved_version now).
  set (w5 := on_orchestrator _ w4).
  assert (Ho5 : orchestrator w5
                = with_job
                    (fun j => set_model_version (saved_version now)
                       (set_status RetrainingStatus.DEPLOYING
                          (set_status RetrainingStatus.VALIDATING
                             (set_accuracy train_acc val_acc
                                (set_status RetrainingStatus.TRAINING
                                   (set_num_samples (Z.of_nat (length (t0 :: train)))
                                      (set_started now
                                         (set_status RetrainingStatus.PREPARING_DATA
                                            j))))))))
                    (orchestrator w)).
  { subst w5 w4. cbn [on_orchestrator orchestrator].
    by rewrite Ho3, update_as_with_job, !with_job_with_job. }
  assert (Hc5 : collector w5 = collector w) by done.
  assert (Hm5 : manager w5 = manager w) by done.
  clearbody w5. clear w4.
  assert (Hgate : (production_accuracy (orchestrator w)
                   + min_accuracy_improvement (config (orchestrator w))
                   <= val_acc)%Q).
  { destruct (with_job_Some
                (fun j => set_status RetrainingStatus.VALIDATING
                   (set_accuracy train_acc val_acc
                      (set_status RetrainingStatus.TRAINING
                         (set_num_samples (Z.of_nat (length (t0 :: train)))
                            (set_started now
                               (set_status RetrainingStatus.PREPARING_DATA j))))))
                _ _ Hjob) as (_ & Hcfg & _ & _ & Hacc).
    unfold _validate_model in Hvalid. rewrite Ho3, Hcfg, Hacc in Hvalid.
    apply Qltb_false. by destruct (Py.Qltb _ _). }
  set (o6 := set_production_accuracy val_acc _).
  assert (Ho6 : o6
                = set_production_accuracy val_acc
                    (with_job
                       (fun j => set_completed now
                          (set_status RetrainingStatus.COMPLETED
                             (set_model_version (saved_version now)
                                (set_status RetrainingStatus.DEPLOYING
                                   (set_status RetrainingStatus.VALIDATING
                                      (set_accuracy train_acc val_acc
                                         (set_status RetrainingStatus.TRAINING
                                            (set_num_samples
                                               (Z.of_nat (length (t0 :: train)))
                                               (set_started now
                                                  (set_status
                                                     RetrainingStatus.PREPARING_DATA
                                                     j))))))))))
                       (orchestrator w))).
  { subst o6. by rewrite Ho5, update_as_with_job, !with_job_with_job. }
  clearbody o6. rewrite Hc5, Hm5.
  assert (Hsome : (_prepare_data env (collector w)).1 <> []) by by rewrite Hdata.
  assert (Hmark : DataCollector.mark_used_for_training (collector w)
                    (map Queries.t_sample_id ((t0 :: train) ++ val))
                  = DataCollector.mark_used_for_training (collector w)
                      (map Queries.t_sample_id
                         ((_prepare_data env (collector w)).1
                          ++ (_prepare_data env (collector w)).2)))
    by by rewrite Hdata.
  assert (Hnum : Z.of_nat (length (t0 :: train))
                 = Z.of_nat (length (_prepare_data env (collector w)).1))
    by by rewrite Hdata.
  destruct (manager w) as [m|] eqn:Hmgr.
  - destruct (DeploymentManager.deploy_model m (saved_version now) None now)
      as [[id|e] m'] eqn:Hdeploy.
    + assert (Hpast : manager w = None
                        /\ manager {| orchestrator := o6;
                                      collector :=
                                        DataCollector.mark_used_for_training
                                          (collector w)
                                          (map Queries.t_sample_id
                                             ((t0 :: train) ++ val));
                                      manager := Some m' |} = None
                      \/ exists m0 id0 m0',
                           manager w = Some m0
                           /\ DeploymentManager.deploy_model m0 (saved_version now)
                                None now = (Py.Ok id0, m0')
                           /\ manager {| orchestrator := o6;
                                         collector :=
                                           DataCollector.mark_used_for_training
                                             (collector w)
                                             (map Queries.t_sample_id
                                                ((t0 :: train) ++ val));
                                         manager := Some m' |} = Some m0').
      { right. exists m, id, m'. by rewrite Hmgr. }
      destruct (call (on_job_completed env) _);
        gets_past env now Hjob Ho6 Hgate Hsome Hmark Hnum Hpast.
    + assert (Hstop : manager {| orchestrator := orchestrator w5;
                                 collector := collector w;
                                 manager := Some m' |} = manager w
                      \/ exists m0 e0 m0',
                           manager w = Some m0
                           /\ DeploymentManager.deploy_model m0 (saved_version now)
                                None now = (Py.Raise e0, m0')
                           /\ manager {| orchestrator := orchestrator w5;
                                         collector := collector w;
                                         manager := Some m' |} = Some m0').
      { right. exists m, e, m'. by rewrite Hmgr. }
      destruct e; eexists;
        (match goal with
         |- _ /\ (stopped_before_deployment _ _ (?w', Some ?message) \/ _) =>
           destruct (stopped_early w w' now _ job Hjob Ho5 eq_refl Hstop
                       eq_refl eq_refl eq_refl eq_refl message) as [Hk Hs]
         end;
         split; [exact Hk | left; exact Hs]).
  - assert (Hpast : manager w = None
                      /\ manager {| orchestrator := o6;
                                    collector :=
                                      DataCollector.mark_used_for_training
                                        (collector w)
                                        (map Queries.t_sample_id
                                           ((t0 :: train) ++ val));
                                    manager := None |} = None
                    \/ exists m0 id0 m0',
                         manager w = Some m0
                         /\ DeploymentManager.deploy_model m0 (saved_version now)
                              None now = (Py.Ok id0, m0')
                         /\ manager {| orchestrator := o6;
                                       collector :=
                                         DataCollector.mark_used_for_training
                                           (collector w)
                                           (map Queries.t_sample_id
                                              ((t0 :: train) ++ val));
                                       manager := None |} = Some m0').
    { by left. }
    destruct (call (on_job_completed env) _);
      gets_past env now Hjob Ho6 Hgate Hsome Hmark Hnum Hpast.
Qed.
(** What [_run_retraining_job] makes of what the [try] block left. *)
Lemma run_cases env w now job :
  current_job (orchestrator w) = Some job ->
  let r := attempt env w now in
  let w' := _run_retraining_job env w now in
  exists job0 job',
    kept now (orchestrator w) (orchestrator r.1) job job0
    /\ (stopped_before_deployment w now r
        \/ went_past_deployment env w now job job0 r)
    /\ job' = match r.2 with
              | Some message =>
                  set_completed now
                    (set_status RetrainingStatus.FAILED (set_error message job0))
              | None => job0
              end
    /\ current_job (orchestrator w') = Some job'
    /\ job_history (orchestrator w') = job_history (orchestrator w) ++ [job']
    /\ config (orchestrator w') = config (orchestrator w)
    /\ runner_threads (orchestrator w') = runner_threads (orchestrator w)
    /\ production_accuracy (orchestrator w') = production_accuracy (orchestrator r.1)
    /\ collector w' = collector r.1
    /\ manager w' = manager r.1.
Proof.
  intros Hjob r w'. subst r w'. unfold _run_retraining_job. rewrite Hjob.
  destruct (attempt_cases env w now job Hjob) as (job0 & Hkept & Hcases).
  destruct (attempt env w now) as [w1 raised]. cbn [fst snd] in *.
  exists job0. pose proof Hkept as (Hcur & Hcfg & Hhist & Hthreads & _).
  destruct raised as [message|].
  - eexists. split; [done|]. split; [done|]. split; [reflexivity|].
    cbn [on_orchestrator orchestrator collector manager].
    rewrite update_as_with_job, !with_job_with_job.
    destruct (with_job_Some
                (fun j => set_completed now
                            (set_status RetrainingStatus.FAILED (set_error message j)))
                _ _ Hcur) as (Hcur' & Hcfg' & Hhist' & Hthreads' & Hacc').
    cbn [current_job job_history config runner_threads production_accuracy].
    rewrite Hcur', Hcfg', Hhist', Hthreads', Hacc', Hcfg, Hhist, Hthreads.
    by repeat split.
  - exists job0. split; [done|]. split; [done|]. split; [reflexivity|].
    cbn [on_orchestrator orchestrator collector manager
         current_job job_history config runner_threads production_accuracy].
    rewrite Hcur, Hcfg, Hhist, Hthreads. by repeat split.
Qed.

(** X18. A run settles its job.  Whatever the trainer, the callbacks and
    the deployment do, [_run_retraining_job] on an orchestrator with a
    current job leaves that job (same id, trigger and creation time)
    COMPLETED or FAILED, hence no longer in flight, with its start and its
    completion time set, appends it to the history as its last entry, and
    [get_job_status] finds it under its id. *)
Theorem run_settles_the_job env w now job :
  current_job (orchestrator w) = Some job ->
  let o' := orchestrator (_run_retraining_job env w now) in
  exists job',
    current_job o' = Some job'
    /\ job_history o' = job_history (orchestrator w) ++ [job']
    /\ (status job' = RetrainingStatus.COMPLETED
        \/ status job' = RetrainingStatus.FAILED)
    /\ in_flight job' = false
    /\ job_id job' = job_id job
    /\ triggered_by job' = triggered_by job
    /\ created_at job' = created_at job
    /\ started_at job' = Some now
    /\ completed_at job' = Some now
    /\ get_job_status o' (Some (job_id job)) = Some job'.
Proof.
  intros Hjob o'. subst o'.
  destruct (run_cases env w now job Hjob)
    as (job0 & job' & Hkept & Hcases & Hjob' & Hcur & Hhist & _).
  destruct Hkept as (_ & _ & _ & _ & Hid & Htrig & Hcreated & Hstarted).
  assert (Hfacts : (status job' = RetrainingStatus.COMPLETED
                    \/ status job' = RetrainingStatus.FAILED)
                   /\ job_id job' = job_id job
                   /\ triggered_by job' = triggered_by job
                   /\ created_at job' = created_at job
                   /\ started_at job' = Some now
                   /\ completed_at job' = Some now).
  { destruct ((attempt env w now).2) as [message|] eqn:Hraised; subst job'.
    - cbn. by repeat split; try right.
    - destruct Hcases as [(Hsome & _)|(Hst & Hdone & _)].
      + rewrite Hraised in Hsome. by destruct Hsome.
      + by repeat split; try left. }
  destruct Hfacts as (Hst & Hid' & Htrig' & Hcreated' & Hstarted' & Hdone').
  exists job'. split; [done|]. split; [done|]. split; [done|]. split.
  { unfold in_flight. by destruct Hst as [-> | ->]. }
  do 5 (split; [done|]).
  unfold get_job_status. rewrite Hcur.
  destruct (Py.truthy (Some (job_id job))); [|done].
  cbn [app]. rewrite filter_cons, decide_True by by rewrite Hid'. done.
Qed.

Lemma run_settles_the_job_example :
  exists job',
    current_job (orchestrator (_run_retraining_job Scenario.quiet_trainer
                                 (Scenario.scheduled_run None) 200)) = Some job'
    /\ in_flight job' = false.
Proof.
  destruct (run_settles_the_job Scenario.quiet_trainer (Scenario.scheduled_run None)
              200 _ eq_refl) as (job' & Hcur & _ & _ & Hflight & _).
  by exists job'.
Defined.

Lemma deploy_model_unknown_version m version targets now :
  Py.contains version (DeploymentManager.registry m) = false ->
  DeploymentManager.deploy_model m version targets now = (Py.Raise Py.ValueError, m).
Proof. intros Hc. unfold DeploymentManager.deploy_model. by rewrite Hc. Qed.

(** X19. The runner deploys a version nobody registered.  When a
    deployment manager is attached and its registry does not hold the
    version [_save_model] would give the new model (the runner itself
    never calls [register_model]), no run ends COMPLETED: the job ends
    FAILED, the production accuracy, the store of samples and the manager
    are what they were. *)
Theorem run_with_unregistered_version_fails env w now job m :
  current_job (orchestrator w) = Some job ->
  manager w = Some m ->
  Py.contains (saved_version now) (DeploymentManager.registry m) = false ->
  let w' := _run_retraining_job env w now in
  (exists job',
     current_job (orchestrator w') = Some job'
     /\ status job' = RetrainingStatus.FAILED
     /\ completed_at job' = Some now)
  /\ production_accuracy (orchestrator w') = production_accuracy (orchestrator w)
  /\ collector w' = collector w
  /\ manager w' = Some m.
Proof.
  intros Hjob Hmgr Hunknown w'. subst w'.
  pose proof (deploy_model_unknown_version m _ None now Hunknown) as Hdeploy.
  destruct (run_cases env w now job Hjob)
    as (job0 & job' & _ & Hcases & Hjob' & Hcur & _ & _ & _ & Hacc & Hcoll & Hman).
  destruct Hcases as [(Hsome & Hc & Ha & Hm)|Hpast].
  - destruct Hsome as [message Hraised]. rewrite Hraised in Hjob'. subst job'.
    split; [by eexists|]. split; [congruence|]. split; [congruence|].
    rewrite Hman. destruct Hm as [->|(m0 & e & m' & Hm0 & Hd & ->)]; [done|].
    congruence.
  - destruct Hpast as (_ & _ & _ & _ & _ & _ & _ & _ & _ & Hm).
    destruct Hm as [[Hnone _]|(m0 & id & m' & Hm0 & Hd & _)]; congruence.
Qed.

Lemma run_with_unregistered_version_fails_example :
  manager (_run_retraining_job Scenario.quiet_trainer
             (Scenario.scheduled_run (Some Spec.fresh_manager)) 200)
  = Some Spec.fresh_manager.
Proof.
  apply (run_with_unregistered_version_fails Scenario.quiet_trainer
           (Scenario.scheduled_run (Some Spec.fresh_manager)) 200 _
           Spec.fresh_manager eq_refl eq_refl).
  reflexivity.
Defined.



(** X21. [get_job_history(limit)] answers, most recent first, with the
    last [limit] jobs of the history when [limit] is positive; with
    [limit = 0] it answers with the whole history, and with a negative
    [limit] with all but the first [-limit] jobs. *)
Theorem get_job_history_limit o limit :
  get_job_history o limit
  = if 0 <? limit then take (Z.to_nat limit) (reverse (job_history o))
    else reverse (drop (Z.to_nat (- limit)) (job_history o)).
Proof.
  unfold get_job_history, Py.slice_from.
  destruct (0 <? limit) eqn:Hpos.
  - apply Z.ltb_lt in Hpos. rewrite (proj2 (Z.ltb_lt (- limit) 0)) by lia.
    rewrite take_reverse. do 3 f_equal. lia.
  - apply Z.ltb_ge in Hpos. by rewrite (proj2 (Z.ltb_ge (- limit) 0)) by lia.
Qed.

End JobRuns.

(** ** The registry: deployments, rollbacks, restarts *)

Section RegistryFacts.
Import DeploymentManager RegistryReads.

(** The loop of [_start_rollout] touches the device records and the log of
    notifications only. *)
Lemma notify_all_frame info now ds m :
  let m' := foldl (notify_one info now) m ds in
  files m' = files m
  /\ registry_document m' = registry_document m
  /\ registry m' = registry m
  /\ production_version m' = production_version m
  /\ deployments m' = deployments m
  /\ notify_device m' = notify_device m.
Proof.
  revert m. induction ds as [|d ds IH]; intros m; cbn [foldl]; [done|].
  destruct (IH (notify_one info now m d)) as (-> & -> & -> & -> & -> & ->). done.
Qed.

Lemma _set_production_spec m version now old :
  Py.get version (registry m) = Some old ->
  exists m' model,
    _set_production m version now = (Py.Ok tt, m')
    /\ Py.get version (registry m') = Some model
    /\ DeployedModel.is_production model = true
    /\ DeployedModel.deployed_at model = Some now
    /\ same_artifact old model
    /\ production_version m' = Some version
    /\ registry_document m' = Some (registry m', Some version)
    /\ files m' = files m
    /\ deployments m' = deployments m
    /\ device_status m' = device_status m
    /\ notify_device m' = notify_device m.
Proof.
  intros Hold. unfold _set_production.
  match goal with |- context [Py.get version ?r] => set (reg1 := r) end.
  assert (exists model0, Py.get version reg1 = Some model0 /\ same_artifact old model0)
    as (model0 & Hmodel0 & Hsame).
  { subst reg1. destruct (production_version m) as [pv|]; [|by exists old].
    destruct (Py.truthy_str pv); [|by exists old].
    destruct (Py.get pv (registry m)) as [prev|] eqn:Hpv; [|by exists old].
    rewrite get_set. case_decide as Heq; [|by exists old].
    subst pv. rewrite Hold in Hpv. injection Hpv as <-.
    by exists (DeployedModel.demote old). }
  rewrite Hmodel0. eexists _, _. split; [done|]. cbn.
  rewrite get_set_eq. unfold same_artifact in *.
  destruct Hsame as (? & ? & ? & ? & ? & ? & ?). by repeat split.
Qed.

Lemma _start_rollout_spec m id now job model :
  Py.get id (deployments m) = Some job ->
  Py.get (DeploymentJob.model_version job) (registry m) = Some model ->
  exists m',
    _start_rollout m id now = (Py.Ok tt, m')
    /\ deployments m'
       = Py.set id (DeploymentJob.with_status DeploymentStatus.ROLLING_OUT job)
           (deployments m)
    /\ files m' = files m
    /\ registry_document m' = registry_document m
    /\ registry m' = registry m
    /\ production_version m' = production_version m
    /\ notify_device m' = notify_device m
    /\ (notify_device m = false -> device_status m' = device_status m).
Proof.
  intros Hjob Hmodel. unfold _start_rollout. rewrite Hjob.
  cbn [with_deployments registry DeploymentJob.with_status DeploymentJob.model_version
       notify_device].
  rewrite Hmodel. destruct (notify_device m) eqn:Hn.
  - match goal with |- context [foldl (notify_one ?i now) ?m0 ?ds] =>
      destruct (notify_all_frame i now ds m0) as (Hf & Hd & Hr & Hp & Hdep & Hnot) end.
    eexists. split; [done|]. rewrite Hf, Hd, Hr, Hp, Hdep, Hnot. by repeat split.
  - eexists. split; [done|]. by repeat split.
Qed.

(** [deploy_model] on a registered version. *)
Lemma deploy_model_registered m version targets now old :
  Py.get version (registry m) = Some old ->
  let id := "deploy_" +:+ Py.strftime now in
  let job :=
    {| DeploymentJob.deployment_id := id;
       DeploymentJob.model_version := version;
       DeploymentJob.target_devices := default [] targets;
       DeploymentJob.status := DeploymentStatus.ROLLING_OUT;
       DeploymentJob.created_at := now;
       DeploymentJob.completed_at := None;
       DeploymentJob.success_count := 0;
       DeploymentJob.failure_count := 0 |} in
  exists m' model,
    deploy_model m version targets now = (Py.Ok id, m')
    /\ production_version m' = Some version
    /\ registry_document m' = Some (registry m', Some version)
    /\ Py.get version (registry m') = Some model
    /\ DeployedModel.is_production model = true
    /\ DeployedModel.deployed_at model = Some now
    /\ same_artifact old model
    /\ deployments m' = Py.set id job (deployments m)
    /\ notify_device m' = notify_device m
    /\ (notify_device m = false -> device_status m' = device_status m).
Proof.
  intros Hold id job. unfold deploy_model.
  rewrite (proj2 (contains_true _ _)) by by exists old.
  fold id.
  match goal with |- context [_set_production ?x _ _] => set (m1 := x) end.
  match goal with _ := with_deployments (Py.set id ?j _) _ |- _ => set (job0 := j) in * end.
  destruct (_set_production_spec m1 version now old Hold)
    as (m2 & model & -> & Hmodel & Hflag & Hat & Hsame & Hpv & Hdoc & _ & Hdep & Hdev & Hnot).
  assert (Hjob : Py.get id (deployments m2) = Some job0).
  { rewrite Hdep. subst m1. cbn [deployments with_deployments]. apply get_set_eq. }
  destruct (_start_rollout_spec m2 id now job0 model Hjob Hmodel)
    as (m3 & -> & Hdep3 & _ & Hdoc3 & Hreg3 & Hpv3 & Hnot3 & Hdev3).
  exists m3, model. split; [done|]. split; [congruence|].
  split; [by rewrite Hdoc3, Hreg3|]. split; [by rewrite Hreg3|].
  do 3 (split; [done|]). split.
  - rewrite Hdep3, Hdep. subst m1. cbn [deployments with_deployments].
    clear. induction (deployments m) as [|[k v] d IH]; cbn.
    + by rewrite decide_True.
    + destruct (decide (id = k)) as [->|Hne]; cbn.
      * by rewrite decide_True.
      * rewrite decide_False by done. by rewrite IH.
  - split; [by rewrite Hnot3, Hnot|]. intros Hoff.
    rewrite Hdev3 by (by rewrite Hnot). by rewrite Hdev.
Qed.

(** X22. Deploying makes production.  [deploy_model] on a registered
    version answers with the id [deploy_<time>], leaves a job for that
    version ROLLING_OUT under this id, makes the version the production
    version with its entry flagged and stamped with the deployment time
    (the artifact fields of the entry are untouched), and writes the
    registry document; [get_production_model] then answers with that
    entry, unless the version is the empty string. *)
Theorem deploy_model_makes_version_production m version targets now old :
  get_model_info m version = Some old ->
  let r := deploy_model m version targets now in
  let id := "deploy_" +:+ Py.strftime now in
  r.1 = Py.Ok id
  /\ production_version r.2 = Some version
  /\ registry_document r.2 = Some (registry r.2, Some version)
  /\ (exists model,
        get_model_info r.2 version = Some model
        /\ DeployedModel.is_production model = true
        /\ DeployedModel.deployed_at model = Some now
        /\ same_artifact old model
        /\ (Py.truthy_str version = true -> get_production_model r.2 = Some model))
  /\ (exists job,
        get_deployment_status r.2 id = Some job
        /\ DeploymentJob.model_version job = version
        /\ DeploymentJob.target_devices job = default [] targets
        /\ open_rollout job).
Proof.
  intros Hold r id. subst r. unfold get_model_info in Hold.
  destruct (deploy_model_registered m version targets now old Hold)
    as (m' & model & -> & Hpv & Hdoc & Hmodel & Hflag & Hat & Hsame & Hdep & _).
  cbn [fst snd]. do 3 (split; [done|]). split.
  - exists model. unfold get_production_model, get_model_info. rewrite Hpv.
    do 4 (split; [done|]). by intros ->.
  - eexists. unfold get_deployment_status. rewrite Hdep, get_set_eq.
    split; [done|]. by repeat split.
Qed.

Lemma deploy_model_makes_version_production_example :
  production_version (deploy_model Spec.registered_v2 "v2" None 1704110460000000).2
  = Some "v2".
Proof.
  edestruct (deploy_model_makes_version_production Spec.registered_v2 "v2" None
               1704110460000000) as (_ & Hpv & _); [|exact Hpv].
  vm_compute. reflexivity.
Defined.

(** X23. [rollback] never raises.  It answers False and changes nothing
    (an explicit version the registry does not hold is one such case), or
    it answers True after a [deploy_model] of a registered version, which
    is then the production version: the version asked for, or, when none
    is asked for, the second entry of the registry's versions ordered by
    deployment time, latest first. *)
Theorem rollback_outcome m to_version now :
  let r := rollback m to_version now in
  (r = (Py.Ok false, m)
   /\ forall v, to_version = Some v -> get_model_info m v = None)
  \/ exists v old,
       get_model_info m v = Some old
       /\ (to_version = Some v
           \/ to_version = None
              /\ exists first at_ rest,
                   deployed_versions m = first :: (v, at_) :: rest)
       /\ r = (Py.Ok true, (deploy_model m v None now).2)
       /\ production_version r.2 = Some v.
Proof.
  intros r. subst r. unfold rollback, get_model_info.
  assert (Hdeploy : forall v,
            (Py.contains v (registry m) = false /\ Py.get v (registry m) = None)
            \/ exists old,
                 Py.contains v (registry m) = true
                 /\ Py.get v (registry m) = Some old
                 /\ (exists id, deploy_model m v None now
                                = (Py.Ok id, (deploy_model m v None now).2))
                 /\ production_version (deploy_model m v None now).2 = Some v).
  { intros v. unfold Py.contains.
    destruct (Py.get v (registry m)) as [old|] eqn:Hold; [right|by left].
    destruct (deploy_model_registered m v None now old Hold)
      as (m' & model & -> & Hpv & _).
    exists old. repeat split; try done. by eexists. }
  destruct to_version as [v|].
  - destruct (Hdeploy v) as [[-> Hnone]|(old & -> & Hold & [id ->] & Hpv)].
    + left. split; [done|]. by intros ? [= <-].
    + right. exists v, old. cbn [snd] in *. by repeat split; try left.
  - destruct (deployed_versions m) as [|first [|[v at_] rest]] eqn:Hversions;
      [by left | by left|].
    destruct (Hdeploy v) as [[-> Hnone]|(old & -> & Hold & [id ->] & Hpv)].
    + by left.
    + right. exists v, old. cbn [snd] in *. split; [done|].
      split; [right; split; [done|]; by exists first, at_, rest|]. done.
Qed.

(** X24. Without a callback no rollout is ever closed.  In every state
    the public calls reach from a new manager whose [notify_device] is not
    set, no device has a record, so [report_device_status] is without
    effect, and every deployment job is still ROLLING_OUT, without a
    completion time and with both counters at 0. *)
Theorem rollouts_stay_open_without_callback dir fs m :
  rtc step (init dir fs false) m ->
  device_status m = []
  /\ (forall device status current error now,
        report_device_status m device status current error now = m)
  /\ forall id job, get_deployment_status m id = Some job -> open_rollout job.
Proof.
  intros Hsteps.
  assert (Hinv : notify_device m = false
                 /\ device_status m = []
                 /\ forall id job, Py.get id (deployments m) = Some job ->
                      open_rollout job).
  { assert (Hinit : notify_device (init dir fs false) = false
                    /\ device_status (init dir fs false) = []
                    /\ forall id job,
                         Py.get id (deployments (init dir fs false)) = Some job ->
                         open_rollout job) by done.
    assert (Hdeployed : forall m0 version targets now,
              notify_device m0 = false /\ device_status m0 = []
              /\ (forall id job, Py.get id (deployments m0) = Some job ->
                    open_rollout job) ->
              let m' := (deploy_model m0 version targets now).2 in
              notify_device m' = false /\ device_status m' = []
              /\ (forall id job, Py.get id (deployments m') = Some job ->
                    open_rollout job)).
    { intros m0 version targets now (Hoff & Hnone & Hopen) m'. subst m'.
      destruct (Py.get version (registry m0)) as [old|] eqn:Hold.
      - destruct (deploy_model_registered m0 version targets now old Hold)
          as (m' & model & -> & _ & _ & _ & _ & _ & _ & Hdep & Hnot & Hdev).
        cbn [snd]. split; [congruence|]. split; [by rewrite Hdev|].
        intros id job. rewrite Hdep, get_set. case_decide; [|by apply Hopen].
        by intros [= <-].
      - unfold deploy_model, Py.contains. by rewrite Hold. }
    induction Hsteps as [|m1 m2 m3 Hstep _ IH]; [done|].
    apply IH. destruct Hinit as (Hoff & Hnone & Hopen). destruct Hstep.
    - unfold register_model. destruct (files m1 !! path); [|done].
      case_decide; done.
    - by apply Hdeployed.
    - unfold rollback.
      match goal with
      |- context [match ?t with Some _ => _ | None => (Py.Ok false, m1) end] =>
        destruct t as [v|] end; [|done].
      destruct (Py.contains v (registry m1)); [|done].
      pose proof (Hdeployed m1 v None now (conj Hoff (conj Hnone Hopen))) as Hd.
      by destruct (deploy_model m1 v None now) as [[?|?] ?].
    - unfold report_device_status. by rewrite Hnone. }
  destruct Hinv as (Hoff & Hnone & Hopen). split; [done|]. split; [|done].
  intros. unfold report_device_status. by rewrite Hnone.
Qed.

Lemma rollouts_stay_open_without_callback_example :
  device_status
    (deploy_model
       (register_model (init "models" (files Spec.fresh_manager) false)
          "/tmp/candidate_a.tflite" "v2" (9 # 10) None 1704110400000000).2
       "v2" (Some ["pump-1"]) 1704110460000000).2
  = [].
Proof.
  apply (rollouts_stay_open_without_callback "models" (files Spec.fresh_manager)).
  eapply rtc_l;
    [apply (step_register _ "/tmp/candidate_a.tflite" "v2" (9 # 10) None
              1704110400000000)|].
  eapply rtc_l; [apply (step_deploy _ "v2" (Some ["pump-1"]) 1704110460000000)|].
  apply rtc_refl.
Defined.

(** *** A restart *)

Lemma get_reloaded (reg : list (string * DeployedModel.t)) v :
  Py.get v (map reloaded reg) = (fun model => (reloaded (v, model)).2) <$> Py.get v reg.
Proof.
  induction reg as [|[k model] reg IH]; cbn; [done|].
  destruct (decide (v = k)) as [->|Hne]; [done | exact IH].
Qed.

Lemma flagged_version_from (models : list (string * DeployedModel.t)) acc :
  let f := fun (pv : option string) (kv : string * DeployedModel.t) =>
             if DeployedModel.is_production kv.2 then Some kv.1 else pv in
  ((forall kv, kv ∈ models -> DeployedModel.is_production kv.2 = false) ->
     foldl f acc models = acc)
  /\ (forall kv, kv ∈ models -> DeployedModel.is_production kv.2 = true ->
        exists kv', kv' ∈ models /\ DeployedModel.is_production kv'.2 = true
                    /\ foldl f acc models = Some kv'.1).
Proof.
  intros f. revert acc. induction models as [|kv0 models IH]; intros acc.
  { split; [done|]. intros kv Hin. by apply elem_of_nil in Hin. }
  cbn [foldl]. destruct (IH (f acc kv0)) as [Hnone Hsome]. split.
  - intros Hall. rewrite Hnone by (intros kv Hin; apply Hall; by right).
    unfold f. by rewrite (Hall kv0) by left.
  - intros kv Hin Hflag.
    destruct (decide (Exists (fun kv' : string * DeployedModel.t =>
                                DeployedModel.is_production kv'.2 = true) models))
      as [Hex|Hnot].
    + apply Exists_exists in Hex as (kv1 & Hin1 & Hflag1).
      destruct (Hsome kv1 Hin1 Hflag1) as (kv' & Hin' & Hflag' & ->).
      exists kv'. split; [by right | done].
    + rewrite Hnone.
      * apply elem_of_cons in Hin as [->|Hin].
        -- exists kv0. unfold f. rewrite Hflag. by split; [left|].
        -- destruct Hnot. apply Exists_exists. by exists kv.
      * intros kv1 Hin1. destruct (DeployedModel.is_production kv1.2) eqn:Hflag1; [|done].
        destruct Hnot. apply Exists_exists. by exists kv1.
Qed.

(** X25. What a restart keeps.  For a manager whose registry document is
    up to date and whose flags agree with its production version, a new
    manager on the same files knows the same versions with the same
    artifact fields, flags and deployment times; it has no deployment job
    and no device record, so rollouts in progress are lost; its
    production version is the flagged version, and there is none when no
    entry is flagged, whatever the production version was before. *)
Theorem restart_keeps_models_and_drops_rollouts m :
  registry_inv m ->
  registry_document m = Some (registry m, production_version m) ->
  let m' := restart m in
  (forall v, get_model_info m' v
             = (fun model => (reloaded (v, model)).2) <$> get_model_info m v)
  /\ (forall id, get_deployment_status m' id = None)
  /\ (forall device, get_device_deployment_status m' device = None)
  /\ (forall v model,
        get_model_info m v = Some model ->
        DeployedModel.is_production model = true ->
        production_version m' = Some v /\ production_version m = Some v)
  /\ ((forall v model,
         get_model_info m v = Some model ->
         DeployedModel.is_production model = false) ->
      production_version m' = None).
Proof.
  intros (Hnd & _ & Hprod) Hdoc m'. subst m'. unfold restart. rewrite Hdoc.
  unfold get_model_info, get_deployment_status, get_device_deployment_status.
  cbn [fst registry deployments device_status production_version].
  split; [intros v; apply get_reloaded|]. split; [done|]. split; [done|].
  unfold flagged_version.
  destruct (flagged_version_from (map reloaded (registry m)) None) as [Hnone Hsome].
  cbv zeta in Hnone, Hsome. split.
  - intros v model Hget Hflag. split; [|by apply (Hprod v model)].
    destruct (Hsome (reloaded (v, model))) as (kv' & Hin' & Hflag' & ->).
    { apply list_elem_of_fmap. exists (v, model). split; [done|].
      by apply get_elem_of. }
    { done. }
    apply list_elem_of_fmap in Hin' as ([v' model'] & -> & Hin').
    cbn in Hflag' |- *. apply (elem_of_get _ _ _ Hnd) in Hin'.
    pose proof (Hprod v model Hget Hflag). pose proof (Hprod v' model' Hin' Hflag').
    congruence.
  - intros Hall. apply Hnone. intros kv Hin.
    apply list_elem_of_fmap in Hin as ([v model] & -> & Hin).
    cbn. apply (Hall v). by apply elem_of_get.
Qed.

Lemma restart_keeps_models_and_drops_rollouts_example :
  production_version
    (restart (deploy_model Spec.registered_v2 "v2" None 1704110460000000).2)
  = Some "v2".
Proof.
  refine (proj1 (proj1 (proj2 (proj2 (proj2
            (restart_keeps_models_and_drops_rollouts
               (deploy_model Spec.registered_v2 "v2" None 1704110460000000).2 _ _))))
            "v2" _ _ _)).
  - apply deploy_model_inv. apply register_model_inv; [reflexivity|].
    apply registry_inv_init.
  - vm_compute. reflexivity.
  - vm_compute. reflexivity.
  - vm_compute. reflexivity.
Defined.

(** *** Listing the versions *)

Lemma string_leb_trans s1 s2 s3 :
  String.leb s1 s2 = true -> String.leb s2 s3 = true -> String.leb s1 s3 = true.
Proof.
  unfold String.leb. revert s2 s3.
  induction s1 as [|a1 s1 IH]; intros [|a2 s2] [|a3 s3]; cbn; try done.
  unfold Ascii.compare.
  destruct (N.compare_spec (N_of_ascii a1) (N_of_ascii a2)) as [H12|H12|H12];
    destruct (N.compare_spec (N_of_ascii a2) (N_of_ascii a3)) as [H23|H23|H23];
    try done.
  - rewrite H12, H23, N.compare_refl. apply IH.
  - intros _ _. rewrite H12. by rewrite (proj2 (N.compare_lt_iff _ _) H23).
  - intros _ _. rewrite <- H23. by rewrite (proj2 (N.compare_lt_iff _ _) H12).
  - intros _ _.
    by rewrite (proj2 (N.compare_lt_iff _ _) (N.lt_trans _ _ _ H12 H23)).
Qed.

(** X26. [list_versions] lists every registered version exactly once, the
    greatest version string first, and answers with the information of
    each: no entry of the list is [None]. *)
Theorem list_versions_sorted_and_complete m :
  exists versions,
    versions ≡ₚ Py.keys (registry m)
    /\ StronglySorted (fun a b => String.leb b a = true) versions
    /\ list_versions m = map (get_model_info m) versions
    /\ Forall is_Some (list_versions m)
    /\ length (list_versions m) = length (registry m).
Proof.
  set (down := fun a b : string => String.leb b a).
  exists (Py.sort down (Py.keys (registry m))).
  assert (Hperm : Py.sort down (Py.keys (registry m)) ≡ₚ Py.keys (registry m))
    by apply sort_Permutation.
  split; [done|]. split.
  { apply (sort_StronglySorted down).
    - intros x y. apply String.leb_total.
    - intros x y z Hxy Hyz. by apply (string_leb_trans z y x). }
  split; [done|]. split.
  - unfold list_versions. fold down. apply Forall_fmap, Forall_forall.
    intros v Hin. rewrite Hperm in Hin. unfold get_model_info. cbn.
    destruct (Py.get v (registry m)) eqn:Hget; [done|].
    by apply get_None_keys in Hget.
  - unfold list_versions. fold down.
    rewrite length_map, Hperm. unfold Py.keys. by rewrite length_map.
Qed.

End RegistryFacts.

(** ** Labeling statistics *)

Section LabelingStatistics.
Import LabelingService LabelingBatch.

Lemma distribution_from (name : string) (tasks : list LabelingTask)
    (acc : list (string * Z)) :
  let f := fun (distribution : Py.dict string Z) (task : LabelingTask) =>
             match assigned_label task with
             | Some label =>
                 if bool_decide (status task = LabelingStatus.LABELED)
                 then
                   Py.set (label_name label)
                     (default 0 (Py.get (label_name label) distribution) + 1)
                     distribution
                 else distribution
             | None => distribution
             end in
  NoDup (Py.keys acc) ->
  (forall k v, Py.get k acc = Some v -> 1 <= v) ->
  NoDup (Py.keys (foldl f acc tasks))
  /\ (forall k v, Py.get k (foldl f acc tasks) = Some v -> 1 <= v)
  /\ default 0 (Py.get name (foldl f acc tasks))
     = default 0 (Py.get name acc)
       + Z.of_nat (length (filter (labeled_as name) tasks)).
Proof.
  intros f. revert acc. induction tasks as [|task tasks IH]; intros acc Hnd Hpos.
  { cbn. split; [done|]. split; [done | lia]. }
  cbn [foldl]. rewrite filter_cons.
  assert (Hstep : NoDup (Py.keys (f acc task))
                  /\ (forall k v, Py.get k (f acc task) = Some v -> 1 <= v)
                  /\ default 0 (Py.get name (f acc task))
                     = default 0 (Py.get name acc)
                       + (if decide (labeled_as name task) then 1 else 0)).
  { unfold f, labeled_as. destruct (assigned_label task) as [label|]; cbn.
    - case_bool_decide as Hst.
      + split; [by apply NoDup_keys_set|]. split.
        * intros k v. rewrite get_set. case_decide; [|by apply Hpos].
          intros [= <-]. destruct (Py.get (label_name label) acc) as [n|] eqn:Hn; cbn.
          -- apply Hpos in Hn. lia.
          -- lia.
        * rewrite get_set.
          destruct (decide (label_name label = name)) as [<-|Hne].
          -- by rewrite decide_True.
          -- rewrite decide_False by (intros [_ [= ?]]; done). lia.
      + split; [done|]. split; [done|].
        rewrite decide_False by (by intros [? _]). lia.
    - split; [done|]. split; [done|].
      rewrite decide_False by (by intros [_ ?]). lia. }
  destruct Hstep as (Hnd' & Hpos' & Hcount).
  destruct (IH (f acc task) Hnd' Hpos') as (Hnd'' & Hpos'' & ->).
  split; [done|]. split; [done|]. rewrite Hcount. case_decide; cbn [length]; lia.
Qed.

(** X27. [get_label_distribution] counts every labeled task once, under
    the name of its label: the count under a name is the number of
    LABELED tasks whose assigned label has that name, and a name that no
    labeled task carries is not in the dictionary. *)
Theorem get_label_distribution_counts_labeled_tasks s name :
  let distribution := get_label_distribution s in
  let carrying := filter (labeled_as name) (Py.values (tasks s)) in
  NoDup (Py.keys distribution)
  /\ default 0 (Py.get name distribution) = Z.of_nat (length carrying)
  /\ (Py.get name distribution = None <-> carrying = []).
Proof.
  intros distribution carrying. subst distribution carrying.
  unfold get_label_distribution.
  destruct (distribution_from name (Py.values (tasks s)) [])
    as (Hnd & Hpos & Hcount); [apply NoDup_nil_2 | done |].
  cbv zeta in Hnd, Hpos, Hcount. cbn in Hcount. split; [done|]. split; [done|].
  split.
  - intros Hnone. rewrite Hnone in Hcount. cbn in Hcount.
    apply length_zero_iff_nil. lia.
  - intros Hnil. rewrite Hnil in Hcount. cbn in Hcount.
    match goal with |- ?g = None => destruct g as [n|] eqn:Hn; [|done] end.
    apply Hpos in Hn. cbn in Hcount. lia.
Qed.

Lemma running_rate_in_range (rate agreement : Q) (n : Z) :
  0 <= n ->
  (0 <= rate)%Q -> (rate <= 1)%Q ->
  (agreement == 0 \/ agreement == 1)%Q ->
  (0 <= (rate * inject_Z (n + 1 - 1) + agreement) / inject_Z (n + 1))%Q
  /\ ((rate * inject_Z (n + 1 - 1) + agreement) / inject_Z (n + 1) <= 1)%Q.
Proof.
  intros Hn Hlo Hhi Hagreement.
  replace (n + 1 - 1) with n by lia.
  assert (Hq : (0 <= inject_Z n)%Q).
  { change 0%Q with (inject_Z 0). by rewrite <- Zle_Qle. }
  assert (Hpos : (0 < inject_Z (n + 1))%Q).
  { change 0%Q with (inject_Z 0). rewrite <- Zlt_Qlt. lia. }
  assert (Hsucc : (inject_Z (n + 1) == inject_Z n + 1)%Q).
  { rewrite inject_Z_plus. reflexivity. }
  assert (Hprod : (0 <= rate * inject_Z n)%Q) by by apply Qmult_le_0_compat.
  assert (Hprod' : (rate * inject_Z n <= 1 * inject_Z n)%Q).
  { by apply Qmult_le_compat_r. }
  split.
  - apply Qle_shift_div_l; [done|]. rewrite Qmult_0_l.
    destruct Hagreement as [-> | ->]; lra.
  - apply Qle_shift_div_r; [done|]. rewrite Hsucc.
    destruct Hagreement as [-> | ->]; lra.
Qed.

Lemma submit_label_stats s id task label labeler conf text now :
  Py.get id (tasks s) = Some task ->
  labeler_stats (submit_label s id label labeler conf text now).2
  = match assigned_to (label_task label labeler conf text now task) with
    | Some name =>
        if Py.truthy_str name
        then _update_labeler_stats (labeler_stats s) name
               (label_task label labeler conf text now task)
        else labeler_stats s
    | None => labeler_stats s
    end.
Proof.
  intros Hget. unfold submit_label. rewrite Hget.
  destruct (on_label_assigned s) as [callback|]; [|done].
  by destruct (callback _).
Qed.

(** X28. The statistics of the labelers stay in range.  If every entry of
    [labeler_stats] has a count that is not negative and an agreement rate
    between 0 and 1, so it has after [submit_label]; when the labeled task
    ends up assigned to a labeler with a name, the count of that labeler
    is one more than before and the entries of the other labelers are
    untouched, and otherwise no entry changes. *)
Theorem submit_label_keeps_rates_in_range s id label labeler conf text now :
  (forall name entry,
     Py.get name (labeler_stats s) = Some entry -> entry_in_range entry) ->
  let s' := (submit_label s id label labeler conf text now).2 in
  (forall name entry,
     Py.get name (labeler_stats s') = Some entry -> entry_in_range entry)
  /\ match label_task label labeler conf text now <$> Py.get id (tasks s) with
     | Some task' =>
         match assigned_to task' with
         | Some name =>
             if Py.truthy_str name then
               LabelingService.completed (entry_of s' name)
               = LabelingService.completed (entry_of s name) + 1
               /\ forall other, other <> name ->
                    Py.get other (labeler_stats s') = Py.get other (labeler_stats s)
             else labeler_stats s' = labeler_stats s
         | None => labeler_stats s' = labeler_stats s
         end
     | None => labeler_stats s' = labeler_stats s
     end.
Proof.
  intros Hrange s'. subst s'.
  destruct (Py.get id (tasks s)) as [task|] eqn:Hget; cbn [fmap option_fmap option_map].
  2: { unfold submit_label. by rewrite Hget. }
  unfold entry_of. rewrite (submit_label_stats s id task) by done.
  set (task' := label_task label labeler conf text now task).
  destruct (assigned_to task') as [name|]; [|done].
  destruct (Py.truthy_str name); [|done].
  unfold _update_labeler_stats. cbv zeta.
  set (entry := default fresh_entry (Py.get name (labeler_stats s))).
  assert (Hentry : entry_in_range entry).
  { unfold entry. destruct (Py.get name (labeler_stats s)) as [e|] eqn:He; cbn.
    - by apply (Hrange name).
    - unfold entry_in_range. cbn. repeat split; [lia | lra | lra]. }
  destruct Hentry as (Hcount & Hlo & Hhi).
  split.
  - intros other e. rewrite get_set. case_decide; [|by apply Hrange].
    intros [= <-]. unfold entry_in_range. cbn. split; [lia|].
    apply running_rate_in_range; try done.
    case_bool_decide; [by right | by left].
  - rewrite get_set_eq. cbn. split; [done|].
    intros other Hother. by rewrite get_set_ne.
Qed.

Lemma submit_label_keeps_rates_in_range_example :
  entry_in_range
    (entry_of (submit_label Spec.review_queue 2 1 (Some "ann") 1 "" 200).2 "ann").
Proof.
  destruct (submit_label_keeps_rates_in_range Spec.review_queue 2 1 (Some "ann") 1 ""
              200) as [Hrange _].
  - intros name entry Hget. discriminate Hget.
  - apply (Hrange "ann"). vm_compute. reflexivity.
Defined.

End LabelingStatistics.
